(** * The storefront's client-side cart and checkout logic

    A shallow embedding of the cart store ([lib/stores/cart]), the cart
    island, the checkout islands (address form, shipping selector, payment
    form), the search island and the price formatter, with the properties
    the specification states about them.

    JavaScript handlers are embedded in a state-and-exception monad: a
    computation takes the current state and yields a completion (a value
    or a thrown exception) together with the new state.  An [await] on a
    backend call is a call to an oracle that gives the call's outcome;
    every such call is recorded in the environment's trace. *)

From Stdlib Require Import ZArith NArith List String Ascii Bool Lia.
From stdpp Require Import base option list strings gmap pretty.

Local Open Scope string_scope.
Local Open Scope list_scope.
Local Open Scope Z_scope.

(** ** Completions and the handler monad *)

Inductive Exn : Type :=
| JsError (msg : string).

Inductive Completion (A : Type) : Type :=
| Normal (a : A)
| Thrown (e : Exn).
Arguments Normal {A} a.
Arguments Thrown {A} e.

Definition Js (S A : Type) : Type := S -> Completion A * S.

Definition ret {S A} (a : A) : Js S A := fun s => (Normal a, s).

Definition throw {S A} (e : Exn) : Js S A := fun s => (Thrown e, s).

Definition bind {S A B} (m : Js S A) (k : A -> Js S B) : Js S B :=
  fun s =>
    match m s with
    | (Normal a, s') => k a s'
    | (Thrown e, s') => (Thrown e, s')
    end.

Declare Scope js_scope.
Delimit Scope js_scope with js.
Notation "x <- m ;; k" := (bind m (fun x => k))
  (at level 100, m at next level, right associativity) : js_scope.
Notation "m ;; k" := (bind m (fun _ => k))
  (at level 100, right associativity) : js_scope.
Local Open Scope js_scope.

Definition gets {S A} (f : S -> A) : Js S A := fun s => (Normal (f s), s).

Definition modify {S} (f : S -> S) : Js S unit := fun s => (Normal tt, f s).

(** [try { body } catch (e) { handler e }] *)
Definition try_catch {S A} (body : Js S A) (handler : Exn -> Js S A) : Js S A :=
  fun s =>
    match body s with
    | (Normal a, s') => (Normal a, s')
    | (Thrown e, s') => handler e s'
    end.

(** [try { body } finally { fin }]: the body's completion stands unless
    the finaliser itself throws. *)
Definition try_finally {S A} (body : Js S A) (fin : Js S unit) : Js S A :=
  fun s =>
    match body s with
    | (c, s') =>
        match fin s' with
        | (Normal _, s'') => (c, s'')
        | (Thrown e, s'') => (Thrown e, s'')
        end
    end.

(** JavaScript truthiness of a string, and of a possibly missing one. *)
Definition truthy (s : string) : bool :=
  match s with
  | EmptyString => false
  | String _ _ => true
  end.

Definition truthy_opt (o : option string) : bool :=
  match o with
  | Some s => truthy s
  | None => false
  end.

(** [if (v)] for a value that is an object when present. *)
Definition is_set {A} (o : option A) : bool :=
  match o with
  | Some _ => true
  | None => false
  end.

(** ** Text typed by the user: UTF-16 code units *)

Definition jsstring : Type := list N.

Definition js (s : string) : jsstring :=
  map N_of_ascii (list_ascii_of_string s).

(** The characters [String.prototype.trim] strips and the pattern class
    [\s] matches: WhiteSpace and LineTerminator. *)
Definition isWhiteSpace (c : N) : bool :=
  ((c =? 9) || (c =? 10) || (c =? 11) || (c =? 12) || (c =? 13)
   || (c =? 32) || (c =? 160) || (c =? 5760)
   || ((8192 <=? c) && (c <=? 8202))
   || (c =? 8232) || (c =? 8233) || (c =? 8239) || (c =? 8287)
   || (c =? 12288) || (c =? 65279))%N.

Fixpoint trimStart (s : jsstring) : jsstring :=
  match s with
  | [] => []
  | c :: s' => if isWhiteSpace c then trimStart s' else s
  end.

Definition trimEnd (s : jsstring) : jsstring := rev (trimStart (rev s)).

Definition trim (s : jsstring) : jsstring := trimEnd (trimStart s).

(** [!s] for a string [s]. *)
Definition js_empty (s : jsstring) : bool :=
  match s with
  | [] => true
  | _ :: _ => false
  end.

(** *** Regular expressions, matched by derivatives *)

Inductive Regex : Type :=
| RNone
| REps
| RClass (p : N -> bool)
| RSeq (r1 r2 : Regex)
| RAlt (r1 r2 : Regex)
| RStar (r : Regex).

Definition RPlus (r : Regex) : Regex := RSeq r (RStar r).

Fixpoint nullable (r : Regex) : bool :=
  match r with
  | RNone => false
  | REps => true
  | RClass _ => false
  | RSeq r1 r2 => nullable r1 && nullable r2
  | RAlt r1 r2 => nullable r1 || nullable r2
  | RStar _ => true
  end.

Fixpoint deriv (c : N) (r : Regex) : Regex :=
  match r with
  | RNone => RNone
  | REps => RNone
  | RClass p => if p c then REps else RNone
  | RSeq r1 r2 =>
      if nullable r1 then RAlt (RSeq (deriv c r1) r2) (deriv c r2)
      else RSeq (deriv c r1) r2
  | RAlt r1 r2 => RAlt (deriv c r1) (deriv c r2)
  | RStar r' => RSeq (deriv c r') (RStar r')
  end.

(** [/^r$/.test(s)] *)
Fixpoint regex_test (r : Regex) (s : jsstring) : bool :=
  match s with
  | [] => nullable r
  | c :: s' => regex_test (deriv c r) s'
  end.

(** ** Data model *)

Record StoreCartLineItem : Type := {
  item_id : string;
  title : string;
  quantity : Z;
  unit_price : Z
}.

(** A point in time ([string | Date] in the API's types: an ISO-8601
    date-time or a [Date]).  Used as a condition it is true, a date-time
    being never the empty string. *)
Record Timestamp : Type := {
  epoch_ms : Z
}.

(** The cart snapshot.  [items] may be missing; [completed_at] is set
    once the cart has been turned into an order. *)
Record StoreCart : Type := {
  cart_id : string;
  items : option (list StoreCartLineItem);
  completed_at : option Timestamp;
  region_id : option string;
  currency_code : option string;
  total : option Z
}.

Record StoreOrder : Type := {
  order_id : string
}.

Record CartResponse : Type := {
  cart : StoreCart
}.

(** The two shapes of a cart-completion response, told apart by their
    [type] field: [{type: "order", order}] and [{type: "cart", cart}]. *)
Inductive CompleteResponse : Type :=
| CompletedOrder (order : StoreOrder)
| CompletedCart (c : StoreCart).

(** [response.type] *)
Definition response_type (r : CompleteResponse) : string :=
  match r with
  | CompletedOrder _ => "order"
  | CompletedCart _ => "cart"
  end.

Record StoreProduct : Type := {
  product_id : string;
  product_title : string
}.

Record ShippingAddress : Type := {
  first_name : jsstring;
  last_name : jsstring;
  address_1 : jsstring;
  address_2 : option jsstring;
  city : jsstring;
  postal_code : jsstring;
  country_code : jsstring;
  phone : option jsstring
}.

(** The body of the cart update the address step sends. *)
Record UpdateCartBody : Type := {
  email : jsstring;
  shipping_address : ShippingAddress
}.

(** The remote commerce API, as far as the handlers below call it: each
    field gives the outcome of the call with those arguments. *)
Record Backend : Type := {
  removeLineItem : string -> string -> Completion unit;
  getCart : string -> Completion CartResponse;
  updateLineItem : string -> string -> Z -> Completion CartResponse;
  updateCart : string -> UpdateCartBody -> Completion CartResponse;
  addShippingMethod : string -> string -> Completion CartResponse;
  completeCart : string -> Completion CompleteResponse;
  listProducts : jsstring -> Z -> Completion (list StoreProduct)
}.

(** ** Environment: browser storage, store atoms and the trace *)

(** [localStorage]: either unusable (every access throws) or a key-value
    table. *)
Inductive LocalStorage : Type :=
| StorageUnavailable
| StorageAvailable (entries : gmap string string).

(** What the console, the backend and the parent component see of a
    handler, in the order it happens. *)
Inductive Event : Type :=
| ConsoleWarn (msg : string)
| ConsoleError (msg : string)
| FetchCart (cartId : string)
| RemoveLineItem (cartId lineItemId : string)
| GetCart (cartId : string)
| UpdateLineItem (cartId lineItemId : string) (qty : Z)
| UpdateCart (cartId : string) (body : UpdateCartBody)
| AddShippingMethod (cartId optionId : string)
| CompleteCart (cartId : string)
| ListProducts (q : jsstring) (limit : Z)
| OnCompleteOrder (o : StoreOrder)
| OnCompleteShipping.

(** [window] is [None] where [typeof window === "undefined"]. *)
Record Env : Type := {
  window : option LocalStorage;
  atom_cart : option StoreCart;
  atom_cartAnnouncement : option string;
  atom_cartLoading : bool;
  trace : list Event
}.

Definition with_window (w : option LocalStorage) (e : Env) : Env :=
  {| window := w; atom_cart := atom_cart e;
     atom_cartAnnouncement := atom_cartAnnouncement e;
     atom_cartLoading := atom_cartLoading e; trace := trace e |}.

Definition with_cart (c : option StoreCart) (e : Env) : Env :=
  {| window := window e; atom_cart := c;
     atom_cartAnnouncement := atom_cartAnnouncement e;
     atom_cartLoading := atom_cartLoading e; trace := trace e |}.

Definition with_cartAnnouncement (a : option string) (e : Env) : Env :=
  {| window := window e; atom_cart := atom_cart e;
     atom_cartAnnouncement := a;
     atom_cartLoading := atom_cartLoading e; trace := trace e |}.

Definition with_cartLoading (b : bool) (e : Env) : Env :=
  {| window := window e; atom_cart := atom_cart e;
     atom_cartAnnouncement := atom_cartAnnouncement e;
     atom_cartLoading := b; trace := trace e |}.

Definition with_trace (t : list Event) (e : Env) : Env :=
  {| window := window e; atom_cart := atom_cart e;
     atom_cartAnnouncement := atom_cartAnnouncement e;
     atom_cartLoading := atom_cartLoading e; trace := t |}.

Definition emit (ev : Event) : Js Env unit :=
  modify (fun e => with_trace (trace e ++ [ev]) e).

(** A backend call: recorded in the trace, its outcome given by the
    oracle. *)
Definition request {A} (ev : Event) (outcome : Completion A) : Js Env A :=
  emit ev ;; (fun e => (outcome, e)).

(** *** localStorage *)

Definition storage_error : Exn := JsError "localStorage is not available".

Definition localStorage_getItem (k : string) : Js Env (option string) :=
  fun e =>
    match window e with
    | Some (StorageAvailable m) => (Normal (m !! k), e)
    | _ => (Thrown storage_error, e)
    end.

Definition localStorage_setItem (k v : string) : Js Env unit :=
  fun e =>
    match window e with
    | Some (StorageAvailable m) =>
        (Normal tt, with_window (Some (StorageAvailable (<[k:=v]> m))) e)
    | _ => (Thrown storage_error, e)
    end.

Definition localStorage_removeItem (k : string) : Js Env unit :=
  fun e =>
    match window e with
    | Some (StorageAvailable m) =>
        (Normal tt, with_window (Some (StorageAvailable (delete k m))) e)
    | _ => (Thrown storage_error, e)
    end.

(** ** JavaScript numbers that hold whole numbers *)

(** A JavaScript number is an IEEE-754 double.  The numbers the item
    count adds are whole numbers, so a finite one is kept as the integer
    it holds.  The sum of two doubles is their exact sum rounded to the
    nearest double: to 53 significant bits, a tie going to the even
    significand, and to an infinity from 2^1024 on. *)
Inductive JsNumber : Type :=
| Finite (z : Z)
| PlusInfinity
| MinusInfinity
| NaN.

(** The integer with at most 53 significant bits nearest to [z]. *)
Definition round_double (z : Z) : Z :=
  let a := Z.abs z in
  if a <=? 2 ^ 53 then z
  else
    let e := Z.log2 a - 52 in
    let q := a / 2 ^ e in
    let r := a mod 2 ^ e in
    let half := 2 ^ (e - 1) in
    let q' := if r <? half then q
              else if half <? r then q + 1
              else if Z.even q then q else q + 1 in
    Z.sgn z * (q' * 2 ^ e).

(** The double for the exact value [z]. *)
Definition number_of_exact (z : Z) : JsNumber :=
  let r := round_double z in
  if 2 ^ 1024 <=? r then PlusInfinity
  else if r <=? - 2 ^ 1024 then MinusInfinity
  else Finite r.

(** [a + b] *)
Definition number_add (a b : JsNumber) : JsNumber :=
  match a, b with
  | NaN, _ | _, NaN => NaN
  | PlusInfinity, MinusInfinity | MinusInfinity, PlusInfinity => NaN
  | PlusInfinity, _ | _, PlusInfinity => PlusInfinity
  | MinusInfinity, _ | _, MinusInfinity => MinusInfinity
  | Finite x, Finite y => number_of_exact (x + y)
  end.

(** ** The cart store *)

Module CartStore.

Definition CART_ID_KEY : string := "medusa_cart_id".

(** [$cartCount].  The quantities of the line items are whole numbers
    that are doubles; the additions are additions of doubles. *)
Definition cartCount (c : option StoreCart) : JsNumber :=
  match c with
  | None => Finite 0
  | Some c =>
      match items c with
      | None => Finite 0
      | Some l =>
          fold_left (fun total item => number_add total (Finite (quantity item)))
            l (Finite 0)
      end
  end.

Definition isBrowser : Js Env bool :=
  gets (fun e => match window e with Some _ => true | None => false end).

Definition getStoredCartId : Js Env (option string) :=
  b <- isBrowser ;;
  if negb b then ret None
  else try_catch (localStorage_getItem CART_ID_KEY) (fun _ => ret None).

Definition setStoredCartId (cartId : string) : Js Env unit :=
  b <- isBrowser ;;
  if negb b then ret tt
  else try_catch (localStorage_setItem CART_ID_KEY cartId)
         (fun _ => emit (ConsoleWarn "Failed to save cart ID to localStorage")).

Definition removeStoredCartId : Js Env unit :=
  b <- isBrowser ;;
  if negb b then ret tt
  else try_catch (localStorage_removeItem CART_ID_KEY) (fun _ => ret tt).

Definition setCart (c : option StoreCart) : Js Env unit :=
  modify (with_cart c) ;;
  match c with
  | Some c' => if truthy (cart_id c') then setStoredCartId (cart_id c') else ret tt
  | None => ret tt
  end.

Definition clearCart : Js Env unit :=
  modify (with_cart None) ;;
  removeStoredCartId.

Definition initializeCart (fetchCart : string -> Completion (option CartResponse))
  : Js Env (option StoreCart) :=
  storedCartId <- getStoredCartId ;;
  match storedCartId with
  | None => ret None
  | Some storedCartId =>
      if negb (truthy storedCartId) then ret None
      else
        modify (with_cartLoading true) ;;
        try_catch
          (response <- request (FetchCart storedCartId) (fetchCart storedCartId) ;;
           match response with
           | Some r =>
               if is_set (completed_at (cart r)) then
                 removeStoredCartId ;;
                 modify (with_cartLoading false) ;;
                 ret None
               else
                 modify (with_cart (Some (cart r))) ;;
                 modify (with_cartLoading false) ;;
                 ret (Some (cart r))
           | None =>
               removeStoredCartId ;;
               modify (with_cartLoading false) ;;
               ret None
           end)
          (fun _ =>
             emit (ConsoleWarn "Failed to load cart from storage:") ;;
             removeStoredCartId ;;
             modify (with_cartLoading false) ;;
             ret None)
  end.

End CartStore.

(** ** Islands: a component is the shared environment and its own hooks *)

Record Component (L : Type) : Type := {
  env : Env;
  hooks : L
}.
Arguments env {L} _.
Arguments hooks {L} _.

Definition inEnv {L A} (m : Js Env A) : Js (Component L) A :=
  fun s =>
    match m (env s) with
    | (c, e') => (c, {| env := e'; hooks := hooks s |})
    end.

Definition setState {L} (f : L -> L) : Js (Component L) unit :=
  modify (fun s => {| env := env s; hooks := f (hooks s) |}).

(** [s || d] for strings. *)
Definition or_default (s d : string) : string :=
  if truthy s then s else d.

(** ** Cart island *)

Module Cart.

Record Hooks : Type := {
  updatingItems : gmap string bool;
  error : option string
}.

Definition setUpdatingItems (f : gmap string bool -> gmap string bool) : Js (Component Hooks) unit :=
  setState (fun h => {| updatingItems := f (updatingItems h); error := error h |}).

Definition setError (v : option string) : Js (Component Hooks) unit :=
  setState (fun h => {| updatingItems := updatingItems h; error := v |}).

Section Handlers.
Variable api : Backend.

(** The quantity is a whole number; the announcement writes it in
    decimal digits, which is what the template literal gives for a whole
    number of magnitude up to 2^53. *)
Definition handleUpdateQuantity (lineItemId : string) (newQuantity : Z)
  : Js (Component Hooks) unit :=
  c <- inEnv (gets atom_cart) ;;
  match c with
  | None => ret tt
  | Some c =>
      if negb (truthy (cart_id c)) then ret tt
      else
        let item :=
          match items c with
          | Some l => find (fun i => String.eqb (item_id i) lineItemId) l
          | None => None
          end in
        let itemTitle :=
          match item with
          | Some i => or_default (title i) "Item"
          | None => "Item"
          end in
        setError None ;;
        setUpdatingItems (fun prev => <[lineItemId := true]> prev) ;;
        try_finally
          (try_catch
             (if newQuantity =? 0 then
                inEnv (request (RemoveLineItem (cart_id c) lineItemId)
                         (removeLineItem api (cart_id c) lineItemId)) ;;
                r <- inEnv (request (GetCart (cart_id c)) (getCart api (cart_id c))) ;;
                inEnv (CartStore.setCart (Some (cart r))) ;;
                inEnv (modify (with_cartAnnouncement
                                 (Some ("Removed " +:+ itemTitle +:+ " from cart"))))
              else
                r <- inEnv (request (UpdateLineItem (cart_id c) lineItemId newQuantity)
                              (updateLineItem api (cart_id c) lineItemId newQuantity)) ;;
                inEnv (CartStore.setCart (Some (cart r))) ;;
                inEnv (modify (with_cartAnnouncement
                                 (Some ("Updated quantity for " +:+ itemTitle +:+ " to "
                                        +:+ pretty newQuantity)))))
             (fun _ =>
                inEnv (emit (ConsoleError "Failed to update item")) ;;
                setError (Some "Failed to update item. Please try again.")))
          (setUpdatingItems (fun prev => delete lineItemId prev))
  end.

Definition handleRemoveItem (lineItemId : string) : Js (Component Hooks) unit :=
  handleUpdateQuantity lineItemId 0.

End Handlers.
End Cart.

(** ** Shipping step *)

Module ShippingMethodSelector.

Record ShippingOption : Type := {
  option_id : string;
  name : string;
  amount : Z;
  price_type : string
}.

Record Hooks : Type := {
  shippingOptions : list ShippingOption;
  selectedOption : option string;
  isLoading : bool;
  isSaving : bool;
  error : option string
}.

Definition setSelectedOption (v : option string) : Js (Component Hooks) unit :=
  setState (fun h =>
    {| shippingOptions := shippingOptions h; selectedOption := v;
       isLoading := isLoading h; isSaving := isSaving h; error := error h |}).

Definition setIsSaving (v : bool) : Js (Component Hooks) unit :=
  setState (fun h =>
    {| shippingOptions := shippingOptions h; selectedOption := selectedOption h;
       isLoading := isLoading h; isSaving := v; error := error h |}).

Definition setError (v : option string) : Js (Component Hooks) unit :=
  setState (fun h =>
    {| shippingOptions := shippingOptions h; selectedOption := selectedOption h;
       isLoading := isLoading h; isSaving := isSaving h; error := v |}).

Section Handlers.
Variable api : Backend.
(** The [onComplete] prop: absent, or a callback with the given outcome. *)
Variable onComplete : option (Completion unit).

Definition handleSelectOption (optionId : string) : Js (Component Hooks) unit :=
  c <- inEnv (gets atom_cart) ;;
  match c with
  | None => ret tt
  | Some c =>
      if negb (truthy (cart_id c)) then ret tt
      else
        setSelectedOption (Some optionId) ;;
        setIsSaving true ;;
        setError None ;;
        try_finally
          (try_catch
             (r <- inEnv (request (AddShippingMethod (cart_id c) optionId)
                            (addShippingMethod api (cart_id c) optionId)) ;;
              inEnv (CartStore.setCart (Some (cart r))) ;;
              match onComplete with
              | Some k => inEnv (request OnCompleteShipping k)
              | None => ret tt
              end)
             (fun _ =>
                inEnv (emit (ConsoleError "Error setting shipping method:")) ;;
                setError (Some "Failed to set shipping method. Please try again.") ;;
                setSelectedOption None))
          (setIsSaving false)
  end.

End Handlers.
End ShippingMethodSelector.

(** ** Payment step *)

Module PaymentForm.

Record PaymentProvider : Type := {
  provider_id : string;
  is_enabled : option bool
}.

Record Hooks : Type := {
  isLoading : bool;
  isProcessing : bool;
  error : option string;
  providers : list PaymentProvider;
  selectedProvider : option string
}.

Definition setIsProcessing (v : bool) : Js (Component Hooks) unit :=
  setState (fun h =>
    {| isLoading := isLoading h; isProcessing := v; error := error h;
       providers := providers h; selectedProvider := selectedProvider h |}).

Definition setError (v : option string) : Js (Component Hooks) unit :=
  setState (fun h =>
    {| isLoading := isLoading h; isProcessing := isProcessing h; error := v;
       providers := providers h; selectedProvider := selectedProvider h |}).

Section Handlers.
Variable api : Backend.
(** The [onComplete] prop: absent, or a callback whose outcome may depend
    on the order it is given. *)
Variable onComplete : option (StoreOrder -> Completion unit).

Definition handlePlaceOrder : Js (Component Hooks) unit :=
  c <- inEnv (gets atom_cart) ;;
  selected <- gets (fun s => selectedProvider (hooks s)) ;;
  match c with
  | None => ret tt
  | Some c =>
      if negb (truthy (cart_id c)) || negb (truthy_opt selected) then ret tt
      else
        setIsProcessing true ;;
        setError None ;;
        try_finally
          (try_catch
             (response <- inEnv (request (CompleteCart (cart_id c))
                                   (completeCart api (cart_id c))) ;;
              match response with
              | CompletedOrder order => (* response.type === "order" *)
                  inEnv (CartStore.setCart None) ;;
                  b <- inEnv CartStore.isBrowser ;;
                  (if b then inEnv (localStorage_removeItem "cart_id") else ret tt) ;;
                  match onComplete with
                  | Some k => inEnv (request (OnCompleteOrder order) (k order))
                  | None => ret tt
                  end
              | CompletedCart _ =>
                  setError (Some "Payment incomplete. Please check details.")
              end)
             (fun _ =>
                inEnv (emit (ConsoleError "Error placing order:")) ;;
                setError (Some "Failed to place order. Please try again.")))
          (setIsProcessing false)
  end.

End Handlers.
End PaymentForm.

(** ** Address step *)

Module CheckoutForm.

Record FormData : Type := {
  fd_email : jsstring;
  firstName : jsstring;
  lastName : jsstring;
  address : jsstring;
  apartment : jsstring;
  fd_city : jsstring;
  postalCode : jsstring;
  country : jsstring;
  fd_phone : jsstring
}.

Definition initialFormData : FormData :=
  {| fd_email := []; firstName := []; lastName := []; address := [];
     apartment := []; fd_city := []; postalCode := []; country := js "us";
     fd_phone := [] |}.

Record Hooks : Type := {
  formData : FormData;
  errors : gmap string string;
  isLoading : bool;
  apiError : option string;
  isSubmitted : bool;
  isShippingSelected : bool
}.

Definition setErrors (v : gmap string string) : Js (Component Hooks) unit :=
  setState (fun h =>
    {| formData := formData h; errors := v; isLoading := isLoading h;
       apiError := apiError h; isSubmitted := isSubmitted h;
       isShippingSelected := isShippingSelected h |}).

Definition setIsLoading (v : bool) : Js (Component Hooks) unit :=
  setState (fun h =>
    {| formData := formData h; errors := errors h; isLoading := v;
       apiError := apiError h; isSubmitted := isSubmitted h;
       isShippingSelected := isShippingSelected h |}).

Definition setApiError (v : option string) : Js (Component Hooks) unit :=
  setState (fun h =>
    {| formData := formData h; errors := errors h; isLoading := isLoading h;
       apiError := v; isSubmitted := isSubmitted h;
       isShippingSelected := isShippingSelected h |}).

Definition setIsSubmitted (v : bool) : Js (Component Hooks) unit :=
  setState (fun h =>
    {| formData := formData h; errors := errors h; isLoading := isLoading h;
       apiError := apiError h; isSubmitted := v;
       isShippingSelected := isShippingSelected h |}).

(** [[^\s@]] *)
Definition notSpaceOrAt (c : N) : bool :=
  negb (isWhiteSpace c || (c =? 64)%N).

(** [/^[^\s@]+@[^\s@]+\.[^\s@]+$/] *)
Definition EMAIL_PATTERN : Regex :=
  RSeq (RPlus (RClass notSpaceOrAt))
    (RSeq (RClass (N.eqb 64))
       (RSeq (RPlus (RClass notSpaceOrAt))
          (RSeq (RClass (N.eqb 46))
             (RPlus (RClass notSpaceOrAt))))).

(** One [if (!field.trim()) newErrors[key] = message] step. *)
Definition require (field : jsstring) (key message : string)
    (newErrors : gmap string string) : gmap string string :=
  if js_empty (trim field) then <[key := message]> newErrors else newErrors.

(** The error table [validateForm] builds. *)
Definition newErrors (fd : FormData) : gmap string string :=
  let e0 : gmap string string := ∅ in
  let e1 :=
    if js_empty (trim (fd_email fd)) then <["email" := "Email is required"]> e0
    else if negb (regex_test EMAIL_PATTERN (fd_email fd))
         then <["email" := "Please enter a valid email"]> e0
         else e0 in
  let e2 := require (firstName fd) "firstName" "First name is required" e1 in
  let e3 := require (lastName fd) "lastName" "Last name is required" e2 in
  let e4 := require (address fd) "address" "Address is required" e3 in
  let e5 := require (fd_city fd) "city" "City is required" e4 in
  let e6 := require (postalCode fd) "postalCode" "Postal code is required" e5 in
  require (country fd) "country" "Country is required" e6.

Definition validateForm : Js (Component Hooks) bool :=
  fd <- gets (fun s => formData (hooks s)) ;;
  setErrors (newErrors fd) ;;
  ret (Nat.eqb (length (map_to_list (newErrors fd))) 0).

(** [s || undefined] *)
Definition or_undefined (s : jsstring) : option jsstring :=
  if js_empty s then None else Some s.

Definition body_of (fd : FormData) : UpdateCartBody :=
  {| email := fd_email fd;
     shipping_address :=
       {| first_name := firstName fd;
          last_name := lastName fd;
          address_1 := address fd;
          address_2 := or_undefined (apartment fd);
          city := fd_city fd;
          postal_code := postalCode fd;
          country_code := country fd;
          phone := or_undefined (fd_phone fd) |} |}.

Section Handlers.
Variable api : Backend.

Definition handleSubmit : Js (Component Hooks) unit :=
  setApiError None ;;
  valid <- validateForm ;;
  if negb valid then ret tt
  else
    c <- inEnv (gets atom_cart) ;;
    match c with
    | Some c =>
        if truthy (cart_id c) then
          fd <- gets (fun s => formData (hooks s)) ;;
          setIsLoading true ;;
          try_finally
            (try_catch
               (r <- inEnv (request (UpdateCart (cart_id c) (body_of fd))
                              (updateCart api (cart_id c) (body_of fd))) ;;
                inEnv (CartStore.setCart (Some (cart r))) ;;
                setIsSubmitted true)
               (fun _ =>
                  inEnv (emit (ConsoleError "Error updating cart:")) ;;
                  setApiError (Some "Failed to save shipping information. Please try again.")))
            (setIsLoading false)
        else
          setApiError (Some "No cart found. Please add items to your cart first.")
    | None =>
        setApiError (Some "No cart found. Please add items to your cart first.")
    end.

End Handlers.
End CheckoutForm.

(** ** Price formatting *)

Module Format.

(** A [number | undefined | null] argument. *)
Inductive Amount (Num : Type) : Type :=
| Undefined
| Null
| Number (n : Num).
Arguments Undefined {Num}.
Arguments Null {Num}.
Arguments Number {Num} n.

(** [String.prototype.toUpperCase] on the letters a currency code is
    written in: on a string of ASCII characters. *)
Definition upper_ascii (a : ascii) : ascii :=
  let n := nat_of_ascii a in
  if (97 <=? n)%nat && (n <=? 122)%nat then ascii_of_nat (n - 32) else a.

Fixpoint toUpperCase (s : string) : string :=
  match s with
  | EmptyString => EmptyString
  | String a s' => String (upper_ascii a) (toUpperCase s')
  end.

(** [currencyCode?.toUpperCase() || "USD"] *)
Definition currency_of (currencyCode : option string) : string :=
  match currencyCode with
  | Some code => or_default (toUpperCase code) "USD"
  | None => "USD"
  end.

Section FormatPrice.
(** JavaScript numbers and the two library operations on them the
    formatter uses: division by 100, and
    [new Intl.NumberFormat("en-US", {style: "currency", currency}).format],
    which throws on a currency code it does not accept. *)
Variable Num : Type.
Variable div100 : Num -> Num.
Variable intl_format : string -> Num -> Completion string.

Definition formatPrice (amount : Amount Num) (currencyCode : option string)
  : Completion (option string) :=
  match amount with
  | Undefined | Null => Normal None
  | Number n =>
      let currency := currency_of currencyCode in
      match intl_format currency (div100 n) with
      | Normal s => Normal (Some s)
      | Thrown e => Thrown e
      end
  end.

End FormatPrice.
End Format.

(** ** The platform's currency formatter *)

Module Intl.

(** A letter A to Z, in either case. *)
Definition is_letter (a : ascii) : bool :=
  let n := nat_of_ascii a in
  ((65 <=? n) && (n <=? 90) || (97 <=? n) && (n <=? 122))%nat.

(** ECMA-402 [IsWellFormedCurrencyCode]: exactly three letters. *)
Definition IsWellFormedCurrencyCode (currency : string) : bool :=
  (String.length currency =? 3)%nat
  && forallb is_letter (list_ascii_of_string currency).

Definition invalid_currency : Exn :=
  JsError "RangeError: Invalid currency code".

Section NumberFormat.
Variable Num : Type.
(** The text the formatter gives for a well-formed code and a number. *)
Variable render : string -> Num -> string.

(** [new Intl.NumberFormat("en-US", {style: "currency", currency}).format(n)]:
    the constructor throws a [RangeError] on a code that is not well
    formed. *)
Definition NumberFormat_format (currency : string) (n : Num)
  : Completion string :=
  if IsWellFormedCurrencyCode currency then Normal (render currency n)
  else Thrown invalid_currency.

End NumberFormat.
End Intl.

(** ** Search island *)

Module Search.

(** A pending [setTimeout] callback of the debounce effect: the callback
    closes over the [query] of the render that scheduled it. *)
Record Timer : Type := {
  timer_id : nat;
  deadline : N;
  timer_query : jsstring
}.

Record Hooks : Type := {
  query : jsstring;
  results : list StoreProduct;
  isLoading : bool;
  isOpen : bool;
  (* the browser's clock (ms) and timer table, and the effect's cleanup *)
  clock : N;
  timers : list Timer;
  next_timer : nat;
  cleanup : option nat
}.

Definition setQuery (v : jsstring) : Js (Component Hooks) unit :=
  setState (fun h =>
    {| query := v; results := results h; isLoading := isLoading h;
       isOpen := isOpen h; clock := clock h; timers := timers h;
       next_timer := next_timer h; cleanup := cleanup h |}).

Definition setResults (v : list StoreProduct) : Js (Component Hooks) unit :=
  setState (fun h =>
    {| query := query h; results := v; isLoading := isLoading h;
       isOpen := isOpen h; clock := clock h; timers := timers h;
       next_timer := next_timer h; cleanup := cleanup h |}).

Definition setIsLoading (v : bool) : Js (Component Hooks) unit :=
  setState (fun h =>
    {| query := query h; results := results h; isLoading := v;
       isOpen := isOpen h; clock := clock h; timers := timers h;
       next_timer := next_timer h; cleanup := cleanup h |}).

Definition setIsOpen (v : bool) : Js (Component Hooks) unit :=
  setState (fun h =>
    {| query := query h; results := results h; isLoading := isLoading h;
       isOpen := v; clock := clock h; timers := timers h;
       next_timer := next_timer h; cleanup := cleanup h |}).

Definition set_clock (t : N) : Js (Component Hooks) unit :=
  setState (fun h =>
    {| query := query h; results := results h; isLoading := isLoading h;
       isOpen := isOpen h; clock := t; timers := timers h;
       next_timer := next_timer h; cleanup := cleanup h |}).

Definition set_timers (l : list Timer) : Js (Component Hooks) unit :=
  setState (fun h =>
    {| query := query h; results := results h; isLoading := isLoading h;
       isOpen := isOpen h; clock := clock h; timers := l;
       next_timer := next_timer h; cleanup := cleanup h |}).

Definition set_cleanup (c : option nat) : Js (Component Hooks) unit :=
  setState (fun h =>
    {| query := query h; results := results h; isLoading := isLoading h;
       isOpen := isOpen h; clock := clock h; timers := timers h;
       next_timer := next_timer h; cleanup := c |}).

(** [setTimeout(callback, delay)], the callback being the debounce
    effect's, closed over [q]. *)
Definition setTimeout (q : jsstring) (delay : N) : Js (Component Hooks) nat :=
  fun s =>
    let h := hooks s in
    let id := next_timer h in
    (Normal id,
     {| env := env s;
        hooks :=
          {| query := query h; results := results h; isLoading := isLoading h;
             isOpen := isOpen h; clock := clock h;
             timers := timers h ++ [{| timer_id := id;
                                        deadline := (clock h + delay)%N;
                                        timer_query := q |}];
             next_timer := S id; cleanup := cleanup h |} |}).

Definition clearTimeout (id : nat) : Js (Component Hooks) unit :=
  l <- gets (fun s => timers (hooks s)) ;;
  set_timers (filter (fun t => timer_id t ≠ id) l).

Definition DEBOUNCE_MS : N := 300.

Section Handlers.
Variable api : Backend.

(** The body of the timer callback, with the answer to the request
    taken at once; [SearchRequests] below has it arrive later. *)
Definition search (q : jsstring) : Js (Component Hooks) unit :=
  if (0 <? length (trim q))%nat then
    setIsLoading true ;;
    try_finally
      (try_catch
         (products <- inEnv (request (ListProducts q 5) (listProducts api q 5)) ;;
          setResults products ;;
          setIsOpen true)
         (fun _ =>
            inEnv (emit (ConsoleError "Search error:")) ;;
            setResults []))
      (setIsLoading false)
  else
    setResults [] ;;
    setIsOpen false.

(** The effect with dependency [[query]]: schedule the callback and keep
    the function that clears this very timer as the cleanup. *)
Definition debounce_effect : Js (Component Hooks) unit :=
  q <- gets (fun s => query (hooks s)) ;;
  timer <- setTimeout q DEBOUNCE_MS ;;
  set_cleanup (Some timer).

Definition run_cleanup : Js (Component Hooks) unit :=
  c <- gets (fun s => cleanup (hooks s)) ;;
  match c with
  | Some timer => clearTimeout timer ;; set_cleanup None
  | None => ret tt
  end.

(** [onInput]: [setQuery(value)]; a changed [query] re-renders, which
    runs the previous effect's cleanup and then the effect again. *)
Definition onInput (value : jsstring) : Js (Component Hooks) unit :=
  q <- gets (fun s => query (hooks s)) ;;
  if bool_decide (q = value) then ret tt
  else
    setQuery value ;;
    run_cleanup ;;
    debounce_effect.

(** Timers that are due run oldest first; each is taken off the table
    before its callback runs. *)
Fixpoint fire (due : list Timer) : Js (Component Hooks) unit :=
  match due with
  | [] => ret tt
  | t :: rest =>
      clearTimeout (timer_id t) ;;
      search (timer_query t) ;;
      fire rest
  end.

(** [d] milliseconds pass. *)
Definition elapse (d : N) : Js (Component Hooks) unit :=
  now <- gets (fun s => clock (hooks s)) ;;
  set_clock (now + d)%N ;;
  l <- gets (fun s => timers (hooks s)) ;;
  fire (filter (fun t => (deadline t <= now + d)%N) l).

Inductive Action : Type :=
| Input (value : jsstring)
| Elapse (d : N).

Definition step (a : Action) : Js (Component Hooks) unit :=
  match a with
  | Input v => onInput v
  | Elapse d => elapse d
  end.

Fixpoint run (l : list Action) : Js (Component Hooks) unit :=
  match l with
  | [] => ret tt
  | a :: l' => step a ;; run l'
  end.

(** The component right after its first render: empty query, and the
    effect has run once. *)
Definition mount (e : Env) : Component Hooks :=
  snd (debounce_effect
         {| env := e;
            hooks := {| query := []; results := []; isLoading := false;
                        isOpen := false; clock := 0; timers := [];
                        next_timer := 0; cleanup := None |} |}).

End Handlers.

(** The backend queries a trace holds, oldest first. *)
Definition queries (t : list Event) : list jsstring :=
  omap (fun ev => match ev with ListProducts q _ => Some q | _ => None end) t.

End Search.

(** * Notions the properties are stated with *)

(** The identifier durable client storage holds under the store's key,
    if any. *)
Definition persisted (e : Env) : option string :=
  match window e with
  | Some (StorageAvailable m) => m !! CartStore.CART_ID_KEY
  | _ => None
  end.

(** The sum of the quantities of a list of line items. *)
Fixpoint sum_quantities (l : list StoreCartLineItem) : Z :=
  match l with
  | [] => 0
  | i :: l' => quantity i + sum_quantities l'
  end.

(** The sum of the magnitudes of the quantities; for quantities that are
    not negative it is their sum. *)
Fixpoint sum_magnitudes (l : list StoreCartLineItem) : Z :=
  match l with
  | [] => 0
  | i :: l' => Z.abs (quantity i) + sum_magnitudes l'
  end.

(** Empty or whitespace-only. *)
Definition blank (s : jsstring) : bool := forallb isWhiteSpace s.

(** The strings a regular expression denotes. *)
Inductive matches : Regex -> jsstring -> Prop :=
| matches_eps : matches REps []
| matches_class (p : N -> bool) (c : N) : p c = true -> matches (RClass p) [c]
| matches_seq (r1 r2 : Regex) (s1 s2 : jsstring) :
    matches r1 s1 -> matches r2 s2 -> matches (RSeq r1 r2) (s1 ++ s2)
| matches_alt_l (r1 r2 : Regex) (s : jsstring) :
    matches r1 s -> matches (RAlt r1 r2) s
| matches_alt_r (r1 r2 : Regex) (s : jsstring) :
    matches r2 s -> matches (RAlt r1 r2) s
| matches_star_nil (r : Regex) : matches (RStar r) []
| matches_star_cons (r : Regex) (s1 s2 : jsstring) :
    matches r s1 -> matches (RStar r) s2 -> matches (RStar r) (s1 ++ s2).

(** A non-empty run of characters of the class [p]. *)
Definition run_of (p : N -> bool) (s : jsstring) : Prop :=
  s <> [] /\ forallb p s = true.

(** [m] only appends to the trace, and every event it appends satisfies
    [P]. *)
Definition emits_only {S A} (tr : S -> list Event) (P : Event -> Prop)
    (m : Js S A) : Prop :=
  forall s, exists new, tr (snd (m s)) = tr s ++ new /\ Forall P new.

Definition is_quantity_update (ev : Event) : bool :=
  match ev with
  | UpdateLineItem _ _ _ => true
  | _ => false
  end.

(** No quantity update for a quantity of 0. *)
Definition no_zero_update (ev : Event) : Prop :=
  match ev with
  | UpdateLineItem _ _ q => q <> 0
  | _ => True
  end.

Definition is_shipping_submit (ev : Event) : bool :=
  match ev with
  | AddShippingMethod _ _ => true
  | _ => false
  end.

(** The environment [initializeCart] leaves when it discards the
    persisted identifier after fetching it. *)
Definition discarded (events : list Event) (m : gmap string string)
    (e : Env) : Env :=
  with_cartLoading false
    (with_window (Some (StorageAvailable (delete CartStore.CART_ID_KEY m)))
       (with_cartLoading true
          (with_trace (trace e ++ events) e))).

(** The search island's debounce invariant: at most one timer is
    pending; it is the one the effect's cleanup clears, and its callback
    closes over the current query. *)
Definition debounced (h : Search.Hooks) : Prop :=
  Search.timers h = []
  \/ exists t, Search.timers h = [t]
               /\ Search.cleanup h = Some (Search.timer_id t)
               /\ Search.timer_query t = Search.query h.

(** The search island after an input that changed the query to [v]. *)
Definition scheduled (v : jsstring) (s : Component Search.Hooks)
  : Component Search.Hooks :=
  {| env := env s;
     hooks :=
       {| Search.query := v;
          Search.results := Search.results (hooks s);
          Search.isLoading := Search.isLoading (hooks s);
          Search.isOpen := Search.isOpen (hooks s);
          Search.clock := Search.clock (hooks s);
          Search.timers :=
            [{| Search.timer_id := Search.next_timer (hooks s);
                Search.deadline := (Search.clock (hooks s) + Search.DEBOUNCE_MS)%N;
                Search.timer_query := v |}];
          Search.next_timer := S (Search.next_timer (hooks s));
          Search.cleanup := Some (Search.next_timer (hooks s)) |} |}.

(** The search island at time [t] with the timers [l] pending. *)
Definition at_time (t : N) (l : list Search.Timer) (s : Component Search.Hooks)
  : Component Search.Hooks :=
  {| env := env s;
     hooks :=
       {| Search.query := Search.query (hooks s);
          Search.results := Search.results (hooks s);
          Search.isLoading := Search.isLoading (hooks s);
          Search.isOpen := Search.isOpen (hooks s);
          Search.clock := t;
          Search.timers := l;
          Search.next_timer := Search.next_timer (hooks s);
          Search.cleanup := Search.cleanup (hooks s) |} |}.

(** Upper case as the specification means it, letter by letter: the
    letter of the upper-case alphabet at the place the character has in
    the lower-case alphabet, and the character itself when it is no
    lower-case letter. *)
Definition lower_case_alphabet : list ascii :=
  list_ascii_of_string "abcdefghijklmnopqrstuvwxyz".

Definition upper_case_alphabet : list ascii :=
  list_ascii_of_string "ABCDEFGHIJKLMNOPQRSTUVWXYZ".

Fixpoint position (a : ascii) (l : list ascii) : option nat :=
  match l with
  | [] => None
  | b :: l' => if Ascii.eqb a b then Some 0%nat else option_map S (position a l')
  end.

Definition uppercase_letter (a : ascii) : ascii :=
  match position a lower_case_alphabet with
  | Some i => nth i upper_case_alphabet a
  | None => a
  end.

Fixpoint uppercased (s : string) : string :=
  match s with
  | EmptyString => EmptyString
  | String a s' => String (uppercase_letter a) (uppercased s')
  end.

(** A string of ASCII characters. *)
Definition ascii_only (s : string) : bool :=
  forallb (fun a => (nat_of_ascii a <? 128)%nat) (list_ascii_of_string s).

(** The currency the specification names: the code in upper case, or
    ["USD"] when the code is missing or empty. *)
Definition currency_or_usd (currencyCode : option string) : string :=
  match currencyCode with
  | None => "USD"
  | Some "" => "USD"
  | Some code => uppercased code
  end.

(** ** Sample values *)

Definition sample_cart : StoreCart :=
  {| cart_id := "cart_01"; items := None; completed_at := None;
     region_id := None; currency_code := None; total := None |}.

Definition completed_cart : StoreCart :=
  {| cart_id := "cart_01"; items := None;
     completed_at := Some {| epoch_ms := 1700000000000 |};
     region_id := None; currency_code := None; total := None |}.

Definition sample_order : StoreOrder := {| order_id := "order_01" |}.

(** A browser with the storage table [m] and the snapshot [c]. *)
Definition browser_env (m : gmap string string) (c : option StoreCart) : Env :=
  {| window := Some (StorageAvailable m); atom_cart := c;
     atom_cartAnnouncement := None; atom_cartLoading := false; trace := [] |}.

(** A backend every call to which fails. *)
Definition failing_api : Backend :=
  {| removeLineItem := fun _ _ => Thrown (JsError "network");
     getCart := fun _ => Thrown (JsError "network");
     updateLineItem := fun _ _ _ => Thrown (JsError "network");
     updateCart := fun _ _ => Thrown (JsError "network");
     addShippingMethod := fun _ _ => Thrown (JsError "network");
     completeCart := fun _ => Thrown (JsError "network");
     listProducts := fun _ _ => Thrown (JsError "network") |}.

(** A backend that answers every call with the cart [c], and completes
    it into the order [o]. *)
Definition answering_api (c : StoreCart) (o : StoreOrder) : Backend :=
  {| removeLineItem := fun _ _ => Normal tt;
     getCart := fun _ => Normal {| cart := c |};
     updateLineItem := fun _ _ _ => Normal {| cart := c |};
     updateCart := fun _ _ => Normal {| cart := c |};
     addShippingMethod := fun _ _ => Normal {| cart := c |};
     completeCart := fun _ => Normal (CompletedOrder o);
     listProducts := fun _ _ => Normal [] |}.

Definition cart_hooks0 : Cart.Hooks :=
  {| Cart.updatingItems := ∅; Cart.error := None |}.

Definition shipping_hooks0 : ShippingMethodSelector.Hooks :=
  {| ShippingMethodSelector.shippingOptions := [];
     ShippingMethodSelector.selectedOption := None;
     ShippingMethodSelector.isLoading := false;
     ShippingMethodSelector.isSaving := false;
     ShippingMethodSelector.error := None |}.

Definition payment_hooks0 : PaymentForm.Hooks :=
  {| PaymentForm.isLoading := false; PaymentForm.isProcessing := false;
     PaymentForm.error := None; PaymentForm.providers := [];
     PaymentForm.selectedProvider := Some "pp_system_default" |}.

(** The cart ["cart_01"] is in the store and persisted under the store's
    key, and a payment provider is selected. *)
Definition paying_state : Component PaymentForm.Hooks :=
  {| env := browser_env {[CartStore.CART_ID_KEY := "cart_01"]} (Some sample_cart);
     hooks := payment_hooks0 |}.

(** An address form filled in, but for the email and first name given. *)
Definition form_with (mail first : string) : CheckoutForm.FormData :=
  {| CheckoutForm.fd_email := js mail;
     CheckoutForm.firstName := js first;
     CheckoutForm.lastName := js "Lovelace";
     CheckoutForm.address := js "12 St James Square";
     CheckoutForm.apartment := [];
     CheckoutForm.fd_city := js "London";
     CheckoutForm.postalCode := js "SW1Y 4JH";
     CheckoutForm.country := js "gb";
     CheckoutForm.fd_phone := [] |}.

Definition checkout_state (fd : CheckoutForm.FormData) (c : option StoreCart)
  : Component CheckoutForm.Hooks :=
  {| env := browser_env ∅ c;
     hooks :=
       {| CheckoutForm.formData := fd; CheckoutForm.errors := ∅;
          CheckoutForm.isLoading := false; CheckoutForm.apiError := None;
          CheckoutForm.isSubmitted := false;
          CheckoutForm.isShippingSelected := false |} |}.

Ltac js_unfold :=
  unfold CartStore.setCart, CartStore.setStoredCartId,
    CartStore.removeStoredCartId, CartStore.isBrowser,
    localStorage_setItem, localStorage_removeItem, localStorage_getItem,
    try_finally, try_catch, request, emit, inEnv, setState in *;
  unfold bind, modify, gets, ret in *.

(** * More of the storefront *)

(** ** The cart panel's atoms *)

(** A DOM element, by identity. *)
Definition Element : Type := nat.

Module CartPanel.

(** [$cartOpen], [$cartTrigger], the callbacks [closeCart] has handed to
    [setTimeout(..., 0)] (each focuses the element it names) and the
    document's focused element. *)
Record Atoms : Type := {
  atom_cartOpen : bool;
  atom_cartTrigger : option Element;
  focus_timeouts : list Element;
  activeElement : option Element
}.

Definition cartOpen_set (b : bool) : Js Atoms unit :=
  modify (fun a =>
    {| atom_cartOpen := b; atom_cartTrigger := atom_cartTrigger a;
       focus_timeouts := focus_timeouts a; activeElement := activeElement a |}).

Definition cartTrigger_set (t : option Element) : Js Atoms unit :=
  modify (fun a =>
    {| atom_cartOpen := atom_cartOpen a; atom_cartTrigger := t;
       focus_timeouts := focus_timeouts a; activeElement := activeElement a |}).

(** [setTimeout(() => trigger.focus(), 0)] *)
Definition setTimeout_focus (t : Element) : Js Atoms unit :=
  modify (fun a =>
    {| atom_cartOpen := atom_cartOpen a; atom_cartTrigger := atom_cartTrigger a;
       focus_timeouts := focus_timeouts a ++ [t];
       activeElement := activeElement a |}).

Definition openCart (trigger : option Element) : Js Atoms unit :=
  match trigger with
  | Some t => cartTrigger_set (Some t)
  | None => ret tt
  end ;;
  cartOpen_set true.

Definition closeCart : Js Atoms unit :=
  trigger <- gets atom_cartTrigger ;;
  cartOpen_set false ;;
  match trigger with
  | Some t =>
      setTimeout_focus t ;;
      cartTrigger_set None
  | None => ret tt
  end.

Definition toggleCart : Js Atoms unit :=
  o <- gets atom_cartOpen ;;
  cartOpen_set (negb o).

(** The event loop runs the pending zero-delay callbacks, oldest first. *)
Definition run_timeouts : Js Atoms unit :=
  modify (fun a =>
    {| atom_cartOpen := atom_cartOpen a; atom_cartTrigger := atom_cartTrigger a;
       focus_timeouts := [];
       activeElement := fold_left (fun _ t => Some t) (focus_timeouts a)
                          (activeElement a) |}).

(** [handleKeyDownFocusTrap]: [sidebar] is what
    [sidebarRef.current.querySelectorAll(FOCUSABLE_SELECTOR)] gives, or
    [None] without a mounted panel.  The result is the element the
    handler focuses, after preventing the default; [None] when it leaves
    the key to the browser. *)
Definition handleKeyDownFocusTrap (key : string) (shiftKey : bool)
    (sidebar : option (list Element)) (active : option Element)
  : option Element :=
  if negb (String.eqb key "Tab") then None
  else
    match sidebar with
    | None => None
    | Some focusableElements =>
        match focusableElements with
        | [] => None
        | firstElement :: _ =>
            let lastElement := List.last focusableElements firstElement in
            if shiftKey && bool_decide (active = Some firstElement)
            then Some lastElement
            else if negb shiftKey && bool_decide (active = Some lastElement)
                 then Some firstElement
                 else None
        end
    end.

End CartPanel.

(** ** Derived totals of the cart store *)

Module CartTotal.

(** [$cartTotalRaw] *)
Definition cartTotalRaw (c : option StoreCart) : Z :=
  match c with
  | Some c' => default 0 (total c')
  | None => 0
  end.

Section CartTotal.
(** JavaScript numbers as in [Format.formatPrice]; [of_Z] reads the
    integer amount of minor units as a number. *)
Variable Num : Type.
Variable of_Z : Z -> Num.
Variable div100 : Num -> Num.
Variable intl_format : string -> Num -> Completion string.

(** [$cartTotal] *)
Definition cartTotal (c : option StoreCart) : Completion (option string) :=
  match c with
  | None => Normal None
  | Some c' =>
      let total := default 0 (total c') in
      let currencyCode := default "usd" (currency_code c') in
      match intl_format (Format.toUpperCase currencyCode) (div100 (of_Z total)) with
      | Normal s => Normal (Some s)
      | Thrown e => Thrown e
      end
  end.

End CartTotal.
End CartTotal.

(** ** The component that restores the cart on page load *)

Module CartInitializer.

(** The fetch function the component hands to [initializeCart]: a failed
    [getCart] is turned into null. *)
Definition fetchCart (api : Backend) (cartId : string)
  : Completion (option CartResponse) :=
  match getCart api cartId with
  | Normal result => Normal (Some result)
  | Thrown _ => Normal None
  end.

(** The mount effect.  The promise [initializeCart] returns is dropped. *)
Definition effect (api : Backend) : Js Env unit :=
  c <- gets atom_cart ;;
  if is_set c then ret tt
  else fun e => (Normal tt, snd (CartStore.initializeCart (fetchCart api) e)).

End CartInitializer.

(** ** Islands that also use the cart panel and further backend calls *)

(** Backend calls beyond those of [Backend], as a handler issues them. *)
Inductive Call : Type :=
| CreateCart
| AddLineItem (cartId variantId : string) (qty : Z)
| InitiatePaymentSession (cartId providerId : string)
| RetrieveOrder (orderId : string)
| ListRegions (limit : Z).

Record OrderResponse : Type := {
  order : StoreOrder
}.

Record StoreRegion : Type := {
  region_ident : string;
  region_currency : string
}.

(** The outcomes of those calls. *)
Record Storefront : Type := {
  createCart : Completion CartResponse;
  addToCart : string -> string -> Z -> Completion CartResponse;
  initiatePaymentSession : StoreCart -> string -> Completion unit;
  retrieveOrder : string -> Completion OrderResponse;
  listRegions : Z -> Completion (list StoreRegion)
}.

(** An island together with the cart panel's atoms and the log of the
    calls above. *)
Record Page (L : Type) : Type := {
  island : Component L;
  panel : CartPanel.Atoms;
  calls : list Call
}.
Arguments island {L} _.
Arguments panel {L} _.
Arguments calls {L} _.

Definition inIsland {L A} (m : Js (Component L) A) : Js (Page L) A :=
  fun s =>
    match m (island s) with
    | (c, i') => (c, {| island := i'; panel := panel s; calls := calls s |})
    end.

Definition inPanel {L A} (m : Js CartPanel.Atoms A) : Js (Page L) A :=
  fun s =>
    match m (panel s) with
    | (c, p') => (c, {| island := island s; panel := p'; calls := calls s |})
    end.

(** A call of [Storefront]: logged, its outcome given by the oracle. *)
Definition call {L A} (c : Call) (outcome : Completion A) : Js (Page L) A :=
  fun s =>
    (outcome, {| island := island s; panel := panel s; calls := calls s ++ [c] |}).

(** ** Add-to-cart button *)

Module AddToCart.

Record Props : Type := {
  variantId : string;
  productTitle : option string
}.

Record Hooks : Type := {
  isLoading : bool;
  error : option string
}.

Definition setIsLoading (v : bool) : Js (Page Hooks) unit :=
  inIsland (setState (fun h => {| isLoading := v; error := error h |})).

Definition setError (v : option string) : Js (Page Hooks) unit :=
  inIsland (setState (fun h => {| isLoading := isLoading h; error := v |})).

Section Handlers.
Variable api : Storefront.
Variable props : Props.

Definition handleAddToCart : Js (Page Hooks) unit :=
  setIsLoading true ;;
  setError None ;;
  try_finally
    (try_catch
       (c <- inIsland (inEnv (gets atom_cart)) ;;
        (* let cartId = cart?.id *)
        let cartId := option_map cart_id c in
        cartId <-
          (if negb (truthy_opt cartId) then
             r <- call CreateCart (createCart api) ;;
             inIsland (inEnv (CartStore.setCart (Some (cart r)))) ;;
             ret (cart_id (cart r))
           else ret (default "" cartId)) ;;
        if negb (truthy cartId) then throw (JsError "Failed to create cart")
        else
          r <- call (AddLineItem cartId (variantId props) 1)
                 (addToCart api cartId (variantId props) 1) ;;
          inIsland (inEnv (CartStore.setCart (Some (cart r)))) ;;
          let message :=
            match productTitle props with
            | Some t => if truthy t then "Added " +:+ t +:+ " to cart"
                        else "Added item to cart"
            | None => "Added item to cart"
            end in
          inIsland (inEnv (modify (with_cartAnnouncement (Some message)))) ;;
          inPanel (CartPanel.openCart None))
       (fun _ =>
          inIsland (inEnv (emit (ConsoleError "Error adding to cart:"))) ;;
          setError (Some "Failed to add item. Please try again.")))
    (setIsLoading false).

End Handlers.
End AddToCart.

(** ** Payment step: choosing a provider *)

Module PaymentSelection.

Definition setSelectedProvider (v : option string)
  : Js (Page PaymentForm.Hooks) unit :=
  inIsland (setState (fun h =>
    {| PaymentForm.isLoading := PaymentForm.isLoading h;
       PaymentForm.isProcessing := PaymentForm.isProcessing h;
       PaymentForm.error := PaymentForm.error h;
       PaymentForm.providers := PaymentForm.providers h;
       PaymentForm.selectedProvider := v |})).

Section Handlers.
Variable api : Storefront.

(** [handleSelectPayment] of the payment form. *)
Definition handleSelectPayment (providerId : string)
  : Js (Page PaymentForm.Hooks) unit :=
  c <- inIsland (inEnv (gets atom_cart)) ;;
  match c with
  | None => ret tt
  | Some c =>
      setSelectedProvider (Some providerId) ;;
      inIsland (PaymentForm.setError None) ;;
      inIsland (PaymentForm.setIsProcessing true) ;;
      try_finally
        (try_catch
           (call (InitiatePaymentSession (cart_id c) providerId)
              (initiatePaymentSession api c providerId))
           (fun _ =>
              inIsland (inEnv (emit (ConsoleError "Error selecting payment:"))) ;;
              inIsland (PaymentForm.setError
                          (Some "Failed to initialize payment method. Please try again.")) ;;
              setSelectedProvider None))
        (inIsland (PaymentForm.setIsProcessing false))
  end.

End Handlers.
End PaymentSelection.

(** ** Address step: editing a field *)

Module CheckoutFields.
Import CheckoutForm.





End CheckoutFields.

(** ** Shipping step: the price shown for an option *)

Module ShippingPrice.
Section FormatPrice.
Variable Num : Type.
Variable of_Z : Z -> Num.
Variable div100 : Num -> Num.
Variable intl_format : string -> Num -> Completion string.

(** The selector's own [formatPrice], [cart] being the store's snapshot. *)
Definition formatPrice (c : option StoreCart) (amount : Z) : Completion string :=
  if amount =? 0 then Normal "Free"
  else
    let currencyCode :=
      match c with
      | Some c' =>
          match currency_code c' with
          | Some code => or_default (Format.toUpperCase code) "USD"
          | None => "USD"
          end
      | None => "USD"
      end in
    intl_format currencyCode (div100 (of_Z amount)).

End FormatPrice.
End ShippingPrice.

(** ** Product page: options and the variant they select *)

Module ProductActions.

Record VariantOption : Type := {
  option_id : option string;
  value : string
}.

Record Variant : Type := {
  variant_id : string;
  options : option (list VariantOption)
}.

Record Product : Type := {
  variants : option (list Variant)
}.

(** [initialOptions[id] = value] on the object literal being filled:
    the assignment creates or overwrites the own property [id], except
    for [__proto__], where it reaches the setter inherited from
    [Object.prototype], which ignores a string and creates nothing. *)
Definition assign_option (acc : gmap string string) (id value : string)
  : gmap string string :=
  if String.eqb id "__proto__" then acc else <[id := value]> acc.

(** The initial [selectedOptions]: the options of the first variant.  The
    record of selected values is the finite map of its own properties. *)
Definition initialOptions (product : Product) : gmap string string :=
  match variants product with
  | Some (firstVariant :: _) =>
      match options firstVariant with
      | Some os =>
          fold_left
            (fun (acc : gmap string string) o =>
               match option_id o with
               | Some id => if truthy id then assign_option acc id (value o)
                            else acc
               | None => acc
               end)
            os ∅
      | None => ∅
      end
  | _ => ∅
  end.

(** The callback of [variant.options?.every(...)]. *)
Definition option_selected (selectedOptions : gmap string string)
    (variantOption : VariantOption) : bool :=
  match option_id variantOption with
  | Some id =>
      if truthy id
      then bool_decide (selectedOptions !! id = Some (value variantOption))
      else false
  | None => false
  end.

(** The callback of [product.variants.find(...)]. *)
Definition variant_selected (selectedOptions : gmap string string)
    (variant : Variant) : bool :=
  match options variant with
  | Some os => forallb (option_selected selectedOptions) os
  | None => false
  end.

Definition selectedVariant (product : Product)
    (selectedOptions : gmap string string) : option Variant :=
  match variants product with
  | None => None
  | Some vs =>
      if Nat.eqb (length (map_to_list selectedOptions)) 0 then None
      else find (variant_selected selectedOptions) vs
  end.

Definition handleOptionChange (optionId value : string)
    (prev : gmap string string) : gmap string string :=
  <[optionId := value]> prev.

End ProductActions.

(** ** The default region and its cache *)

Module Regions.

(** [cachedDefaultRegion], with the log of the region requests made. *)
Record Cache : Type := {
  cachedDefaultRegion : option StoreRegion;
  requests : list Call
}.

Definition getDefaultRegion (api : Storefront) : Js Cache (option StoreRegion) :=
  cached <- gets cachedDefaultRegion ;;
  match cached with
  | Some r => ret (Some r)
  | None =>
      regions <-
        (fun s => (listRegions api 1,
                   {| cachedDefaultRegion := cachedDefaultRegion s;
                      requests := requests s ++ [ListRegions 1] |})) ;;
      match regions with
      | r :: _ =>
          modify (fun s =>
            {| cachedDefaultRegion :=
                 Some {| region_ident := region_ident r;
                         region_currency := region_currency r |};
               requests := requests s |})
      | [] => ret tt
      end ;;
      gets cachedDefaultRegion
  end.

End Regions.

(** ** Order confirmation page *)

Module OrderConfirmation.

Record Hooks : Type := {
  shown_order : option StoreOrder;
  isLoading : bool;
  error : option string
}.

Definition initialHooks : Hooks :=
  {| shown_order := None; isLoading := true; error := None |}.

Definition setOrder (v : option StoreOrder) : Js (Page Hooks) unit :=
  inIsland (setState (fun h =>
    {| shown_order := v; isLoading := isLoading h; error := error h |})).

Definition setIsLoading (v : bool) : Js (Page Hooks) unit :=
  inIsland (setState (fun h =>
    {| shown_order := shown_order h; isLoading := v; error := error h |})).

Definition setError (v : option string) : Js (Page Hooks) unit :=
  inIsland (setState (fun h =>
    {| shown_order := shown_order h; isLoading := isLoading h; error := v |})).

(** The mount effect; [orderId] is the [id] parameter of the page's URL. *)
Definition effect (api : Storefront) (orderId : option string)
  : Js (Page Hooks) unit :=
  match orderId with
  | Some id =>
      if truthy id then
        try_finally
          (try_catch
             (r <- call (RetrieveOrder id) (retrieveOrder api id) ;;
              setOrder (Some (order r)))
             (fun _ =>
                inIsland (inEnv (emit (ConsoleError "Error fetching order:"))) ;;
                setError (Some "Failed to load order details.")))
          (setIsLoading false)
      else
        setError (Some "No order ID provided.") ;;
        setIsLoading false
  | None =>
      setError (Some "No order ID provided.") ;;
      setIsLoading false
  end.

End OrderConfirmation.

(** ** Search island, with the answers arriving later *)

Module SearchRequests.
Import Search.

(** The island together with the product requests that have been sent
    and not answered yet, oldest first.  Each stands for a timer callback
    suspended at its [await]; what is kept of it is the text it asked
    for. *)
Record State : Type := {
  comp : Component Hooks;
  pending : list jsstring
}.

Definition inComp {A} (m : Js (Component Hooks) A) : Js State A :=
  fun s =>
    match m (comp s) with
    | (c, i') => (c, {| comp := i'; pending := pending s |})
    end.

Definition send (q : jsstring) : Js State unit :=
  modify (fun s => {| comp := comp s; pending := pending s ++ [q] |}).

(** The timer callback up to its [await]. *)
Definition search_begin (q : jsstring) : Js State unit :=
  if (0 <? length (trim q))%nat then
    inComp (setIsLoading true) ;;
    inComp (inEnv (emit (ListProducts q 5))) ;;
    send q
  else
    inComp (setResults [] ;; setIsOpen false).

(** The rest of the callback, run when its request is answered. *)
Definition search_resume (answer : Completion (list StoreProduct))
  : Js (Component Hooks) unit :=
  try_finally
    (try_catch
       (products <- (fun s => (answer, s)) ;;
        setResults products ;;
        setIsOpen true)
       (fun _ =>
          inEnv (emit (ConsoleError "Search error:")) ;;
          setResults []))
    (setIsLoading false).

Fixpoint drop_nth {A} (k : nat) (l : list A) : list A :=
  match l, k with
  | [], _ => []
  | _ :: l', O => l'
  | a :: l', S k' => a :: drop_nth k' l'
  end.

(** The [k]-th pending request is answered; the answers may come in any
    order. *)
Definition answer (k : nat) (a : Completion (list StoreProduct))
  : Js State unit :=
  p <- gets pending ;;
  match nth_error p k with
  | None => ret tt
  | Some _ =>
      modify (fun s => {| comp := comp s; pending := drop_nth k (pending s) |}) ;;
      inComp (search_resume a)
  end.

Fixpoint fire (due : list Timer) : Js State unit :=
  match due with
  | [] => ret tt
  | t :: rest =>
      inComp (clearTimeout (timer_id t)) ;;
      search_begin (timer_query t) ;;
      fire rest
  end.

(** [d] milliseconds pass. *)
Definition elapse (d : N) : Js State unit :=
  now <- inComp (gets (fun s => clock (hooks s))) ;;
  inComp (set_clock (now + d)%N) ;;
  l <- inComp (gets (fun s => timers (hooks s))) ;;
  fire (filter (fun t => (deadline t <= now + d)%N) l).

(** A mouse press outside the island, or a click on a result. *)
Definition close : Js State unit :=
  inComp (setIsOpen false).

Inductive Action : Type :=
| Input (value : jsstring)
| Elapse (d : N)
| Answer (k : nat) (a : Completion (list StoreProduct))
| Close.

Definition step (a : Action) : Js State unit :=
  match a with
  | Input v => inComp (onInput v)
  | Elapse d => elapse d
  | Answer k a => answer k a
  | Close => close
  end.

Fixpoint run (l : list Action) : Js State unit :=
  match l with
  | [] => ret tt
  | a :: l' => step a ;; run l'
  end.

Definition mount (e : Env) : State :=
  {| comp := Search.mount e; pending := [] |}.

End SearchRequests.

(** ** Notions the further properties are stated with *)

(** The title the cart island announces for the line item [lineItemId]
    of the snapshot [c]: the title of the first line item with that
    identifier, and "Item" when that title is empty or the snapshot has
    no such line item. *)
Inductive announced_title (c : StoreCart) (lineItemId : string)
  : string -> Prop :=
| announced_first (before after : list StoreCartLineItem)
    (i : StoreCartLineItem) :
    items c = Some (before ++ i :: after) ->
    Forall (fun j => item_id j <> lineItemId) before ->
    item_id i = lineItemId -> title i <> "" ->
    announced_title c lineItemId (title i)
| announced_untitled (before after : list StoreCartLineItem)
    (i : StoreCartLineItem) :
    items c = Some (before ++ i :: after) ->
    Forall (fun j => item_id j <> lineItemId) before ->
    item_id i = lineItemId -> title i = "" ->
    announced_title c lineItemId "Item"
| announced_missing (l : list StoreCartLineItem) :
    items c = Some l ->
    Forall (fun j => item_id j <> lineItemId) l ->
    announced_title c lineItemId "Item"
| announced_no_items :
    items c = None ->
    announced_title c lineItemId "Item".

(** A cart with a mug and a shirt in it. *)
Definition filled_cart : StoreCart :=
  {| cart_id := "cart_01";
     items := Some [{| item_id := "item_01"; title := "Mug";
                       quantity := 2; unit_price := 1200 |};
                    {| item_id := "item_02"; title := "Shirt";
                       quantity := 1; unit_price := 2500 |}];
     completed_at := None; region_id := None; currency_code := None;
     total := None |}.

Definition is_fetch (ev : Event) : bool :=
  match ev with
  | FetchCart _ => true
  | _ => false
  end.

(** Handlers run one after the other. *)
Fixpoint seq_all {S} (l : list (Js S unit)) : Js S unit :=
  match l with
  | [] => ret tt
  | m :: l' => bind m (fun _ => seq_all l')
  end.

(** The calls of a parent's [onComplete] in a trace. *)
Definition is_notification (ev : Event) : bool :=
  match ev with
  | OnCompleteOrder _ | OnCompleteShipping => true
  | _ => false
  end.

Definition is_completion (ev : Event) : bool :=
  match ev with
  | CompleteCart _ => true
  | _ => false
  end.

Ltac page_unfold :=
  unfold inIsland, inPanel, call, CartPanel.openCart, CartPanel.closeCart,
    CartPanel.cartOpen_set, CartPanel.cartTrigger_set,
    CartPanel.setTimeout_focus in *;
  js_unfold.

(** The store's snapshot has an identifier that can be used. *)
Definition usable_cart (c : option StoreCart) : bool :=
  match c with
  | Some c' => truthy (cart_id c')
  | None => false
  end.

Definition panel0 : CartPanel.Atoms :=
  {| CartPanel.atom_cartOpen := false; CartPanel.atom_cartTrigger := None;
     CartPanel.focus_timeouts := []; CartPanel.activeElement := None |}.

Definition page0 {L} (e : Env) (h : L) : Page L :=
  {| island := {| env := e; hooks := h |}; panel := panel0; calls := [] |}.

(** A storefront backend every call to which fails. *)
Definition failing_storefront : Storefront :=
  {| createCart := Thrown (JsError "network");
     addToCart := fun _ _ _ => Thrown (JsError "network");
     initiatePaymentSession := fun _ _ => Thrown (JsError "network");
     retrieveOrder := fun _ => Thrown (JsError "network");
     listRegions := fun _ => Thrown (JsError "network") |}.

(** A storefront backend that creates the cart [c0], answers an add with
    the cart [c], and has the order [o] and the regions [rs]. *)
Definition answering_storefront (c0 c : StoreCart) (o : StoreOrder)
    (rs : list StoreRegion) : Storefront :=
  {| createCart := Normal {| cart := c0 |};
     addToCart := fun _ _ _ => Normal {| cart := c |};
     initiatePaymentSession := fun _ _ => Normal tt;
     retrieveOrder := fun _ => Normal {| order := o |};
     listRegions := fun _ => Normal rs |}.

Ltac js_run :=
  repeat (progress (simpl;
    repeat match goal with
           | H : _ = Normal _ |- _ => rewrite H
           | H : _ = Thrown _ |- _ => rewrite H
           | H : truthy _ = _ |- _ => rewrite H
           | H : truthy_opt _ = _ |- _ => rewrite H
           end)).

(** The number of [@] characters of a string. *)
Definition count_at (s : jsstring) : nat :=
  length (List.filter (N.eqb 64) s).

(** The keys [validateForm] can put a message under. *)
Definition validated_keys : list string :=
  ["email"; "firstName"; "lastName"; "address"; "city"; "postalCode"; "country"].

(** What the search island may add to the trace: product queries with a
    text that is not blank and the limit 5, and console errors. *)
Definition search_event (ev : Event) : Prop :=
  match ev with
  | ListProducts q n => blank q = false /\ n = 5
  | ConsoleError _ => True
  | _ => False
  end.

(** The loading flag is on only while a request is unanswered, and
    every unanswered request is for a text that is not blank. *)
Definition requests_sound (s : SearchRequests.State) : Prop :=
  (Search.isLoading (hooks (SearchRequests.comp s)) = true ->
   SearchRequests.pending s <> [])
  /\ Forall (fun q => blank q = false) (SearchRequests.pending s).

(** A step of the search island that completes normally, only adds
    [search_event]s to the trace, leaves the rest of the environment
    alone, keeps [requests_sound], and leaves unanswered only requests
    that were so before or that it has sent itself. *)
Definition requests_step (m : Js SearchRequests.State unit) : Prop :=
  forall s, requests_sound s ->
    exists new,
      fst (m s) = Normal tt
      /\ env (SearchRequests.comp (snd (m s)))
         = with_trace (trace (env (SearchRequests.comp s)) ++ new)
             (env (SearchRequests.comp s))
      /\ Forall search_event new
      /\ requests_sound (snd (m s))
      /\ (forall q, In q (SearchRequests.pending (snd (m s))) ->
            In q (SearchRequests.pending s) \/ In (ListProducts q 5) new).

(** * Properties *)

Import CartStore.

(** ** Basic facts about conditions and storage *)

Lemma truthy_true (s : string) : truthy s = true <-> s <> "".
Proof. destruct s; simpl; split; congruence. Qed.

Lemma truthy_false (s : string) : truthy s = false <-> s = "".
Proof. destruct s; simpl; split; congruence. Qed.

Lemma getStoredCartId_persisted (e : Env) :
  getStoredCartId e = (Normal (persisted e), e).
Proof.
  destruct e as [[[|m]|] ? ? ? ?]; reflexivity.
Qed.

Lemma setStoredCartId_available (e : Env) (m : gmap string string) (v : string) :
  window e = Some (StorageAvailable m) ->
  setStoredCartId v e =
    (Normal tt, with_window (Some (StorageAvailable (<[CART_ID_KEY := v]> m))) e).
Proof.
  destruct e as [w ? ? ? ?]; simpl; intros ->. reflexivity.
Qed.

Lemma removeStoredCartId_available (e : Env) (m : gmap string string) :
  window e = Some (StorageAvailable m) ->
  removeStoredCartId e =
    (Normal tt, with_window (Some (StorageAvailable (delete CART_ID_KEY m))) e).
Proof.
  destruct e as [w ? ? ? ?]; simpl; intros ->. reflexivity.
Qed.

(** ** The item count *)

Lemma number_add_exact (x y : Z) :
  Z.abs (x + y) <= 2 ^ 53 ->
  number_add (Finite x) (Finite y) = Finite (x + y).
Proof.
  intros H. unfold number_add, number_of_exact, round_double.
  cbv zeta.
  assert (Hpow : 2 ^ 53 < 2 ^ 1024) by (apply Z.pow_lt_mono_r; lia).
  destruct (Z.leb_spec (Z.abs (x + y)) (2 ^ 53)) as [_|Hgt]; [|lia].
  destruct (Z.leb_spec (2 ^ 1024) (x + y)) as [Hbig|_]; [lia|].
  destruct (Z.leb_spec (x + y) (- 2 ^ 1024)) as [Hsmall|_]; [lia|].
  reflexivity.
Qed.

Example round_double_ties_to_even :
  round_double (2 ^ 53 + 1) = 2 ^ 53
  /\ round_double (2 ^ 53 + 2) = 2 ^ 53 + 2
  /\ round_double (2 ^ 53 + 3) = 2 ^ 53 + 4
  /\ round_double (- (2 ^ 53 + 3)) = - (2 ^ 53 + 4)
  /\ round_double (2 ^ 54 - 1) = 2 ^ 54.
Proof. repeat split; vm_compute; reflexivity. Qed.

Lemma sum_magnitudes_nonneg (l : list StoreCartLineItem) :
  0 <= sum_magnitudes l.
Proof.
  induction l as [|i l IH]; simpl; lia.
Qed.

Lemma sum_magnitudes_nonnegative (l : list StoreCartLineItem) :
  Forall (fun i => 0 <= quantity i) l -> sum_magnitudes l = sum_quantities l.
Proof.
  induction 1 as [|i l Hi _ IH]; simpl; lia.
Qed.

Lemma reduce_quantities (l : list StoreCartLineItem) (acc : Z) :
  Z.abs acc + sum_magnitudes l <= 2 ^ 53 ->
  fold_left (fun total item => number_add total (Finite (quantity item)))
    l (Finite acc)
  = Finite (acc + sum_quantities l).
Proof.
  revert acc.
  induction l as [|i l IH]; intros acc Hsum;
    cbn [fold_left sum_quantities sum_magnitudes] in *.
  - f_equal. lia.
  - pose proof (sum_magnitudes_nonneg l) as Hrest.
    rewrite number_add_exact by lia.
    rewrite IH by lia. f_equal. lia.
Qed.

(** C8, as amended: the derived item count is 0 when the cart is null
    or has no items list; and for a snapshot whose quantities are whole
    numbers with magnitudes that sum to at most 2^53, so in particular
    for quantities that are not negative and sum to at most 2^53, it is
    the sum of the quantities of all line items.  (Up to that bound
    every partial sum is a double; beyond it the additions round.) *)
Theorem cartCount_is_sum_of_quantities (c : option StoreCart) :
  (c = None \/ (exists c', c = Some c' /\ items c' = None) ->
   cartCount c = Finite 0)
  /\ (forall c' l,
        c = Some c' -> items c' = Some l ->
        sum_magnitudes l <= 2 ^ 53
        \/ (Forall (fun i => 0 <= quantity i) l /\ sum_quantities l <= 2 ^ 53) ->
        cartCount c = Finite (sum_quantities l)).
Proof.
  split.
  - intros [->|(c' & -> & Hnone)]; simpl; [reflexivity|].
    rewrite Hnone. reflexivity.
  - intros c' l -> Hl Hsum. simpl. rewrite Hl.
    apply (reduce_quantities l 0).
    destruct Hsum as [Hsum|[Hpos Hsum]].
    + simpl. exact Hsum.
    + rewrite (sum_magnitudes_nonnegative l Hpos). simpl. exact Hsum.
Qed.

Lemma cartCount_is_sum_witness :
  cartCount
    (Some {| cart_id := "cart_01";
             items := Some [{| item_id := "item_01"; title := "Mug";
                               quantity := 2; unit_price := 1200 |};
                            {| item_id := "item_02"; title := "Shirt";
                               quantity := 3; unit_price := 2500 |}];
             completed_at := None; region_id := None; currency_code := None;
             total := None |})
  = Finite 5.
Proof.
  destruct (cartCount_is_sum_of_quantities
              (Some {| cart_id := "cart_01";
                       items := Some [{| item_id := "item_01"; title := "Mug";
                                         quantity := 2; unit_price := 1200 |};
                                      {| item_id := "item_02"; title := "Shirt";
                                         quantity := 3; unit_price := 2500 |}];
                       completed_at := None; region_id := None;
                       currency_code := None; total := None |}))
    as (_ & H).
  apply (H _ _ eq_refl eq_refl).
  left. vm_compute. discriminate.
Defined.

(** The claim as first stated, for every snapshot, fails where the
    additions round: with the quantities 2^53 and 1 the count is 2^53,
    one less than their sum. *)
Lemma cartCount_rounds_counterexample :
  cartCount
    (Some {| cart_id := "cart_01";
             items := Some [{| item_id := "item_01"; title := "Mug";
                               quantity := 9007199254740992;
                               unit_price := 1200 |};
                            {| item_id := "item_02"; title := "Shirt";
                               quantity := 1; unit_price := 2500 |}];
             completed_at := None; region_id := None; currency_code := None;
             total := None |})
  = Finite 9007199254740992
  /\ sum_quantities
       [{| item_id := "item_01"; title := "Mug";
           quantity := 9007199254740992; unit_price := 1200 |};
        {| item_id := "item_02"; title := "Shirt";
           quantity := 1; unit_price := 2500 |}]
     = 9007199254740993.
Proof.
  split; vm_compute; reflexivity.
Qed.

(** ** Persisting the cart identifier *)

Lemma persisted_window (e : Env) (id : string) :
  persisted e = Some id ->
  exists m, window e = Some (StorageAvailable m) /\ m !! CART_ID_KEY = Some id.
Proof.
  unfold persisted. destruct (window e) as [[|m]|]; try discriminate. eauto.
Qed.

(** C3: with client storage at hand, [setCart] of a cart with a non-empty
    identifier stores that identifier under the storage key, and
    [clearCart] deletes the key and sets the snapshot to null.  In every
    environment, [setCart] of null only replaces the snapshot by null,
    [setCart] never removes a persisted identifier whatever its argument,
    and after [clearCart] no identifier is persisted. *)
Theorem setCart_persists_only_clearCart_removes
    (e : Env) (m : gmap string string) :
  window e = Some (StorageAvailable m) ->
  (forall c : StoreCart, cart_id c <> "" ->
     setCart (Some c) e =
       (Normal tt,
        with_window (Some (StorageAvailable (<[CART_ID_KEY := cart_id c]> m)))
          (with_cart (Some c) e)))
  /\ (forall e0 : Env, setCart None e0 = (Normal tt, with_cart None e0))
  /\ (forall (e0 : Env) (c : option StoreCart),
        is_Some (persisted e0) -> is_Some (persisted (snd (setCart c e0))))
  /\ clearCart e =
       (Normal tt,
        with_window (Some (StorageAvailable (delete CART_ID_KEY m)))
          (with_cart None e))
  /\ (forall e0 : Env,
        persisted (snd (clearCart e0)) = None
        /\ atom_cart (snd (clearCart e0)) = None).
Proof.
  intros Hw. split; [|split; [|split; [|split]]].
  - intros c Hid. apply truthy_true in Hid.
    unfold setCart, bind, modify. rewrite Hid.
    rewrite (setStoredCartId_available _ m); [reflexivity|exact Hw].
  - reflexivity.
  - intros e0 c [id Hp].
    destruct (persisted_window e0 id Hp) as (m0 & Hw0 & Hm0).
    destruct c as [c|]; [|exists id; exact Hp].
    unfold setCart, bind, modify.
    destruct (truthy (cart_id c)); [|exists id; exact Hp].
    rewrite (setStoredCartId_available _ m0); [|exact Hw0].
    unfold persisted; simpl. rewrite lookup_insert_eq. eauto.
  - unfold clearCart, bind, modify.
    rewrite (removeStoredCartId_available _ m); [reflexivity|exact Hw].
  - intros e0. destruct e0 as [[[|m0]|] ? ? ? ?]; split; try reflexivity.
    unfold persisted; simpl. apply lookup_delete_eq.
Qed.

Lemma setCart_persists_witness :
  persisted (snd (setCart (Some sample_cart) (browser_env ∅ None))) = Some "cart_01"
  /\ persisted (snd (setCart None (browser_env {[CART_ID_KEY := "cart_01"]} (Some sample_cart))))
     = Some "cart_01"
  /\ persisted (snd (clearCart (browser_env {[CART_ID_KEY := "cart_01"]} (Some sample_cart))))
     = None.
Proof.
  split; [|split].
  - destruct (setCart_persists_only_clearCart_removes (browser_env ∅ None) ∅ eq_refl)
      as (H & _).
    rewrite (H sample_cart); [reflexivity|discriminate].
  - destruct (setCart_persists_only_clearCart_removes
                (browser_env {[CART_ID_KEY := "cart_01"]} (Some sample_cart))
                {[CART_ID_KEY := "cart_01"]} eq_refl)
      as (_ & H & _).
    rewrite H. reflexivity.
  - destruct (setCart_persists_only_clearCart_removes
                (browser_env {[CART_ID_KEY := "cart_01"]} (Some sample_cart))
                {[CART_ID_KEY := "cart_01"]} eq_refl)
      as (_ & _ & _ & _ & H).
    apply H.
Defined.

(** ** Restoring the cart on page load *)

(** C2: when the persisted identifier's fetch returns a cart whose
    [completed_at] is not null, [initializeCart] returns null, leaves the
    cart store as it was, and removes the persisted identifier from
    storage; it has fetched once and reported nothing. *)
Theorem initializeCart_completed_cart_discarded
    (fetchCart : string -> Completion (option CartResponse))
    (e : Env) (id : string) (r : CartResponse) (t : Timestamp) :
  persisted e = Some id -> id <> "" ->
  fetchCart id = Normal (Some r) ->
  completed_at (cart r) = Some t ->
  exists e',
    initializeCart fetchCart e = (Normal None, e')
    /\ atom_cart e' = atom_cart e
    /\ persisted e' = None
    /\ atom_cartLoading e' = false
    /\ trace e' = trace e ++ [FetchCart id].
Proof.
  intros Hp Hid Hf Hc.
  destruct (persisted_window e id Hp) as (m & Hw & Hm).
  exists (discarded [FetchCart id] m e).
  split; [|repeat split].
  - unfold initializeCart, bind. rewrite getStoredCartId_persisted, Hp. simpl.
    apply truthy_true in Hid. rewrite Hid. simpl.
    unfold try_catch, request, bind, emit, modify. simpl.
    rewrite Hf, Hc. simpl.
    rewrite (removeStoredCartId_available _ m); [reflexivity|exact Hw].
  - unfold persisted; simpl. apply lookup_delete_eq.
Qed.

Lemma initializeCart_completed_witness :
  exists e',
    initializeCart (fun _ => Normal (Some {| cart := completed_cart |}))
      (browser_env {[CART_ID_KEY := "cart_01"]} None) = (Normal None, e')
    /\ atom_cart e' = None
    /\ persisted e' = None
    /\ atom_cartLoading e' = false
    /\ trace e' = [] ++ [FetchCart "cart_01"].
Proof.
  apply (initializeCart_completed_cart_discarded
           (fun _ => Normal (Some {| cart := completed_cart |}))
           (browser_env {[CART_ID_KEY := "cart_01"]} None)
           "cart_01" {| cart := completed_cart |} {| epoch_ms := 1700000000000 |}).
  - reflexivity.
  - discriminate.
  - reflexivity.
  - reflexivity.
Defined.

(** C6: when the supplied fetch throws or returns no cart,
    [initializeCart] completes normally with null (nothing is thrown to
    the caller), leaves the cart store and the announcement as they were,
    and removes the persisted identifier; the only thing reported is a
    console warning, and only when the fetch threw. *)
Theorem initializeCart_fetch_failure_discarded
    (fetchCart : string -> Completion (option CartResponse))
    (e : Env) (id : string) :
  persisted e = Some id -> id <> "" ->
  (fetchCart id = Normal None \/ exists x, fetchCart id = Thrown x) ->
  exists e',
    initializeCart fetchCart e = (Normal None, e')
    /\ atom_cart e' = atom_cart e
    /\ persisted e' = None
    /\ atom_cartAnnouncement e' = atom_cartAnnouncement e
    /\ atom_cartLoading e' = false
    /\ (trace e' = (trace e ++ [FetchCart id])
        \/ trace e' = (trace e ++ [FetchCart id;
                                   ConsoleWarn "Failed to load cart from storage:"])).
Proof.
  intros Hp Hid Hf.
  destruct (persisted_window e id Hp) as (m & Hw & Hm).
  apply truthy_true in Hid.
  destruct Hf as [Hf|[x Hf]].
  - exists (discarded [FetchCart id] m e).
    split; [|repeat split].
    + unfold initializeCart, bind. rewrite getStoredCartId_persisted, Hp. simpl.
      rewrite Hid. simpl.
      unfold try_catch, request, bind, emit, modify. simpl.
      rewrite Hf. simpl.
      rewrite (removeStoredCartId_available _ m); [reflexivity|exact Hw].
    + unfold persisted; simpl. apply lookup_delete_eq.
    + left. reflexivity.
  - exists (discarded
              [FetchCart id; ConsoleWarn "Failed to load cart from storage:"] m e).
    split; [|repeat split].
    + unfold initializeCart, bind. rewrite getStoredCartId_persisted, Hp. simpl.
      rewrite Hid. simpl.
      unfold try_catch, request, bind, emit, modify. simpl.
      rewrite Hf. simpl.
      rewrite (removeStoredCartId_available _ m); [|exact Hw].
      unfold discarded, with_cartLoading, with_window, with_trace; simpl.
      rewrite <- app_assoc. reflexivity.
    + unfold persisted; simpl. apply lookup_delete_eq.
    + right. simpl. reflexivity.
Qed.

Lemma initializeCart_fetch_failure_witness :
  exists e',
    initializeCart (fun _ => Thrown (JsError "404"))
      (browser_env {[CART_ID_KEY := "cart_01"]} None) = (Normal None, e')
    /\ atom_cart e' = None
    /\ persisted e' = None
    /\ atom_cartAnnouncement e' = None
    /\ atom_cartLoading e' = false
    /\ (trace e' = ([] ++ [FetchCart "cart_01"])
        \/ trace e' = ([] ++ [FetchCart "cart_01";
                               ConsoleWarn "Failed to load cart from storage:"])).
Proof.
  apply (initializeCart_fetch_failure_discarded
           (fun _ => Thrown (JsError "404"))
           (browser_env {[CART_ID_KEY := "cart_01"]} None) "cart_01").
  - reflexivity.
  - discriminate.
  - right. exists (JsError "404"). reflexivity.
Defined.

(** ** What a handler adds to the trace *)

Section EmitsOnly.
Context {S : Type} (tr : S -> list Event) (P : Event -> Prop).

Lemma emits_only_ret {A} (a : A) : emits_only tr P (ret a).
Proof. intros s. exists []. simpl. rewrite app_nil_r. auto. Qed.

Lemma emits_only_silent {A} (m : Js S A) :
  (forall s, tr (snd (m s)) = tr s) -> emits_only tr P m.
Proof. intros H s. exists []. rewrite H, app_nil_r. auto. Qed.

Lemma emits_only_bind {A B} (m : Js S A) (k : A -> Js S B) :
  emits_only tr P m -> (forall a, emits_only tr P (k a)) ->
  emits_only tr P (bind m k).
Proof.
  intros Hm Hk s. unfold bind.
  destruct (Hm s) as (n1 & E1 & F1).
  destruct (m s) as [[a|x] s1]; simpl in *.
  - destruct (Hk a s1) as (n2 & E2 & F2).
    exists (n1 ++ n2). rewrite E2, E1, app_assoc. split; [reflexivity|].
    apply Forall_app; auto.
  - exists n1. auto.
Qed.

Lemma emits_only_try_catch {A} (body : Js S A) (handler : Exn -> Js S A) :
  emits_only tr P body -> (forall x, emits_only tr P (handler x)) ->
  emits_only tr P (try_catch body handler).
Proof.
  intros Hm Hk s. unfold try_catch.
  destruct (Hm s) as (n1 & E1 & F1).
  destruct (body s) as [[a|x] s1]; simpl in *.
  - exists n1. auto.
  - destruct (Hk x s1) as (n2 & E2 & F2).
    exists (n1 ++ n2). rewrite E2, E1, app_assoc. split; [reflexivity|].
    apply Forall_app; auto.
Qed.

Lemma emits_only_try_finally {A} (body : Js S A) (fin : Js S unit) :
  emits_only tr P body -> emits_only tr P fin ->
  emits_only tr P (try_finally body fin).
Proof.
  intros Hm Hk s. unfold try_finally.
  destruct (Hm s) as (n1 & E1 & F1).
  destruct (body s) as [c s1]; simpl in *.
  destruct (Hk s1) as (n2 & E2 & F2).
  exists (n1 ++ n2). split; [|apply Forall_app; auto].
  destruct (fin s1) as [[[]|x] s2]; simpl in *; rewrite E2, E1, app_assoc; reflexivity.
Qed.

End EmitsOnly.

Lemma emits_only_inEnv {L A} (P : Event -> Prop) (m : Js Env A) :
  emits_only trace P m ->
  emits_only (fun s : Component L => trace (env s)) P (inEnv m).
Proof.
  intros Hm s. unfold inEnv.
  destruct (Hm (env s)) as (n & E & F).
  destruct (m (env s)) as [c e']; simpl in *. eauto.
Qed.

Lemma emits_only_setState {L} (P : Event -> Prop) (f : L -> L) :
  emits_only (fun s : Component L => trace (env s)) P (setState f).
Proof. apply emits_only_silent. reflexivity. Qed.

Lemma emits_only_gets {S A} (tr : S -> list Event) (P : Event -> Prop) (f : S -> A) :
  emits_only tr P (gets f).
Proof. apply emits_only_silent. reflexivity. Qed.

Lemma emits_only_emit (P : Event -> Prop) (ev : Event) :
  P ev -> emits_only trace P (emit ev).
Proof. intros H e. exists [ev]. simpl. auto. Qed.

Lemma emits_only_request {A} (P : Event -> Prop) (ev : Event) (o : Completion A) :
  P ev -> emits_only trace P (request ev o).
Proof.
  intros H e. exists [ev]. unfold request, bind, emit, modify; simpl. auto.
Qed.

Lemma emits_only_env_write (P : Event -> Prop) (f : Env -> Env) :
  (forall e, trace (f e) = trace e) -> emits_only trace P (modify f).
Proof. intros H. apply emits_only_silent. intros e. apply H. Qed.

Lemma emits_only_setCart (P : Event -> Prop) (c : option StoreCart) :
  (forall msg, P (ConsoleWarn msg)) -> emits_only trace P (setCart c).
Proof.
  intros HP e. unfold setCart, bind, modify.
  destruct c as [c|]; simpl; [|exists []; rewrite app_nil_r; auto].
  destruct (truthy (cart_id c)); simpl; [|exists []; rewrite app_nil_r; auto].
  destruct e as [[[|m]|] ? ? ? ?]; simpl.
  - exists [ConsoleWarn "Failed to save cart ID to localStorage"]. auto.
  - exists []. rewrite app_nil_r. auto.
  - exists []. rewrite app_nil_r. auto.
Qed.

(** ** Cart island: quantity changes *)

Lemma handleUpdateQuantity_no_zero_update
    (api : Backend) (lineItemId : string) (newQuantity : Z) :
  emits_only (fun s : Component Cart.Hooks => trace (env s)) no_zero_update
    (Cart.handleUpdateQuantity api lineItemId newQuantity).
Proof.
  unfold Cart.handleUpdateQuantity.
  apply emits_only_bind; [apply emits_only_inEnv, emits_only_gets|].
  intros [c|]; [|apply emits_only_ret].
  destruct (truthy (cart_id c)); simpl; [|apply emits_only_ret].
  apply emits_only_bind; [apply emits_only_setState|intros _].
  apply emits_only_bind; [apply emits_only_setState|intros _].
  apply emits_only_try_finally; [|apply emits_only_setState].
  apply emits_only_try_catch.
  - destruct (newQuantity =? 0) eqn:Hq.
    + apply emits_only_bind;
        [apply emits_only_inEnv, emits_only_request; exact I|intros _].
      apply emits_only_bind;
        [apply emits_only_inEnv, emits_only_request; exact I|intros r].
      apply emits_only_bind;
        [apply emits_only_inEnv, emits_only_setCart; intros; exact I|intros _].
      apply emits_only_inEnv, emits_only_env_write. reflexivity.
    + apply Z.eqb_neq in Hq.
      apply emits_only_bind;
        [apply emits_only_inEnv, emits_only_request; exact Hq|intros r].
      apply emits_only_bind;
        [apply emits_only_inEnv, emits_only_setCart; intros; exact I|intros _].
      apply emits_only_inEnv, emits_only_env_write. reflexivity.
  - intros x.
    apply emits_only_bind;
      [apply emits_only_inEnv, emits_only_emit; exact I|intros _].
    apply emits_only_setState.
Qed.

(** C4: with a cart in the store, asking for quantity 0 (the remove
    button does exactly that) first issues the line-item delete call and
    issues no quantity-update call; and whatever quantity is asked for, no
    quantity-update call for quantity 0 is ever issued. *)
Theorem handleUpdateQuantity_zero_issues_delete
    (api : Backend) (s : Component Cart.Hooks) (c : StoreCart)
    (lineItemId : string) :
  atom_cart (env s) = Some c -> cart_id c <> "" ->
  (exists rest,
     trace (env (snd (Cart.handleUpdateQuantity api lineItemId 0 s)))
     = (trace (env s) ++ RemoveLineItem (cart_id c) lineItemId :: rest)
     /\ forallb (fun ev => negb (is_quantity_update ev)) rest = true)
  /\ Cart.handleRemoveItem api lineItemId s
     = Cart.handleUpdateQuantity api lineItemId 0 s
  /\ (forall newQuantity : Z,
        exists new,
          trace (env (snd (Cart.handleUpdateQuantity api lineItemId newQuantity s)))
          = (trace (env s) ++ new)
          /\ forall cartId itemId, ~ In (UpdateLineItem cartId itemId 0) new).
Proof.
  intros Hc Hid. split; [|split].
  - apply truthy_true in Hid.
    destruct s as [[w ac an al tr] [u er]]; simpl in *; subst ac.
    unfold Cart.handleUpdateQuantity, Cart.setError, Cart.setUpdatingItems.
    js_unfold. simpl. rewrite Hid; simpl.
    destruct (removeLineItem api (cart_id c) lineItemId) eqn:Hr; simpl;
      [destruct (getCart api (cart_id c)) as [r|] eqn:Hg; simpl;
       [destruct (truthy (cart_id (cart r))) eqn:Hrid; simpl;
        [destruct w as [[|m]|]; simpl|]|]|];
      rewrite <- ?app_assoc; simpl; eexists; (split; reflexivity).
  - reflexivity.
  - intros q.
    destruct (handleUpdateQuantity_no_zero_update api lineItemId q s)
      as (new & E & F).
    exists new. split; [exact E|].
    intros cartId itemId Hin.
    rewrite Forall_forall in F. rewrite <- list_elem_of_In in Hin.
    apply F in Hin. simpl in Hin. congruence.
Qed.

Lemma handleUpdateQuantity_zero_witness :
  (exists rest,
     trace (env (snd (Cart.handleUpdateQuantity
                        (answering_api sample_cart sample_order)
                        "item_01" 0
                        {| env := browser_env ∅ (Some sample_cart);
                           hooks := cart_hooks0 |})))
     = ([] ++ RemoveLineItem "cart_01" "item_01" :: rest)
     /\ forallb (fun ev => negb (is_quantity_update ev)) rest = true).
Proof.
  apply (handleUpdateQuantity_zero_issues_delete
           (answering_api sample_cart sample_order)
           {| env := browser_env ∅ (Some sample_cart); hooks := cart_hooks0 |}
           sample_cart "item_01").
  - reflexivity.
  - discriminate.
Defined.

(** ** Shipping step: selecting an option *)

(** C7: with a cart in the store, selecting an option submits it to the
    backend at once, and exactly once (nothing is retried); when the
    submission succeeds the store's snapshot is replaced by the cart of
    the response; when it fails the visible selection is back to null, an
    error message is shown, and the snapshot is the one before. *)
Theorem handleSelectOption_submits_once_and_reverts_on_failure
    (api : Backend) (onComplete : option (Completion unit))
    (s s' : Component ShippingMethodSelector.Hooks) (c : StoreCart)
    (optionId : string) :
  atom_cart (env s) = Some c -> cart_id c <> "" ->
  s' = snd (ShippingMethodSelector.handleSelectOption api onComplete optionId s) ->
  (exists rest,
     trace (env s')
     = (trace (env s) ++ AddShippingMethod (cart_id c) optionId :: rest)
     /\ forallb (fun ev => negb (is_shipping_submit ev)) rest = true)
  /\ (forall r, addShippingMethod api (cart_id c) optionId = Normal r ->
        atom_cart (env s') = Some (cart r))
  /\ (forall x, addShippingMethod api (cart_id c) optionId = Thrown x ->
        ShippingMethodSelector.selectedOption (hooks s') = None
        /\ ShippingMethodSelector.error (hooks s')
           = Some "Failed to set shipping method. Please try again."
        /\ atom_cart (env s') = Some c)
  /\ ShippingMethodSelector.isSaving (hooks s') = false.
Proof.
  intros Hc Hid ->. apply truthy_true in Hid.
  destruct s as [[w ac an al tr] [so sel il isv er]]; simpl in *; subst ac.
  unfold ShippingMethodSelector.handleSelectOption,
    ShippingMethodSelector.setError, ShippingMethodSelector.setIsSaving,
    ShippingMethodSelector.setSelectedOption.
  js_unfold. simpl. rewrite Hid; simpl.
  destruct (addShippingMethod api (cart_id c) optionId) as [r|x] eqn:Ha; simpl.
  - destruct (truthy (cart_id (cart r))) eqn:Hrid; simpl;
      [destruct w as [[|m]|]; simpl|];
      (destruct onComplete as [[[]|y]|]; simpl);
      rewrite <- ?app_assoc; simpl;
      (split; [eexists; split; reflexivity|]);
      (split; [intros r' [= <-]; reflexivity|]);
      (split; [intros y' [=]|reflexivity]).
  - rewrite <- ?app_assoc; simpl.
    split; [eexists; split; reflexivity|].
    split; [intros r' [=]|].
    split; [intros y' _; repeat split|reflexivity].
Qed.

Lemma handleSelectOption_failure_witness :
  ShippingMethodSelector.selectedOption
    (hooks (snd (ShippingMethodSelector.handleSelectOption failing_api None "so_01"
                   {| env := browser_env ∅ (Some sample_cart);
                      hooks := shipping_hooks0 |}))) = None
  /\ ShippingMethodSelector.error
       (hooks (snd (ShippingMethodSelector.handleSelectOption failing_api None "so_01"
                      {| env := browser_env ∅ (Some sample_cart);
                         hooks := shipping_hooks0 |})))
     = Some "Failed to set shipping method. Please try again."
  /\ atom_cart
       (env (snd (ShippingMethodSelector.handleSelectOption failing_api None "so_01"
                    {| env := browser_env ∅ (Some sample_cart);
                       hooks := shipping_hooks0 |})))
     = Some sample_cart.
Proof.
  destruct (handleSelectOption_submits_once_and_reverts_on_failure
              failing_api None
              {| env := browser_env ∅ (Some sample_cart); hooks := shipping_hooks0 |}
              _ sample_cart "so_01" eq_refl ltac:(discriminate) eq_refl)
    as (_ & _ & H & _).
  apply (H (JsError "network")). reflexivity.
Defined.

(** ** Payment step: placing the order *)

Lemma cart_id_key_is_not_the_store_key : "cart_id" <> CART_ID_KEY.
Proof. discriminate. Qed.

(** C1, as the code has it: when the completion call answers with an
    order, the cart store is set to null and [onComplete] is called with
    the order, but the identifier persisted under the store's key stays
    in storage: the handler removes the key ["cart_id"], which is not
    the key the store writes. *)
Theorem handlePlaceOrder_order_leaves_identifier_persisted
    (api : Backend) (onComplete : option (StoreOrder -> Completion unit))
    (s s' : Component PaymentForm.Hooks) (c : StoreCart) (p : string)
    (m : gmap string string) (order : StoreOrder) :
  atom_cart (env s) = Some c -> cart_id c <> "" ->
  PaymentForm.selectedProvider (hooks s) = Some p -> p <> "" ->
  window (env s) = Some (StorageAvailable m) ->
  completeCart api (cart_id c) = Normal (CompletedOrder order) ->
  s' = snd (PaymentForm.handlePlaceOrder api onComplete s) ->
  atom_cart (env s') = None
  /\ window (env s') = Some (StorageAvailable (delete "cart_id" m))
  /\ persisted (env s') = persisted (env s)
  /\ (forall k, onComplete = Some k ->
        trace (env s')
        = (trace (env s) ++ [CompleteCart (cart_id c); OnCompleteOrder order]
           ++ match k order with
              | Normal _ => []
              | Thrown _ => [ConsoleError "Error placing order:"]
              end)).
Proof.
  intros Hc Hid Hp Hpid Hw Ho ->.
  apply truthy_true in Hid. apply truthy_true in Hpid.
  destruct s as [[w ac an al tr] [il ip er pr sel]]; simpl in *; subst ac sel w.
  unfold PaymentForm.handlePlaceOrder, PaymentForm.setError,
    PaymentForm.setIsProcessing.
  js_unfold. simpl. rewrite Hid, Hpid; simpl. rewrite Ho; simpl.
  assert (Hk : delete "cart_id" m !! CART_ID_KEY = m !! CART_ID_KEY)
    by (apply lookup_delete_ne, cart_id_key_is_not_the_store_key).
  destruct onComplete as [k|]; simpl.
  - destruct (k order) as [[]|y] eqn:Hy; simpl;
      (split; [reflexivity|]); (split; [reflexivity|]);
      (split; [unfold persisted; simpl; exact Hk|]);
      intros k' [= <-]; rewrite Hy, <- ?app_assoc; reflexivity.
  - split; [reflexivity|]. split; [reflexivity|].
    split; [unfold persisted; simpl; exact Hk|]. intros k' [=].
Qed.

Lemma handlePlaceOrder_order_witness :
  atom_cart (env (snd (PaymentForm.handlePlaceOrder
                         (answering_api sample_cart sample_order)
                         None paying_state))) = None
  /\ persisted (env (snd (PaymentForm.handlePlaceOrder
                            (answering_api sample_cart sample_order)
                            None paying_state))) = Some "cart_01".
Proof.
  destruct (handlePlaceOrder_order_leaves_identifier_persisted
              (answering_api sample_cart sample_order) None
              paying_state _ sample_cart "pp_system_default"
              {[CART_ID_KEY := "cart_01"]} sample_order
              eq_refl ltac:(discriminate) eq_refl ltac:(discriminate)
              eq_refl eq_refl eq_refl)
    as (H1 & _ & H3 & _).
  split; [exact H1|]. rewrite H3. reflexivity.
Defined.

(** The other half of the payment step: a response that is not an order,
    or a failed completion call, shows an inline message and leaves the
    snapshot, the storage and the selected provider as they were. *)
Lemma handlePlaceOrder_not_completed_keeps_cart_and_provider
    (api : Backend) (onComplete : option (StoreOrder -> Completion unit))
    (s s' : Component PaymentForm.Hooks) (c : StoreCart) (p : string) :
  atom_cart (env s) = Some c -> cart_id c <> "" ->
  PaymentForm.selectedProvider (hooks s) = Some p -> p <> "" ->
  ((exists x, completeCart api (cart_id c) = Thrown x)
   \/ (exists r, completeCart api (cart_id c) = Normal r
                 /\ response_type r <> "order")) ->
  s' = snd (PaymentForm.handlePlaceOrder api onComplete s) ->
  atom_cart (env s') = Some c
  /\ window (env s') = window (env s)
  /\ PaymentForm.selectedProvider (hooks s') = Some p
  /\ (PaymentForm.error (hooks s') = Some "Payment incomplete. Please check details."
      \/ PaymentForm.error (hooks s') = Some "Failed to place order. Please try again.")
  /\ PaymentForm.isProcessing (hooks s') = false.
Proof.
  intros Hc Hid Hp Hpid Ho ->.
  apply truthy_true in Hid. apply truthy_true in Hpid.
  destruct s as [[w ac an al tr] [il ip er pr sel]]; simpl in *; subst ac sel.
  unfold PaymentForm.handlePlaceOrder, PaymentForm.setError,
    PaymentForm.setIsProcessing.
  js_unfold. simpl. rewrite Hid, Hpid; simpl.
  destruct Ho as [[x Ho]|(r & Ho & Hty)]; rewrite Ho; simpl.
  - repeat split. right. reflexivity.
  - destruct r as [order|c']; simpl in *; [congruence|].
    repeat split. left. reflexivity.
Qed.

(** ** Trimming and pattern matching *)

Lemma trimStart_nil_iff (s : jsstring) : trimStart s = [] <-> blank s = true.
Proof.
  induction s as [|c s IH]; simpl; [tauto|].
  destruct (isWhiteSpace c); simpl; [exact IH|].
  split; discriminate.
Qed.

Lemma blank_rev (s : jsstring) : blank (rev s) = blank s.
Proof.
  unfold blank. induction s as [|c s IH]; simpl; [reflexivity|].
  rewrite forallb_app, IH. simpl. rewrite andb_true_r. apply andb_comm.
Qed.

Lemma trimStart_blank_rest (s : jsstring) :
  blank (trimStart s) = blank s.
Proof.
  induction s as [|c s IH]; simpl; [reflexivity|].
  destruct (isWhiteSpace c) eqn:Hc; simpl; [exact IH|].
  rewrite Hc. reflexivity.
Qed.

Lemma trim_empty_iff (s : jsstring) : js_empty (trim s) = true <-> blank s = true.
Proof.
  unfold trim, trimEnd. split.
  - intros H.
    destruct (rev (trimStart (rev (trimStart s)))) as [|c t] eqn:E; [|discriminate].
    apply (f_equal (@rev N)) in E. rewrite rev_involutive in E. simpl in E.
    apply trimStart_nil_iff in E. rewrite blank_rev, trimStart_blank_rest in E.
    exact E.
  - intros H. apply trimStart_nil_iff in H. rewrite H. reflexivity.
Qed.

Lemma nullable_matches (r : Regex) : nullable r = true <-> matches r [].
Proof.
  induction r as [| |p|r1 IH1 r2 IH2|r1 IH1 r2 IH2|r IH]; simpl.
  - split; [discriminate|]. intros H; inversion H.
  - split; [constructor|reflexivity].
  - split; [discriminate|]. intros H; inversion H.
  - rewrite andb_true_iff, IH1, IH2. split.
    + intros [H1 H2]. apply (matches_seq _ _ [] []); assumption.
    + intros H. inversion H; subst.
      match goal with E : _ ++ _ = [] |- _ => apply app_eq_nil in E as [-> ->] end.
      split; assumption.
  - rewrite orb_true_iff, IH1, IH2. split.
    + intros [H|H]; [apply matches_alt_l|apply matches_alt_r]; assumption.
    + intros H. inversion H; subst; [left|right]; assumption.
  - split; [constructor|reflexivity].
Qed.

Lemma deriv_sound (c : N) (r : Regex) :
  forall s, matches (deriv c r) s -> matches r (c :: s).
Proof.
  induction r as [| |p|r1 IH1 r2 IH2|r1 IH1 r2 IH2|r IH]; simpl; intros s H.
  - inversion H.
  - inversion H.
  - destruct (p c) eqn:Hp; inversion H; subst. constructor. exact Hp.
  - destruct (nullable r1) eqn:Hn.
    + inversion H; subst.
      * match goal with H1 : matches (RSeq _ _) _ |- _ => inversion H1; subst end.
        rewrite app_comm_cons. constructor; auto.
      * apply nullable_matches in Hn.
        apply (matches_seq _ _ [] (c :: s)); auto.
    + inversion H; subst. rewrite app_comm_cons. constructor; auto.
  - inversion H; subst; [apply matches_alt_l|apply matches_alt_r]; auto.
  - inversion H; subst. rewrite app_comm_cons. constructor; auto.
Qed.

Lemma deriv_complete (c : N) (r : Regex) (s0 : jsstring) :
  matches r s0 -> forall s, s0 = c :: s -> matches (deriv c r) s.
Proof.
  induction 1 as [|p d Hp|r1 r2 s1 s2 H1 IH1 H2 IH2|r1 r2 s1 H1 IH1
                  |r1 r2 s2 H2 IH2|r|r s1 s2 H1 IH1 H2 IH2]; intros s E; simpl.
  - discriminate.
  - injection E as -> <-. rewrite Hp. constructor.
  - destruct s1 as [|d s1]; simpl in E.
    + subst s2. apply nullable_matches in H1. rewrite H1.
      apply matches_alt_r. apply IH2. reflexivity.
    + injection E as -> <-.
      destruct (nullable r1).
      * apply matches_alt_l. constructor; auto.
      * constructor; auto.
  - apply matches_alt_l. auto.
  - apply matches_alt_r. auto.
  - discriminate.
  - destruct s1 as [|d s1]; simpl in E.
    + apply IH2. exact E.
    + injection E as -> <-. constructor; auto.
Qed.

Theorem regex_test_matches (s : jsstring) :
  forall r, regex_test r s = true <-> matches r s.
Proof.
  induction s as [|c s IH]; intros r; simpl.
  - apply nullable_matches.
  - rewrite IH. split.
    + apply deriv_sound.
    + intros H. apply (deriv_complete c r (c :: s) H). reflexivity.
Qed.


Lemma matches_star_class (p : N -> bool) (s : jsstring) :
  matches (RStar (RClass p)) s <-> forallb p s = true.
Proof.
  split.
  - intros H. remember (RStar (RClass p)) as r eqn:Er.
    induction H as [| | | | | |r' s1 s2 H1 _ H2 IH2]; try discriminate.
    + reflexivity.
    + injection Er as ->. inversion H1; subst. simpl.
      rewrite IH2 by reflexivity. rewrite andb_true_r. assumption.
  - induction s as [|c s IH]; simpl; intros H.
    + constructor.
    + apply andb_true_iff in H as [Hc Hs].
      apply (matches_star_cons _ [c] s); [constructor; exact Hc|auto].
Qed.

Lemma matches_plus_class (p : N -> bool) (s : jsstring) :
  matches (RPlus (RClass p)) s <-> run_of p s.
Proof.
  unfold RPlus, run_of. split.
  - intros H. inversion H; subst.
    match goal with H1 : matches (RClass _) _ |- _ => inversion H1; subst end.
    match goal with H2 : matches (RStar _) _ |- _ => apply matches_star_class in H2 end.
    simpl. split; [discriminate|]. apply andb_true_iff. auto.
  - intros [Hne H]. destruct s as [|c s]; [congruence|].
    simpl in H. apply andb_true_iff in H as [Hc Hs].
    apply (matches_seq _ _ [c] s); [constructor; exact Hc|].
    apply matches_star_class. exact Hs.
Qed.

Lemma matches_char (d : N) (s : jsstring) :
  matches (RClass (N.eqb d)) s <-> s = [d].
Proof.
  split.
  - intros H. inversion H; subst.
    match goal with E : (_ =? _)%N = true |- _ => apply N.eqb_eq in E; subst end.
    reflexivity.
  - intros ->. constructor. apply N.eqb_refl.
Qed.

Theorem email_pattern_shape (s : jsstring) :
  regex_test CheckoutForm.EMAIL_PATTERN s = true <->
  exists a b c,
    s = a ++ [64%N] ++ b ++ [46%N] ++ c
    /\ run_of CheckoutForm.notSpaceOrAt a /\ run_of CheckoutForm.notSpaceOrAt b /\ run_of CheckoutForm.notSpaceOrAt c.
Proof.
  rewrite regex_test_matches. unfold CheckoutForm.EMAIL_PATTERN. split.
  - intros H. inversion H; subst; clear H.
    repeat match goal with
    | H : matches (RSeq _ _) _ |- _ => inversion H; subst; clear H
    | H : matches (RClass (N.eqb _)) _ |- _ => apply matches_char in H; subst
    | H : matches (RPlus _) _ |- _ => apply matches_plus_class in H
    end.
    eauto 10.
  - intros (a & b & c & -> & Ha & Hb & Hc).
    repeat (apply matches_seq);
      try (apply matches_plus_class; assumption);
      apply matches_char; reflexivity.
Qed.

(** ** Address step: validation and submission *)

Section CheckoutProperties.
Import CheckoutForm.

Lemma require_lookup_ne (field : jsstring) (key message k : string)
    (m : gmap string string) :
  key <> k -> require field key message m !! k = m !! k.
Proof.
  intros Hne. unfold require.
  destruct (js_empty (trim field)); [apply lookup_insert_ne; exact Hne|reflexivity].
Qed.

Lemma require_present (field : jsstring) (key message : string)
    (m : gmap string string) :
  blank field = false -> require field key message m = m.
Proof.
  intros Hb. unfold require.
  destruct (js_empty (trim field)) eqn:E; [|reflexivity].
  apply trim_empty_iff in E. congruence.
Qed.

Lemma newErrors_email (fd : FormData) :
  newErrors fd !! "email" =
    if blank (fd_email fd) then Some "Email is required"
    else if regex_test EMAIL_PATTERN (fd_email fd) then None
         else Some "Please enter a valid email".
Proof.
  unfold newErrors.
  rewrite !require_lookup_ne by discriminate.
  destruct (js_empty (trim (fd_email fd))) eqn:E.
  - apply trim_empty_iff in E. rewrite E. apply lookup_insert_eq.
  - assert (Hb : blank (fd_email fd) = false).
    { destruct (blank (fd_email fd)) eqn:Hb; [|reflexivity].
      apply trim_empty_iff in Hb. congruence. }
    rewrite Hb.
    destruct (regex_test EMAIL_PATTERN (fd_email fd)); simpl;
      [apply lookup_empty|apply lookup_insert_eq].
Qed.

Lemma notSpaceOrAt_not_space (c : N) :
  notSpaceOrAt c = true -> isWhiteSpace c = false.
Proof.
  unfold notSpaceOrAt. intros H. apply negb_true_iff, orb_false_iff in H.
  tauto.
Qed.

Lemma email_pattern_not_blank (s : jsstring) :
  regex_test EMAIL_PATTERN s = true -> blank s = false.
Proof.
  intros H. apply email_pattern_shape in H as (a & b & c & -> & [Hne Ha] & _).
  destruct a as [|x a]; [congruence|].
  simpl in *. apply andb_true_iff in Ha as [Hx _].
  rewrite (notSpaceOrAt_not_space x Hx). reflexivity.
Qed.

Lemma newErrors_nonempty_blocks (fd : FormData) (k v : string) :
  newErrors fd !! k = Some v ->
  Nat.eqb (length (map_to_list (newErrors fd))) 0 = false.
Proof.
  intros H. apply Nat.eqb_neq. intros Hl.
  apply length_zero_iff_nil, map_to_list_empty_iff in Hl.
  rewrite Hl, lookup_empty in H. discriminate.
Qed.

Lemma handleSubmit_blocked (api : Backend) (s : Component Hooks) (k v : string) :
  newErrors (formData (hooks s)) !! k = Some v ->
  trace (env (snd (handleSubmit api s))) = trace (env s)
  /\ errors (hooks (snd (handleSubmit api s))) = newErrors (formData (hooks s)).
Proof.
  intros H. apply newErrors_nonempty_blocks in H.
  destruct s as [e [fd er il ae isub iss]]; simpl in *.
  unfold handleSubmit, validateForm, setApiError, setErrors. js_unfold. simpl.
  rewrite H. simpl. split; reflexivity.
Qed.

(** C5, as amended: an empty or whitespace-only email gives the field
    error "Email is required"; an email that is not blank and does not
    match the pattern gives "Please enter a valid email"; either blocks
    the submission (no backend call).  When the email matches the pattern
    and first name, last name, address, city, postal code and country are
    each not blank (not empty after trimming), validation leaves no
    errors; the submission then calls the backend's cart update when the
    store holds a cart with a non-empty identifier, and otherwise shows
    "No cart found" and calls nothing. *)
Theorem handleSubmit_validates_then_updates
    (api : Backend) (s s' : Component Hooks) (fd : FormData) :
  fd = formData (hooks s) -> s' = snd (handleSubmit api s) ->
  (blank (fd_email fd) = true ->
     errors (hooks s') !! "email" = Some "Email is required"
     /\ trace (env s') = trace (env s))
  /\ (blank (fd_email fd) = false ->
      regex_test EMAIL_PATTERN (fd_email fd) = false ->
      errors (hooks s') !! "email" = Some "Please enter a valid email"
      /\ trace (env s') = trace (env s))
  /\ (regex_test EMAIL_PATTERN (fd_email fd) = true ->
      blank (firstName fd) = false -> blank (lastName fd) = false ->
      blank (address fd) = false -> blank (fd_city fd) = false ->
      blank (postalCode fd) = false -> blank (country fd) = false ->
      errors (hooks s') = ∅
      /\ (forall c, atom_cart (env s) = Some c -> cart_id c <> "" ->
            exists rest,
              trace (env s')
              = trace (env s) ++ UpdateCart (cart_id c) (body_of fd) :: rest)
      /\ ((atom_cart (env s) = None
           \/ exists c, atom_cart (env s) = Some c /\ cart_id c = "") ->
          trace (env s') = trace (env s)
          /\ apiError (hooks s')
             = Some "No cart found. Please add items to your cart first.")).
Proof.
  intros -> ->. split; [|split].
  - intros Hb.
    assert (He : newErrors (formData (hooks s)) !! "email" = Some "Email is required")
      by (rewrite newErrors_email, Hb; reflexivity).
    destruct (handleSubmit_blocked api s _ _ He) as [Ht Herr].
    rewrite Herr. auto.
  - intros Hb Hr.
    assert (He : newErrors (formData (hooks s)) !! "email"
                 = Some "Please enter a valid email")
      by (rewrite newErrors_email, Hb, Hr; reflexivity).
    destruct (handleSubmit_blocked api s _ _ He) as [Ht Herr].
    rewrite Herr. auto.
  - intros Hr H1 H2 H3 H4 H5 H6.
    assert (Hok : newErrors (formData (hooks s)) = ∅).
    { unfold newErrors. rewrite !require_present by assumption.
      pose proof (email_pattern_not_blank _ Hr) as Hb.
      destruct (js_empty (trim (fd_email (formData (hooks s))))) eqn:E.
      - apply trim_empty_iff in E. congruence.
      - rewrite Hr. reflexivity. }
    destruct s as [[w ac an al tr] [fd er il ae isub iss]]; simpl in *.
    unfold handleSubmit, validateForm, setApiError, setErrors, setIsLoading,
      setIsSubmitted.
    js_unfold. simpl. rewrite Hok, map_to_list_empty. simpl.
    split; [|split].
    + destruct ac as [c|]; simpl; [|reflexivity].
      destruct (truthy (cart_id c)); simpl; [|reflexivity].
      destruct (updateCart api (cart_id c) (body_of fd)) as [r|x]; simpl;
        [|reflexivity].
      destruct (truthy (cart_id (cart r))); simpl; [|reflexivity].
      destruct w as [[|m]|]; reflexivity.
    + intros c [= ->] Hid. apply truthy_true in Hid. rewrite Hid. simpl.
      destruct (updateCart api (cart_id c) (body_of fd)) as [r|x]; simpl.
      * destruct (truthy (cart_id (cart r))); simpl;
          [destruct w as [[|m]|]; simpl|];
          rewrite <- ?app_assoc; eexists; reflexivity.
      * rewrite <- ?app_assoc; eexists; reflexivity.
    + intros [->|(c & -> & Hid)]; simpl.
      * split; reflexivity.
      * apply truthy_false in Hid. rewrite Hid. split; reflexivity.
Qed.

(** Non-empty fields are not enough, and neither is a valid form.  With a
    well-formed email and every required field non-empty, a first name of
    one space fails validation ("First name is required") and nothing is
    sent; and with every field valid but no cart in the store, validation
    leaves no errors and still nothing is sent. *)
Lemma handleSubmit_nonempty_fields_counterexample :
  (regex_test EMAIL_PATTERN (fd_email (form_with "ada@example.com" " ")) = true
   /\ firstName (form_with "ada@example.com" " ") = [32%N]
   /\ forallb (fun f => negb (js_empty (f (form_with "ada@example.com" " "))))
        [firstName; lastName; address; fd_city; postalCode; country] = true
   /\ fst (validateForm (checkout_state (form_with "ada@example.com" " ")
                            (Some sample_cart))) = Normal false
   /\ errors (hooks (snd (handleSubmit (answering_api sample_cart sample_order)
                           (checkout_state (form_with "ada@example.com" " ")
                              (Some sample_cart)))))
      !! "firstName" = Some "First name is required"
   /\ trace (env (snd (handleSubmit (answering_api sample_cart sample_order)
                         (checkout_state (form_with "ada@example.com" " ")
                            (Some sample_cart))))) = [])
  /\ (fst (validateForm (checkout_state (form_with "ada@example.com" "Ada") None))
      = Normal true
      /\ errors (hooks (snd (handleSubmit (answering_api sample_cart sample_order)
                               (checkout_state (form_with "ada@example.com" "Ada") None))))
         = ∅
      /\ trace (env (snd (handleSubmit (answering_api sample_cart sample_order)
                            (checkout_state (form_with "ada@example.com" "Ada") None))))
         = []).
Proof.
  repeat split; vm_compute; reflexivity.
Qed.

Lemma handleSubmit_validation_witness :
  (errors (hooks (snd (handleSubmit failing_api
                         (checkout_state (form_with "foo" "Ada") (Some sample_cart)))))
   !! "email" = Some "Please enter a valid email"
   /\ trace (env (snd (handleSubmit failing_api
                         (checkout_state (form_with "foo" "Ada") (Some sample_cart)))))
      = trace (env (checkout_state (form_with "foo" "Ada") (Some sample_cart))))
  /\ (exists rest,
        trace (env (snd (handleSubmit failing_api
                           (checkout_state (form_with "ada@example.com" "Ada")
                              (Some sample_cart)))))
        = trace (env (checkout_state (form_with "ada@example.com" "Ada")
                        (Some sample_cart)))
          ++ UpdateCart "cart_01" (body_of (form_with "ada@example.com" "Ada")) :: rest).
Proof.
  split.
  - destruct (handleSubmit_validates_then_updates failing_api
                (checkout_state (form_with "foo" "Ada") (Some sample_cart)) _ _
                eq_refl eq_refl) as (_ & H & _).
    apply H; reflexivity.
  - destruct (handleSubmit_validates_then_updates failing_api
                (checkout_state (form_with "ada@example.com" "Ada") (Some sample_cart))
                _ _ eq_refl eq_refl) as (_ & _ & H).
    destruct H as (_ & H & _); try reflexivity.
    apply (H sample_cart); [reflexivity|discriminate].
Defined.

End CheckoutProperties.

(** ** Search island: the debounce *)

Section SearchProperties.
Import Search.

Lemma queries_app (t1 t2 : list Event) :
  queries (t1 ++ t2) = queries t1 ++ queries t2.
Proof. unfold queries. apply omap_app. Qed.

Lemma trim_length_blank (q : jsstring) :
  (0 <? length (trim q))%nat = negb (blank q).
Proof.
  destruct (blank q) eqn:Hb.
  - apply trim_empty_iff in Hb. destruct (trim q); [reflexivity|discriminate].
  - destruct (trim q) as [|c t] eqn:E; [|reflexivity].
    assert (H : js_empty (trim q) = true) by (rewrite E; reflexivity).
    apply trim_empty_iff in H. congruence.
Qed.

(** What the timer callback does to the state: hooks other than the
    result panel's are kept, and the trace gains the query if the text is
    not blank. *)
Lemma search_effect (api : Backend) (q : jsstring) (s : Component Hooks) :
  let s' := snd (search api q s) in
  query (hooks s') = query (hooks s)
  /\ clock (hooks s') = clock (hooks s)
  /\ timers (hooks s') = timers (hooks s)
  /\ cleanup (hooks s') = cleanup (hooks s)
  /\ next_timer (hooks s') = next_timer (hooks s)
  /\ queries (trace (env s'))
     = queries (trace (env s)) ++ (if blank q then [] else [q]).
Proof.
  destruct s as [[w ac an al tr] [qu re il io cl ti nt cu]].
  unfold search, setIsLoading, setResults, setIsOpen. js_unfold.
  rewrite trim_length_blank.
  destruct (blank q); simpl.
  - rewrite app_nil_r. repeat split.
  - destruct (listProducts api q 5) as [ps|x]; simpl;
      rewrite ?queries_app; simpl; rewrite ?app_nil_r; repeat split.
Qed.

Lemma onInput_same (s : Component Hooks) :
  onInput (query (hooks s)) s = (Normal tt, s).
Proof.
  unfold onInput, bind, gets. simpl.
  rewrite bool_decide_eq_true_2 by reflexivity. reflexivity.
Qed.

Lemma onInput_changed (s : Component Hooks) (v : jsstring) :
  debounced (hooks s) -> v <> query (hooks s) ->
  onInput v s = (Normal tt, scheduled v s).
Proof.
  intros Hd Hv.
  destruct s as [e [qu re il io cl ti nt cu]]; simpl in *.
  unfold onInput, bind, gets. simpl.
  rewrite bool_decide_eq_false_2 by congruence.
  unfold setQuery, run_cleanup, debounce_effect, clearTimeout, set_timers,
    set_cleanup, setTimeout, scheduled.
  js_unfold. simpl.
  destruct Hd as [Ht|(t & Ht & Hc & Hq)]; simpl in *; subst.
  - destruct cu; reflexivity.
  - simpl. rewrite filter_cons_False by (intros H; apply H; reflexivity).
    reflexivity.
Qed.

Lemma onInput_env (s : Component Hooks) (v : jsstring) :
  env (snd (onInput v s)) = env s.
Proof.
  destruct s as [e [qu re il io cl ti nt cu]].
  unfold onInput, bind, gets. simpl.
  destruct (bool_decide (qu = v)); [reflexivity|].
  unfold setQuery, run_cleanup, debounce_effect, clearTimeout, set_timers,
    set_cleanup, setTimeout.
  js_unfold. simpl. destruct cu; reflexivity.
Qed.

Lemma elapse_idle (api : Backend) (s : Component Hooks) (d : N) :
  timers (hooks s) = [] ->
  elapse api d s = (Normal tt, at_time (clock (hooks s) + d) [] s).
Proof.
  destruct s as [e [qu re il io cl ti nt cu]]; simpl. intros ->.
  reflexivity.
Qed.

Lemma elapse_early (api : Backend) (s : Component Hooks) (d : N) (t : Timer) :
  timers (hooks s) = [t] -> (clock (hooks s) + d < deadline t)%N ->
  elapse api d s = (Normal tt, at_time (clock (hooks s) + d) [t] s).
Proof.
  destruct s as [e [qu re il io cl ti nt cu]]; simpl. intros -> Hlt.
  unfold elapse, set_clock. js_unfold. simpl.
  rewrite filter_cons_False by lia. reflexivity.
Qed.

Lemma elapse_due (api : Backend) (s : Component Hooks) (d : N) (t : Timer) :
  timers (hooks s) = [t] -> (deadline t <= clock (hooks s) + d)%N ->
  snd (elapse api d s)
  = snd (search api (timer_query t) (at_time (clock (hooks s) + d) [] s)).
Proof.
  destruct s as [e [qu re il io cl ti nt cu]]; simpl. intros -> Hle.
  unfold elapse, set_clock. js_unfold. simpl.
  rewrite filter_cons_True by exact Hle. rewrite filter_nil. simpl.
  unfold clearTimeout, set_timers. js_unfold. simpl.
  rewrite filter_cons_False by (intros H; apply H; reflexivity).
  rewrite filter_nil. unfold at_time. simpl.
  destruct (search api (timer_query t) _) as [[[]|x] s']; reflexivity.
Qed.

Lemma debounced_onInput (s : Component Hooks) (v : jsstring) :
  debounced (hooks s) -> debounced (hooks (snd (onInput v s))).
Proof.
  intros Hd. destruct (decide (v = query (hooks s))) as [->|Hv].
  - rewrite onInput_same. exact Hd.
  - rewrite onInput_changed by assumption. right. simpl. eauto.
Qed.

Lemma debounced_elapse (api : Backend) (s : Component Hooks) (d : N) :
  debounced (hooks s) -> debounced (hooks (snd (elapse api d s))).
Proof.
  intros [Ht|(t & Ht & Hc & Hq)].
  - rewrite elapse_idle by exact Ht. left. reflexivity.
  - destruct (decide (deadline t <= clock (hooks s) + d)%N) as [Hle|Hgt].
    + rewrite (elapse_due api s d t) by assumption.
      destruct (search_effect api (timer_query t)
                  (at_time (clock (hooks s) + d) [] s)) as (_ & _ & H & _).
      left. rewrite H. reflexivity.
    + rewrite (elapse_early api s d t) by (try assumption; lia).
      right. exists t. simpl. auto.
Qed.

Lemma debounced_run (api : Backend) (l : list Action) :
  forall s, debounced (hooks s) -> debounced (hooks (snd (run api l s))).
Proof.
  induction l as [|a l IH]; intros s Hd; simpl; [exact Hd|].
  unfold bind.
  assert (Ha : debounced (hooks (snd (step api a s)))).
  { destruct a as [v|d]; simpl;
      [apply debounced_onInput|apply debounced_elapse]; exact Hd. }
  destruct (step api a s) as [[[]|x] s1]; simpl in *; [apply IH|]; exact Ha.
Qed.

Lemma debounced_mount (e : Env) : debounced (hooks (mount e)).
Proof. right. simpl. eauto. Qed.

(** C9: in any state the island can reach after its first render, an
    input by itself issues no query; an input that changes the value
    leaves exactly one pending timer, due 300 ms later and closed over
    the new value (the timer pending before is cancelled); a timer that
    fires issues at most one query, and it is for the input's current
    value, never for a superseded one; and a changed input [q1] followed
    less than 300 ms later by a different, non-blank [q2] issues exactly
    one query, for [q2], once 300 ms have passed since [q2], and none
    before. *)
Theorem search_debounce
    (api : Backend) (e : Env) (pre : list Action) (s : Component Hooks) :
  s = snd (run api pre (mount e)) ->
  (forall v, trace (env (snd (onInput v s))) = trace (env s))
  /\ (forall v, v <> query (hooks s) ->
        timers (hooks (snd (onInput v s)))
        = [{| timer_id := next_timer (hooks s);
              deadline := (clock (hooks s) + 300)%N;
              timer_query := v |}])
  /\ (forall d,
        queries (trace (env (snd (elapse api d s)))) = queries (trace (env s))
        \/ queries (trace (env (snd (elapse api d s))))
           = queries (trace (env s)) ++ [query (hooks s)])
  /\ (forall q1 q2 d w,
        q1 <> query (hooks s) -> q2 <> q1 -> blank q2 = false ->
        (d < DEBOUNCE_MS)%N ->
        queries (trace (env (snd (run api [Input q1; Elapse d; Input q2; Elapse w] s))))
        = queries (trace (env s)) ++ (if (DEBOUNCE_MS <=? w)%N then [q2] else [])).
Proof.
  intros Hs.
  assert (Hd : debounced (hooks s)) by (subst s; apply debounced_run, debounced_mount).
  clear Hs. split; [|split; [|split]].
  - intros v. rewrite onInput_env. reflexivity.
  - intros v Hv. rewrite onInput_changed by assumption. reflexivity.
  - intros d. destruct Hd as [Ht|(t & Ht & Hc & Hq)].
    + left. rewrite elapse_idle by exact Ht. reflexivity.
    + destruct (decide (deadline t <= clock (hooks s) + d)%N) as [Hle|Hgt].
      * rewrite (elapse_due api s d t) by assumption.
        destruct (search_effect api (timer_query t)
                    (at_time (clock (hooks s) + d) [] s)) as (_ & _ & _ & _ & _ & H).
        rewrite H. simpl. destruct (blank (timer_query t)).
        -- left. apply app_nil_r.
        -- right. rewrite Hq. reflexivity.
      * left. rewrite (elapse_early api s d t) by (try assumption; lia).
        reflexivity.
  - intros q1 q2 d w Hq1 Hq2 Hb Hlt.
    simpl. unfold bind.
    rewrite (onInput_changed s q1) by assumption.
    rewrite (elapse_early api (scheduled q1 s) d _ eq_refl) by (simpl; lia).
    rewrite (onInput_changed _ q2);
      [|right; simpl; eauto|simpl; exact Hq2].
    destruct (DEBOUNCE_MS <=? w)%N eqn:Hw.
    + apply N.leb_le in Hw.
      match goal with |- context [elapse api w ?st] =>
        rewrite (surjective_pairing (elapse api w st));
        rewrite (elapse_due api st w _ eq_refl) by (simpl; lia)
      end.
      match goal with |- context [search api ?q ?st] =>
        destruct (search_effect api q st) as (_ & _ & _ & _ & _ & H)
      end.
      destruct (fst (elapse api w _)) as [[]|x]; simpl in *;
        rewrite H, Hb; reflexivity.
    + apply N.leb_gt in Hw.
      match goal with |- context [elapse api w ?st] =>
        rewrite (elapse_early api st w _ eq_refl) by (simpl; lia)
      end.
      simpl. rewrite app_nil_r. reflexivity.
Qed.

(** Typing "shirt", then "shirts" 120 ms later, then 300 ms of quiet:
    one query, for "shirts". *)
Lemma search_debounce_witness :
  queries (trace (env (snd (run failing_api
                              [Input (js "shirt"); Elapse 120; Input (js "shirts");
                               Elapse 300]
                              (mount (browser_env ∅ None))))))
  = queries (trace (env (mount (browser_env ∅ None)))) ++ [js "shirts"].
Proof.
  destruct (search_debounce failing_api (browser_env ∅ None) []
              (mount (browser_env ∅ None)) eq_refl) as (_ & _ & _ & H).
  apply (H (js "shirt") (js "shirts") 120%N 300%N).
  - discriminate.
  - vm_compute. discriminate.
  - reflexivity.
  - reflexivity.
Defined.

End SearchProperties.

(** ** Price formatting *)

Section FormatProperties.
Import Format.

Lemma upper_ascii_spec (a : ascii) : upper_ascii a = uppercase_letter a.
Proof.
  destruct a as [[] [] [] [] [] [] [] []]; vm_compute; reflexivity.
Qed.

Lemma toUpperCase_spec (s : string) : toUpperCase s = uppercased s.
Proof.
  induction s as [|a s IH]; simpl; [reflexivity|].
  rewrite upper_ascii_spec, IH. reflexivity.
Qed.

Lemma currency_of_spec (currencyCode : option string) :
  currency_of currencyCode = currency_or_usd currencyCode.
Proof.
  destruct currencyCode as [[|a code]|]; try reflexivity.
  unfold currency_of, currency_or_usd. rewrite toUpperCase_spec. reflexivity.
Qed.

Lemma is_letter_upper_ascii (a : ascii) :
  Intl.is_letter (upper_ascii a) = Intl.is_letter a.
Proof.
  destruct a as [[] [] [] [] [] [] [] []]; vm_compute; reflexivity.
Qed.

Lemma well_formed_toUpperCase (code : string) :
  Intl.IsWellFormedCurrencyCode (toUpperCase code)
  = Intl.IsWellFormedCurrencyCode code.
Proof.
  unfold Intl.IsWellFormedCurrencyCode. f_equal.
  - f_equal. induction code as [|a code IH]; simpl; congruence.
  - induction code as [|a code IH]; simpl; [reflexivity|].
    rewrite is_letter_upper_ascii, IH. reflexivity.
Qed.

Lemma well_formed_currency_of (code : string) :
  code <> "" ->
  Intl.IsWellFormedCurrencyCode (currency_of (Some code))
  = Intl.IsWellFormedCurrencyCode code.
Proof.
  intros Hne. unfold currency_of, or_default.
  destruct code as [|a code]; [congruence|]. simpl truthy. cbv iota.
  apply well_formed_toUpperCase.
Qed.

(** C10, as amended: [formatPrice] returns null exactly when the amount
    is undefined or null.  For a number it returns what the currency
    formatter writes for the amount divided by 100 and the currency code
    in upper case when the code is a well-formed currency code (three
    letters A to Z, in either case), and for "USD" when the code is
    missing or empty.  For any other code of ASCII characters it throws
    the formatter's [RangeError]. *)
Theorem formatPrice_null_iff_no_amount
    (Num : Type) (div100 : Num -> Num) (render : string -> Num -> string)
    (intl_format : string -> Num -> Completion string)
    (amount : Amount Num) (n : Num) (currencyCode : option string) :
  (formatPrice Num div100 intl_format amount currencyCode = Normal None
   <-> amount = Undefined \/ amount = Null)
  /\ ((currencyCode = None \/ currencyCode = Some ""
       \/ exists code, currencyCode = Some code
                       /\ Intl.IsWellFormedCurrencyCode code = true) ->
      formatPrice Num div100 (Intl.NumberFormat_format Num render)
        (Number n) currencyCode
      = Normal (Some (render (currency_or_usd currencyCode) (div100 n))))
  /\ (forall code,
        currencyCode = Some code -> code <> "" -> ascii_only code = true ->
        Intl.IsWellFormedCurrencyCode code = false ->
        formatPrice Num div100 (Intl.NumberFormat_format Num render)
          (Number n) currencyCode
        = Thrown Intl.invalid_currency).
Proof.
  split; [|split].
  - destruct amount as [| |m]; simpl.
    + split; auto.
    + split; auto.
    + split.
      * destruct (intl_format _ _); discriminate.
      * intros [H|H]; discriminate.
  - intros H. unfold formatPrice, Intl.NumberFormat_format.
    destruct H as [->|[->|(code & -> & Hwf)]]; try reflexivity.
    assert (Hne : code <> "") by (intros ->; discriminate).
    rewrite (well_formed_currency_of code Hne), Hwf.
    rewrite currency_of_spec. reflexivity.
  - intros code -> Hne _ Hwf. unfold formatPrice, Intl.NumberFormat_format.
    rewrite (well_formed_currency_of code Hne), Hwf. reflexivity.
Qed.

Lemma formatPrice_well_formed_witness :
  formatPrice Z (fun z => z / 100)
    (Intl.NumberFormat_format Z (fun code _ => code)) (Number 1000) (Some "eur")
  = Normal (Some "EUR").
Proof.
  destruct (formatPrice_null_iff_no_amount Z (fun z => z / 100)
              (fun code _ => code) (fun _ _ => Normal "") Undefined 1000
              (Some "eur")) as (_ & H & _).
  apply H. right. right. exists "eur". split; reflexivity.
Defined.

(** The claim as first stated, a formatted string for every numeric
    amount, fails on a code that is not a currency code: the formatter
    throws. *)
Lemma formatPrice_throws_counterexample :
  formatPrice Z (fun z => z / 100)
    (Intl.NumberFormat_format Z (fun code _ => code)) (Number 1000) (Some "US")
  = Thrown Intl.invalid_currency
  /\ ascii_only "US" = true.
Proof.
  split; vm_compute; reflexivity.
Qed.

Example toUpperCase_usd : toUpperCase "usd" = "USD".
Proof. reflexivity. Qed.

End FormatProperties.

(** * Further properties *)

(** ** Cart store: storage helpers *)

(** X1: with usable storage, the identifier written by
    [setStoredCartId] is the one [getStoredCartId] reads back, a second
    write replaces the first, [removeStoredCartId] makes the next read
    null, and no other key of the storage is touched by either. *)
Theorem stored_cart_id_round_trip
    (e : Env) (m : gmap string string) (v v' : string) :
  window e = Some (StorageAvailable m) ->
  fst (getStoredCartId (snd (setStoredCartId v e))) = Normal (Some v)
  /\ fst (getStoredCartId (snd (setStoredCartId v' (snd (setStoredCartId v e)))))
     = Normal (Some v')
  /\ fst (getStoredCartId (snd (removeStoredCartId (snd (setStoredCartId v e)))))
     = Normal None
  /\ (exists m1 m2,
        window (snd (setStoredCartId v e)) = Some (StorageAvailable m1)
        /\ window (snd (removeStoredCartId e)) = Some (StorageAvailable m2)
        /\ forall k, k <> CART_ID_KEY -> m1 !! k = m !! k /\ m2 !! k = m !! k).
Proof.
  intros Hw.
  rewrite (setStoredCartId_available e m v Hw).
  rewrite (removeStoredCartId_available e m Hw). cbn [fst snd].
  split; [|split; [|split]].
  - rewrite getStoredCartId_persisted. unfold persisted; simpl.
    rewrite lookup_insert_eq. reflexivity.
  - erewrite setStoredCartId_available by reflexivity. cbn [fst snd].
    rewrite getStoredCartId_persisted. unfold persisted; simpl.
    rewrite lookup_insert_eq. reflexivity.
  - erewrite removeStoredCartId_available by reflexivity. cbn [fst snd].
    rewrite getStoredCartId_persisted. unfold persisted; simpl.
    rewrite lookup_delete_eq. reflexivity.
  - eexists _, _. split; [reflexivity|]. split; [reflexivity|].
    intros k Hk. split.
    + apply lookup_insert_ne. congruence.
    + apply lookup_delete_ne. congruence.
Qed.

Lemma stored_cart_id_round_trip_witness :
  fst (getStoredCartId
         (snd (setStoredCartId "cart_02"
                 (browser_env {[CART_ID_KEY := "cart_01"]} None))))
  = Normal (Some "cart_02")
  /\ fst (getStoredCartId
            (snd (removeStoredCartId
                    (snd (setStoredCartId "cart_02"
                            (browser_env {[CART_ID_KEY := "cart_01"]} None))))))
     = Normal None.
Proof.
  destruct (stored_cart_id_round_trip
              (browser_env {[CART_ID_KEY := "cart_01"]} None)
              {[CART_ID_KEY := "cart_01"]} "cart_02" "cart_03" eq_refl)
    as (H1 & _ & H3 & _).
  split; [exact H1|exact H3].
Defined.

(** X2: the storage helpers never throw.  Outside a browser, or where
    [localStorage] throws, [getStoredCartId] answers null and changes
    nothing, [removeStoredCartId] changes nothing, and [setStoredCartId]
    changes nothing but the console: it warns exactly when the storage
    threw and stays silent outside a browser. *)
Theorem storage_helpers_tolerate_missing_storage (e : Env) (v : string) :
  (window e = None \/ window e = Some StorageUnavailable) ->
  getStoredCartId e = (Normal None, e)
  /\ removeStoredCartId e = (Normal tt, e)
  /\ setStoredCartId v e
     = (Normal tt,
        match window e with
        | None => e
        | Some _ =>
            with_trace
              (trace e ++ [ConsoleWarn "Failed to save cart ID to localStorage"]) e
        end).
Proof.
  destruct e as [w ac an al tr]; simpl.
  intros [->| ->]; repeat split.
Qed.

Lemma storage_helpers_tolerate_missing_storage_witness :
  getStoredCartId
    {| window := Some StorageUnavailable; atom_cart := Some sample_cart;
       atom_cartAnnouncement := None; atom_cartLoading := false; trace := [] |}
  = (Normal None,
     {| window := Some StorageUnavailable; atom_cart := Some sample_cart;
        atom_cartAnnouncement := None; atom_cartLoading := false; trace := [] |})
  /\ trace (snd (setStoredCartId "cart_01"
                   {| window := Some StorageUnavailable; atom_cart := Some sample_cart;
                      atom_cartAnnouncement := None; atom_cartLoading := false;
                      trace := [] |}))
     = [ConsoleWarn "Failed to save cart ID to localStorage"].
Proof.
  destruct (storage_helpers_tolerate_missing_storage
              {| window := Some StorageUnavailable; atom_cart := Some sample_cart;
                 atom_cartAnnouncement := None; atom_cartLoading := false;
                 trace := [] |}
              "cart_01" (or_intror eq_refl))
    as (H1 & _ & H3).
  split; [exact H1|]. rewrite H3. reflexivity.
Defined.

(** ** Cart store: restoring the cart *)

(** X3: whatever the environment and the fetch function do,
    [initializeCart] completes normally and calls the fetch function at
    most once.  When it returns a cart, that cart is not completed, it is
    the snapshot now in the store and the persisted identifier is kept;
    when it returns null, either nothing at all has changed (no fetch was
    made) or the snapshot is as before and no identifier is persisted any
    more.  After a fetch the loading flag is off.  Without a usable
    persisted identifier (no browser, storage that throws, no entry
    under the key, or an empty entry) it returns null at once: the fetch
    function is not called and nothing changes. *)
Theorem initializeCart_never_throws
    (fetchCart : string -> Completion (option CartResponse)) (e : Env) :
  exists r e' new,
    initializeCart fetchCart e = (Normal r, e')
    /\ trace e' = trace e ++ new
    /\ (length (List.filter is_fetch new) <= 1)%nat
    /\ match r with
       | Some c =>
           atom_cart e' = Some c /\ completed_at c = None
           /\ persisted e' = persisted e /\ atom_cartLoading e' = false
       | None =>
           e' = e
           \/ (atom_cart e' = atom_cart e /\ persisted e' = None
               /\ atom_cartLoading e' = false)
       end
    /\ (persisted e = None \/ persisted e = Some "" -> r = None /\ e' = e).
Proof.
  unfold initializeCart, bind. rewrite getStoredCartId_persisted.
  destruct (persisted e) as [id|] eqn:Hp; simpl.
  2:{ exists None, e, []. rewrite app_nil_r. simpl. auto 6. }
  destruct (truthy id) eqn:Hid; simpl.
  2:{ exists None, e, []. rewrite app_nil_r. simpl. auto 6. }
  assert (Hused : Some id = None \/ Some id = Some "" ->
                  forall (r : option StoreCart) (e' : Env), r = None /\ e' = e).
  { apply truthy_true in Hid. intros [[=]|[=]]. congruence. }
  destruct (persisted_window e id Hp) as (m & Hw & Hm).
  unfold try_catch, request, bind, emit, modify. simpl.
  assert (Hgone : forall evs, persisted (discarded evs m e) = None)
    by (intros evs; unfold persisted; simpl; apply lookup_delete_eq).
  destruct (fetchCart id) as [[r|]|x] eqn:Hf; simpl.
  - destruct (completed_at (cart r)) as [t|] eqn:Hc; simpl.
    + rewrite (removeStoredCartId_available _ m) by exact Hw.
      exists None, (discarded [FetchCart id] m e), [FetchCart id].
      split; [reflexivity|]. split; [reflexivity|]. split; [simpl; lia|].
      split; [|intros H; apply Hused, H].
      right. split; [reflexivity|]. split; [apply Hgone|reflexivity].
    + eexists (Some (cart r)), _, [FetchCart id].
      split; [reflexivity|]. split; [reflexivity|]. split; [simpl; lia|].
      split; [|intros H; apply Hused, H].
      split; [reflexivity|]. split; [exact Hc|]. split; [|reflexivity].
      unfold persisted; simpl. rewrite Hw. exact Hm.
  - rewrite (removeStoredCartId_available _ m) by exact Hw.
    exists None, (discarded [FetchCart id] m e), [FetchCart id].
    split; [reflexivity|]. split; [reflexivity|]. split; [simpl; lia|].
    split; [|intros H; apply Hused, H].
    right. split; [reflexivity|]. split; [apply Hgone|reflexivity].
  - rewrite (removeStoredCartId_available _ m) by exact Hw.
    exists None,
      (discarded [FetchCart id; ConsoleWarn "Failed to load cart from storage:"] m e),
      [FetchCart id; ConsoleWarn "Failed to load cart from storage:"].
    split; [|split; [reflexivity|split; [simpl; lia|]]].
    + unfold discarded, with_cartLoading, with_window, with_trace; simpl.
      rewrite <- app_assoc. reflexivity.
    + split; [|intros H; apply Hused, H].
      right. split; [reflexivity|]. split; [apply Hgone|reflexivity].
Qed.

(** The state [initializeCart] leaves when the fetch for the persisted
    identifier gives a cart that is not completed. *)
Lemma initializeCart_live_cart_state
    (fetchCart : string -> Completion (option CartResponse))
    (e : Env) (id : string) (r : CartResponse) :
  persisted e = Some id -> id <> "" ->
  fetchCart id = Normal (Some r) ->
  completed_at (cart r) = None ->
  initializeCart fetchCart e
  = (Normal (Some (cart r)),
     with_cartLoading false
       (with_cart (Some (cart r))
          (with_cartLoading true (with_trace (trace e ++ [FetchCart id]) e)))).
Proof.
  intros Hp Hid Hf Hc. apply truthy_true in Hid.
  unfold initializeCart, bind. rewrite getStoredCartId_persisted, Hp. simpl.
  rewrite Hid. simpl.
  unfold try_catch, request, bind, emit, modify. simpl.
  rewrite Hf, Hc. reflexivity.
Qed.

(** X4: when the persisted identifier's fetch returns a cart that is not
    completed, [initializeCart] returns that cart and puts it in the
    store, turns the loading flag off, and leaves storage alone: the
    identifier stays as it was persisted, whatever the identifier of the
    cart returned. *)
Theorem initializeCart_adopts_live_cart
    (fetchCart : string -> Completion (option CartResponse))
    (e : Env) (id : string) (r : CartResponse) :
  persisted e = Some id -> id <> "" ->
  fetchCart id = Normal (Some r) ->
  completed_at (cart r) = None ->
  initializeCart fetchCart e
  = (Normal (Some (cart r)),
     with_cartLoading false
       (with_cart (Some (cart r))
          (with_cartLoading true (with_trace (trace e ++ [FetchCart id]) e)))).
Proof. apply initializeCart_live_cart_state. Qed.

Lemma initializeCart_adopts_live_cart_witness :
  initializeCart (fun _ => Normal (Some {| cart := sample_cart |}))
    (browser_env {[CART_ID_KEY := "cart_00"]} None)
  = (Normal (Some sample_cart),
     with_cartLoading false
       (with_cart (Some sample_cart)
          (with_cartLoading true
             (with_trace
                (trace (browser_env {[CART_ID_KEY := "cart_00"]} None)
                 ++ [FetchCart "cart_00"])
                (browser_env {[CART_ID_KEY := "cart_00"]} None))))).
Proof.
  apply (initializeCart_adopts_live_cart
           (fun _ => Normal (Some {| cart := sample_cart |}))
           (browser_env {[CART_ID_KEY := "cart_00"]} None)
           "cart_00" {| cart := sample_cart |}).
  - reflexivity.
  - discriminate.
  - reflexivity.
  - reflexivity.
Defined.

(** X5: the initializer component does nothing when the store already
    holds a cart.  Otherwise, with a persisted identifier, a [getCart]
    that fails makes it discard the identifier in silence: the failure is
    turned into "no cart" before [initializeCart] sees it, so nothing is
    written to the console; and a [getCart] that returns a cart not yet
    completed puts that cart in the store. *)
Theorem CartInitializer_effect_outcomes (api : Backend) (e : Env) :
  (forall c, atom_cart e = Some c -> CartInitializer.effect api e = (Normal tt, e))
  /\ (forall id x,
        atom_cart e = None -> persisted e = Some id -> id <> "" ->
        getCart api id = Thrown x ->
        persisted (snd (CartInitializer.effect api e)) = None
        /\ atom_cart (snd (CartInitializer.effect api e)) = None
        /\ trace (snd (CartInitializer.effect api e)) = trace e ++ [FetchCart id])
  /\ (forall id r,
        atom_cart e = None -> persisted e = Some id -> id <> "" ->
        getCart api id = Normal r -> completed_at (cart r) = None ->
        atom_cart (snd (CartInitializer.effect api e)) = Some (cart r)
        /\ persisted (snd (CartInitializer.effect api e)) = Some id).
Proof.
  split; [|split].
  - intros c Hc. unfold CartInitializer.effect, bind, gets. rewrite Hc. reflexivity.
  - intros id x Hc Hp Hid Hg.
    unfold CartInitializer.effect, bind, gets. rewrite Hc. simpl.
    destruct (persisted_window e id Hp) as (m & Hw & Hm).
    apply truthy_true in Hid.
    unfold initializeCart, bind. rewrite getStoredCartId_persisted, Hp. simpl.
    rewrite Hid. simpl.
    unfold try_catch, request, bind, emit, modify. simpl.
    unfold CartInitializer.fetchCart. rewrite Hg. simpl.
    rewrite (removeStoredCartId_available _ m) by exact Hw. simpl.
    split; [|split; [exact Hc|reflexivity]].
    unfold persisted; simpl. apply lookup_delete_eq.
  - intros id r Hc Hp Hid Hg Hlive.
    unfold CartInitializer.effect, bind, gets. rewrite Hc. simpl.
    rewrite (initializeCart_live_cart_state _ e id r Hp Hid); simpl.
    + split; [reflexivity|]. unfold persisted in *. simpl. exact Hp.
    + unfold CartInitializer.fetchCart. rewrite Hg. reflexivity.
    + exact Hlive.
Qed.

Lemma CartInitializer_effect_witness :
  CartInitializer.effect failing_api
    (browser_env {[CART_ID_KEY := "cart_01"]} (Some sample_cart))
  = (Normal tt, browser_env {[CART_ID_KEY := "cart_01"]} (Some sample_cart))
  /\ (persisted (snd (CartInitializer.effect failing_api
                        (browser_env {[CART_ID_KEY := "cart_01"]} None))) = None
      /\ atom_cart (snd (CartInitializer.effect failing_api
                           (browser_env {[CART_ID_KEY := "cart_01"]} None))) = None
      /\ trace (snd (CartInitializer.effect failing_api
                       (browser_env {[CART_ID_KEY := "cart_01"]} None)))
         = trace (browser_env {[CART_ID_KEY := "cart_01"]} None)
           ++ [FetchCart "cart_01"]).
Proof.
  split.
  - destruct (CartInitializer_effect_outcomes failing_api
                (browser_env {[CART_ID_KEY := "cart_01"]} (Some sample_cart)))
      as (H & _).
    apply (H sample_cart). reflexivity.
  - destruct (CartInitializer_effect_outcomes failing_api
                (browser_env {[CART_ID_KEY := "cart_01"]} None))
      as (_ & H & _).
    apply (H "cart_01" (JsError "network")); try reflexivity. discriminate.
Defined.

(** ** Cart store: the formatted total *)

Section CartTotalProperties.
Import CartTotal.

(** X6: [$cartTotal] is null exactly for a null cart.  For a cart it is
    what [formatPrice] gives for the cart's raw total ([$cartTotalRaw], 0
    when the total is missing) and currency code, except for an empty
    currency code: [formatPrice] then falls back to "USD", while
    [$cartTotal] hands the formatter the empty code. *)
Theorem cartTotal_agrees_with_formatPrice
    (Num : Type) (of_Z : Z -> Num) (div100 : Num -> Num)
    (intl_format : string -> Num -> Completion string)
    (c : option StoreCart) (c' : StoreCart) :
  (cartTotal Num of_Z div100 intl_format c = Normal None <-> c = None)
  /\ (currency_code c' <> Some "" ->
      cartTotal Num of_Z div100 intl_format (Some c')
      = Format.formatPrice Num div100 intl_format
          (Format.Number (of_Z (cartTotalRaw (Some c')))) (currency_code c'))
  /\ (currency_code c' = Some "" ->
      cartTotal Num of_Z div100 intl_format (Some c')
      = match intl_format "" (div100 (of_Z (cartTotalRaw (Some c')))) with
        | Normal s => Normal (Some s)
        | Thrown x => Thrown x
        end
      /\ Format.formatPrice Num div100 intl_format
           (Format.Number (of_Z (cartTotalRaw (Some c')))) (currency_code c')
         = match intl_format "USD" (div100 (of_Z (cartTotalRaw (Some c')))) with
           | Normal s => Normal (Some s)
           | Thrown x => Thrown x
           end).
Proof.
  split; [|split].
  - destruct c as [c0|]; simpl; [|tauto].
    split; [|discriminate].
    destruct (intl_format _ _); discriminate.
  - intros Hne. unfold cartTotal, Format.formatPrice, Format.currency_of, cartTotalRaw.
    destruct (currency_code c') as [[|a code]|]; simpl; [congruence| |]; reflexivity.
  - intros He. unfold cartTotal, Format.formatPrice, Format.currency_of, cartTotalRaw.
    rewrite He. simpl. split; reflexivity.
Qed.

Lemma cartTotal_agrees_with_formatPrice_witness :
  cartTotal Z (fun z => z) (fun z => z / 100)
    (fun code n => Normal (code +:+ " " +:+ pretty n))
    (Some {| cart_id := "cart_01"; items := None; completed_at := None;
             region_id := None; currency_code := Some "eur";
             total := Some 1999 |})
  = Format.formatPrice Z (fun z => z / 100)
      (fun code n => Normal (code +:+ " " +:+ pretty n))
      (Format.Number 1999) (Some "eur").
Proof.
  destruct (cartTotal_agrees_with_formatPrice Z (fun z => z) (fun z => z / 100)
              (fun code n => Normal (code +:+ " " +:+ pretty n)) None
              {| cart_id := "cart_01"; items := None; completed_at := None;
                 region_id := None; currency_code := Some "eur";
                 total := Some 1999 |})
    as (_ & H & _).
  apply H. discriminate.
Defined.

End CartTotalProperties.

(** ** Cart panel: opening, closing and the focus *)

Section CartPanelProperties.
Import CartPanel.

Lemma openCart_again (a : Atoms) :
  atom_cartOpen a = true -> openCart None a = (Normal tt, a).
Proof. destruct a as [o t f act]; simpl. intros ->. reflexivity. Qed.

Lemma seq_all_app {S} (l1 l2 : list (Js S unit)) (s : S) :
  (forall m s', In m l1 -> fst (m s') = Normal tt) ->
  snd (seq_all (l1 ++ l2) s) = snd (seq_all l2 (snd (seq_all l1 s))).
Proof.
  revert s. induction l1 as [|m l1 IH]; intros s Hn; simpl; [reflexivity|].
  unfold bind.
  pose proof (Hn m s (or_introl eq_refl)) as Hm.
  destruct (m s) as [c s1]; simpl in Hm; subst c.
  apply IH. intros m' s' Hin. apply Hn. right. exact Hin.
Qed.

(** X7: closing the panel returns focus to the element that opened it,
    once.  After [openCart] with a trigger, any number of further
    [openCart] calls without one (as the add-to-cart button makes) and
    then [closeCart] twice, the panel is closed, the trigger is
    forgotten, and exactly one focus callback, for that trigger, has
    been queued; running the queue focuses it.  [toggleCart] closes
    without queuing a focus and keeps the trigger; [closeCart] without a
    remembered trigger only closes. *)
Theorem closeCart_returns_focus_once (a : Atoms) (t : Element) (k : nat) :
  snd (seq_all (openCart (Some t) :: repeat (openCart None) k
                ++ [closeCart; closeCart]) a)
  = {| atom_cartOpen := false; atom_cartTrigger := None;
       focus_timeouts := focus_timeouts a ++ [t];
       activeElement := activeElement a |}
  /\ activeElement
       (snd (seq_all (openCart (Some t) :: repeat (openCart None) k
                      ++ [closeCart; closeCart; run_timeouts]) a)) = Some t
  /\ snd (seq_all [openCart (Some t); toggleCart] a)
     = {| atom_cartOpen := false; atom_cartTrigger := Some t;
          focus_timeouts := focus_timeouts a;
          activeElement := activeElement a |}
  /\ (atom_cartTrigger a = None ->
      closeCart a
      = (Normal tt,
         {| atom_cartOpen := false; atom_cartTrigger := None;
            focus_timeouts := focus_timeouts a;
            activeElement := activeElement a |})).
Proof.
  assert (Hrep : forall (rest : list (Js Atoms unit)) (b : Atoms),
             atom_cartOpen b = true ->
             snd (seq_all (repeat (openCart None) k ++ rest) b)
             = snd (seq_all rest b)).
  { intros rest b Hb. induction k as [|k IH]; simpl; [reflexivity|].
    unfold bind. rewrite (openCart_again b Hb). exact IH. }
  destruct a as [o tr f act].
  split; [|split; [|split]].
  - simpl. unfold bind at 1. simpl.
    rewrite Hrep by reflexivity. reflexivity.
  - simpl. unfold bind at 1. simpl.
    rewrite Hrep by reflexivity. simpl.
    rewrite fold_left_app. reflexivity.
  - reflexivity.
  - simpl. intros ->. reflexivity.
Qed.

Lemma closeCart_returns_focus_once_witness :
  closeCart {| atom_cartOpen := true; atom_cartTrigger := None;
               focus_timeouts := []; activeElement := Some 4%nat |}
  = (Normal tt,
     {| atom_cartOpen := false; atom_cartTrigger := None;
        focus_timeouts := []; activeElement := Some 4%nat |})
  /\ activeElement
       (snd (seq_all (openCart (Some 7%nat) :: repeat (openCart None) 2
                      ++ [closeCart; closeCart; run_timeouts])
               {| atom_cartOpen := false; atom_cartTrigger := None;
                  focus_timeouts := []; activeElement := Some 4%nat |}))
     = Some 7%nat.
Proof.
  split.
  - destruct (closeCart_returns_focus_once
                {| atom_cartOpen := true; atom_cartTrigger := None;
                   focus_timeouts := []; activeElement := Some 4%nat |} 0%nat 0%nat)
      as (_ & _ & _ & H).
    apply H. reflexivity.
  - destruct (closeCart_returns_focus_once
                {| atom_cartOpen := false; atom_cartTrigger := None;
                   focus_timeouts := []; activeElement := Some 4%nat |} 7%nat 2%nat)
      as (_ & H & _).
    exact H.
Defined.

(** X8: the focus trap.  When the handler acts, the key is Tab and the
    element it focuses is one of the panel's focusable elements; Tab on
    the last element goes to the first and Shift+Tab on the first goes to
    the last; with the focus on neither end, with another key, or with no
    focusable element, it leaves the key to the browser. *)
Theorem focus_trap_wraps_within_panel
    (key : string) (shiftKey : bool) (sidebar : option (list Element))
    (active : option Element) (firstElement : Element) (rest : list Element) :
  (forall target,
     handleKeyDownFocusTrap key shiftKey sidebar active = Some target ->
     key = "Tab" /\ exists l, sidebar = Some l /\ In target l)
  /\ handleKeyDownFocusTrap "Tab" false (Some (firstElement :: rest))
       (Some (List.last (firstElement :: rest) firstElement))
     = Some firstElement
  /\ handleKeyDownFocusTrap "Tab" true (Some (firstElement :: rest))
       (Some firstElement)
     = Some (List.last (firstElement :: rest) firstElement)
  /\ (active <> Some firstElement ->
      active <> Some (List.last (firstElement :: rest) firstElement) ->
      handleKeyDownFocusTrap key shiftKey (Some (firstElement :: rest)) active = None)
  /\ handleKeyDownFocusTrap key shiftKey (Some []) active = None
  /\ (key <> "Tab" -> handleKeyDownFocusTrap key shiftKey sidebar active = None).
Proof.
  split; [|split; [|split; [|split; [|split]]]].
  - intros target H. unfold handleKeyDownFocusTrap in H.
    destruct (String.eqb key "Tab") eqn:Hk; simpl in H; [|discriminate].
    apply String.eqb_eq in Hk. split; [exact Hk|].
    destruct sidebar as [[|f l]|]; try discriminate.
    exists (f :: l). split; [reflexivity|].
    assert (Hlast : In (List.last (f :: l) f) (f :: l)).
    { destruct (exists_last (l := f :: l)) as (l' & x & E); [discriminate|].
      rewrite E, last_last. apply in_or_app. right. left. reflexivity. }
    destruct (shiftKey && bool_decide (active = Some f)).
    + injection H as <-. exact Hlast.
    + destruct (negb shiftKey && bool_decide (active = Some (List.last (f :: l) f)));
        [|discriminate].
      injection H as <-. left. reflexivity.
  - unfold handleKeyDownFocusTrap. cbn -[List.last bool_decide].
    rewrite bool_decide_eq_true_2 by reflexivity. reflexivity.
  - unfold handleKeyDownFocusTrap. cbn -[List.last bool_decide].
    rewrite bool_decide_eq_true_2 by reflexivity. reflexivity.
  - intros H1 H2. unfold handleKeyDownFocusTrap.
    destruct (negb (String.eqb key "Tab")); [reflexivity|].
    rewrite !bool_decide_eq_false_2 by assumption.
    rewrite !andb_false_r. reflexivity.
  - unfold handleKeyDownFocusTrap.
    destruct (negb (String.eqb key "Tab")); reflexivity.
  - intros Hk. unfold handleKeyDownFocusTrap.
    apply String.eqb_neq in Hk. rewrite Hk. reflexivity.
Qed.

Lemma focus_trap_wraps_within_panel_witness :
  handleKeyDownFocusTrap "Tab" false (Some [3; 5; 8]%nat) (Some 5%nat) = None
  /\ handleKeyDownFocusTrap "Enter" false (Some [3; 5; 8]%nat) (Some 8%nat) = None.
Proof.
  destruct (focus_trap_wraps_within_panel "Tab" false (Some [3; 5; 8]%nat)
              (Some 5%nat) 3%nat [5; 8]%nat) as (_ & _ & _ & H & _).
  destruct (focus_trap_wraps_within_panel "Enter" false (Some [3; 5; 8]%nat)
              (Some 8%nat) 3%nat [5; 8]%nat) as (_ & _ & _ & _ & _ & H').
  split.
  - apply H; discriminate.
  - apply H'. discriminate.
Defined.

End CartPanelProperties.

(** ** Cart island: more on quantity changes *)

(** X9: [handleUpdateQuantity] never throws, and it touches no other
    line item's "updating" flag; with a cart in the store, the flag of
    the line item itself is cleared when the handler is done, whatever
    the backend answered. *)
Theorem handleUpdateQuantity_clears_updating_flag
    (api : Backend) (lineItemId : string) (newQuantity : Z)
    (s : Component Cart.Hooks) :
  fst (Cart.handleUpdateQuantity api lineItemId newQuantity s) = Normal tt
  /\ (forall k, k <> lineItemId ->
        Cart.updatingItems
          (hooks (snd (Cart.handleUpdateQuantity api lineItemId newQuantity s))) !! k
        = Cart.updatingItems (hooks s) !! k)
  /\ (forall c, atom_cart (env s) = Some c -> cart_id c <> "" ->
        Cart.updatingItems
          (hooks (snd (Cart.handleUpdateQuantity api lineItemId newQuantity s)))
        !! lineItemId = None).
Proof.
  destruct s as [[w ac an al tr] [u er]].
  unfold Cart.handleUpdateQuantity, Cart.setError, Cart.setUpdatingItems.
  generalize (pretty newQuantity); intros shown.
  js_unfold. simpl.
  destruct ac as [c|]; simpl.
  2:{ split; [reflexivity|]. split; [reflexivity|]. intros c [=]. }
  destruct (truthy (cart_id c)) eqn:Hid; simpl.
  2:{ split; [reflexivity|]. split; [reflexivity|].
      intros c' [= <-] Hne. apply truthy_true in Hne. congruence. }
  assert (Hother : forall k, k <> lineItemId ->
            delete lineItemId (<[lineItemId := true]> u) !! k = u !! k).
  { intros k Hk. rewrite lookup_delete_ne by congruence.
    apply lookup_insert_ne. congruence. }
  assert (Hself : delete lineItemId (<[lineItemId := true]> u) !! lineItemId = None)
    by apply lookup_delete_eq.
  destruct (newQuantity =? 0).
  - destruct (removeLineItem api (cart_id c) lineItemId); simpl;
      [destruct (getCart api (cart_id c)) as [r|]; simpl;
       [destruct (truthy (cart_id (cart r))); simpl;
        [destruct w as [[|m]|]; simpl|]|]|];
      (split; [reflexivity|split; [exact Hother|intros; exact Hself]]).
  - destruct (updateLineItem api (cart_id c) lineItemId newQuantity) as [r|]; simpl;
      [destruct (truthy (cart_id (cart r))); simpl;
       [destruct w as [[|m]|]; simpl|]|];
      (split; [reflexivity|split; [exact Hother|intros; exact Hself]]).
Qed.

Lemma handleUpdateQuantity_clears_updating_flag_witness :
  Cart.updatingItems
    (hooks (snd (Cart.handleUpdateQuantity failing_api "item_01" 2
                   {| env := browser_env ∅ (Some sample_cart);
                      hooks := {| Cart.updatingItems := {["item_02" := true]};
                                  Cart.error := None |} |})))
  !! "item_02" = Some true
  /\ Cart.updatingItems
       (hooks (snd (Cart.handleUpdateQuantity failing_api "item_01" 2
                      {| env := browser_env ∅ (Some sample_cart);
                         hooks := {| Cart.updatingItems := {["item_02" := true]};
                                     Cart.error := None |} |})))
     !! "item_01" = None.
Proof.
  destruct (handleUpdateQuantity_clears_updating_flag failing_api "item_01" 2
              {| env := browser_env ∅ (Some sample_cart);
                 hooks := {| Cart.updatingItems := {["item_02" := true]};
                             Cart.error := None |} |})
    as (_ & H2 & H3).
  split.
  - rewrite H2 by discriminate. reflexivity.
  - apply (H3 sample_cart); [reflexivity|discriminate].
Defined.

(** X10: when the backend fails, the cart island shows its inline error
    and keeps the snapshot, the storage and the announcement as they
    were.  This covers a failed quantity update, a failed delete, and a
    delete that succeeded followed by a failed re-fetch of the cart: the
    snapshot then still shows the deleted line item. *)
Theorem handleUpdateQuantity_failure_keeps_snapshot
    (api : Backend) (lineItemId : string) (newQuantity : Z)
    (s s' : Component Cart.Hooks) (c : StoreCart) :
  atom_cart (env s) = Some c -> cart_id c <> "" ->
  ((newQuantity <> 0
    /\ exists x, updateLineItem api (cart_id c) lineItemId newQuantity = Thrown x)
   \/ (newQuantity = 0
       /\ ((exists x, removeLineItem api (cart_id c) lineItemId = Thrown x)
           \/ (removeLineItem api (cart_id c) lineItemId = Normal tt
               /\ exists x, getCart api (cart_id c) = Thrown x)))) ->
  s' = snd (Cart.handleUpdateQuantity api lineItemId newQuantity s) ->
  Cart.error (hooks s') = Some "Failed to update item. Please try again."
  /\ atom_cart (env s') = Some c
  /\ window (env s') = window (env s)
  /\ atom_cartAnnouncement (env s') = atom_cartAnnouncement (env s).
Proof.
  intros Hc Hid Hfail ->. apply truthy_true in Hid.
  destruct s as [[w ac an al tr] [u er]]; simpl in *; subst ac.
  unfold Cart.handleUpdateQuantity, Cart.setError, Cart.setUpdatingItems.
  generalize (pretty newQuantity); intros shown.
  js_unfold. simpl. rewrite Hid; simpl.
  destruct Hfail as [[Hq [x Hu]]|[-> [[x Hr]|[Hr [x Hg]]]]].
  - apply Z.eqb_neq in Hq. rewrite Hq, Hu. simpl. repeat split.
  - simpl. rewrite Hr. simpl. repeat split.
  - simpl. rewrite Hr. simpl. rewrite Hg. simpl. repeat split.
Qed.

Lemma handleUpdateQuantity_failure_witness :
  Cart.error
    (hooks (snd (Cart.handleUpdateQuantity
                   {| removeLineItem := fun _ _ => Normal tt;
                      getCart := fun _ => Thrown (JsError "network");
                      updateLineItem := updateLineItem failing_api;
                      updateCart := updateCart failing_api;
                      addShippingMethod := addShippingMethod failing_api;
                      completeCart := completeCart failing_api;
                      listProducts := listProducts failing_api |}
                   "item_01" 0
                   {| env := browser_env ∅ (Some sample_cart);
                      hooks := cart_hooks0 |})))
  = Some "Failed to update item. Please try again."
  /\ atom_cart
       (env (snd (Cart.handleUpdateQuantity
                    {| removeLineItem := fun _ _ => Normal tt;
                       getCart := fun _ => Thrown (JsError "network");
                       updateLineItem := updateLineItem failing_api;
                       updateCart := updateCart failing_api;
                       addShippingMethod := addShippingMethod failing_api;
                       completeCart := completeCart failing_api;
                       listProducts := listProducts failing_api |}
                    "item_01" 0
                    {| env := browser_env ∅ (Some sample_cart);
                       hooks := cart_hooks0 |})))
     = Some sample_cart.
Proof.
  destruct (handleUpdateQuantity_failure_keeps_snapshot
              {| removeLineItem := fun _ _ => Normal tt;
                 getCart := fun _ => Thrown (JsError "network");
                 updateLineItem := updateLineItem failing_api;
                 updateCart := updateCart failing_api;
                 addShippingMethod := addShippingMethod failing_api;
                 completeCart := completeCart failing_api;
                 listProducts := listProducts failing_api |}
              "item_01" 0
              {| env := browser_env ∅ (Some sample_cart); hooks := cart_hooks0 |}
              _ sample_cart eq_refl ltac:(discriminate)
              (or_intror (conj eq_refl
                 (or_intror (conj eq_refl
                    (ex_intro _ (JsError "network") eq_refl)))))
              eq_refl)
    as (H1 & H2 & _).
  split; [exact H1|exact H2].
Defined.

Lemma find_skips (l before after : list StoreCartLineItem)
    (i : StoreCartLineItem) (lineItemId : string) :
  l = before ++ i :: after ->
  Forall (fun j => item_id j <> lineItemId) before ->
  item_id i = lineItemId ->
  find (fun j => String.eqb (item_id j) lineItemId) l = Some i.
Proof.
  intros -> Hb Hi. induction Hb as [|j before Hj Hb IH]; simpl.
  - apply String.eqb_eq in Hi. rewrite Hi. reflexivity.
  - apply String.eqb_neq in Hj. rewrite Hj. exact IH.
Qed.

Lemma find_misses (l : list StoreCartLineItem) (lineItemId : string) :
  Forall (fun j => item_id j <> lineItemId) l ->
  find (fun j => String.eqb (item_id j) lineItemId) l = None.
Proof.
  induction 1 as [|j l Hj Hl IH]; simpl; [reflexivity|].
  apply String.eqb_neq in Hj. rewrite Hj. exact IH.
Qed.

(** The handler's [itemTitle] is the announced title. *)
Lemma announced_title_computed (c : StoreCart) (lineItemId t : string) :
  announced_title c lineItemId t ->
  match
    match items c with
    | Some l => find (fun i => String.eqb (item_id i) lineItemId) l
    | None => None
    end
  with
  | Some i => or_default (title i) "Item"
  | None => "Item"
  end = t.
Proof.
  intros [before after i Hl Hb Hi Ht|before after i Hl Hb Hi Ht|l Hl Hn|Hl];
    rewrite Hl.
  - rewrite (find_skips _ before after i lineItemId eq_refl Hb Hi).
    unfold or_default. apply truthy_true in Ht. rewrite Ht. reflexivity.
  - rewrite (find_skips _ before after i lineItemId eq_refl Hb Hi).
    unfold or_default. rewrite Ht. reflexivity.
  - rewrite (find_misses l lineItemId Hn). reflexivity.
  - reflexivity.
Qed.

(** X11: when the backend succeeds, the store's snapshot is replaced by
    the cart the backend returned (for a removal, the cart fetched again
    after the delete), no error is shown, and the change is announced:
    "Updated quantity for T to N" or "Removed T from cart", where T is
    the title of the first line item with that identifier in the old
    snapshot, or "Item" when that title is empty or the old snapshot has
    no such line item, and N is the quantity in decimal digits, for a
    whole quantity of magnitude at most 2^53. *)
Theorem handleUpdateQuantity_success_replaces_snapshot
    (api : Backend) (lineItemId : string) (newQuantity : Z)
    (s s' : Component Cart.Hooks) (c : StoreCart) (r : CartResponse) :
  atom_cart (env s) = Some c -> cart_id c <> "" ->
  Z.abs newQuantity <= 2 ^ 53 ->
  ((newQuantity <> 0
    /\ updateLineItem api (cart_id c) lineItemId newQuantity = Normal r)
   \/ (newQuantity = 0
       /\ removeLineItem api (cart_id c) lineItemId = Normal tt
       /\ getCart api (cart_id c) = Normal r)) ->
  s' = snd (Cart.handleUpdateQuantity api lineItemId newQuantity s) ->
  atom_cart (env s') = Some (cart r)
  /\ Cart.error (hooks s') = None
  /\ (exists t, announced_title c lineItemId t)
  /\ (forall t, announced_title c lineItemId t ->
        atom_cartAnnouncement (env s')
        = Some (if newQuantity =? 0
                then "Removed " +:+ t +:+ " from cart"
                else "Updated quantity for " +:+ t +:+ " to "
                     +:+ pretty newQuantity)).
Proof.
  intros Hc Hid _ Hok ->. apply truthy_true in Hid.
  assert (Htotal : exists t, announced_title c lineItemId t).
  { destruct (items c) as [l|] eqn:Hl; [|exists "Item"; constructor; exact Hl].
    assert (Hcases :
      Forall (fun j => item_id j <> lineItemId) l
      \/ exists before i after,
           l = before ++ i :: after
           /\ Forall (fun j => item_id j <> lineItemId) before
           /\ item_id i = lineItemId).
    { clear Hl. induction l as [|j l IH]; [left; constructor|].
      destruct (String.eqb_spec (item_id j) lineItemId) as [Hj|Hj].
      - right. exists [], j, l. split; [reflexivity|]. split; [constructor|exact Hj].
      - destruct IH as [IH|(before & i & after & -> & Hb & Hi)].
        + left. constructor; assumption.
        + right. exists (j :: before), i, after.
          split; [reflexivity|]. split; [constructor; assumption|exact Hi]. }
    destruct Hcases as [Hn|(before & i & after & -> & Hb & Hi)].
    - exists "Item". eapply announced_missing; eassumption.
    - destruct (String.eqb_spec (title i) "") as [Ht|Ht].
      + exists "Item". eapply announced_untitled; eassumption.
      + exists (title i). eapply announced_first; eassumption. }
  assert (Hsaid :
    forall t, announced_title c lineItemId t ->
      match
        match items c with
        | Some l => find (fun i => String.eqb (item_id i) lineItemId) l
        | None => None
        end
      with
      | Some i => or_default (title i) "Item"
      | None => "Item"
      end = t) by apply announced_title_computed.
  destruct s as [[w ac an al tr] [u er]]; simpl in *; subst ac.
  unfold Cart.handleUpdateQuantity, Cart.setError, Cart.setUpdatingItems.
  generalize (pretty newQuantity); intros shown.
  js_unfold. simpl. rewrite Hid; simpl.
  destruct Hok as [[Hq Hu]|[-> [Hr Hg]]].
  - apply Z.eqb_neq in Hq. rewrite Hq, Hu. simpl.
    destruct (truthy (cart_id (cart r))); simpl;
      [destruct w as [[|m]|]; simpl|];
      (split; [reflexivity|split; [reflexivity|split; [exact Htotal|]]]);
      intros t Ht; rewrite <- (Hsaid t Ht); reflexivity.
  - simpl. rewrite Hr. simpl. rewrite Hg. simpl.
    destruct (truthy (cart_id (cart r))); simpl;
      [destruct w as [[|m]|]; simpl|];
      (split; [reflexivity|split; [reflexivity|split; [exact Htotal|]]]);
      intros t Ht; rewrite <- (Hsaid t Ht); reflexivity.
Qed.

Lemma handleUpdateQuantity_success_witness :
  atom_cart
    (env (snd (Cart.handleUpdateQuantity (answering_api sample_cart sample_order)
                 "item_01" 0
                 {| env := browser_env ∅ (Some filled_cart);
                    hooks := cart_hooks0 |})))
  = Some sample_cart
  /\ atom_cartAnnouncement
       (env (snd (Cart.handleUpdateQuantity
                    (answering_api sample_cart sample_order)
                    "item_01" 0
                    {| env := browser_env ∅ (Some filled_cart);
                       hooks := cart_hooks0 |})))
     = Some "Removed Mug from cart".
Proof.
  epose proof (handleUpdateQuantity_success_replaces_snapshot
                 (answering_api sample_cart sample_order) "item_01" 0
                 {| env := browser_env ∅ (Some filled_cart); hooks := cart_hooks0 |}
                 _ filled_cart {| cart := sample_cart |} eq_refl) as H.
  assert (Hid : cart_id filled_cart <> "") by discriminate.
  assert (Hq : Z.abs 0 <= 2 ^ 53) by (vm_compute; discriminate).
  specialize (H Hid Hq (or_intror (conj eq_refl (conj eq_refl eq_refl))) eq_refl).
  destruct H as (H1 & _ & _ & H4).
  split; [exact H1|].
  apply (H4 "Mug").
  apply (announced_first filled_cart "item_01" []
           [{| item_id := "item_02"; title := "Shirt";
               quantity := 1; unit_price := 2500 |}]
           {| item_id := "item_01"; title := "Mug";
              quantity := 2; unit_price := 1200 |});
    [reflexivity|constructor|reflexivity|discriminate].
Defined.

(** ** Shipping and payment steps: guards and the parent's callback *)

(** X12: [handleSelectOption] does nothing at all without a cart that
    has an identifier, and it never throws.  The parent's [onComplete] is
    called exactly once when the backend accepted the option and a
    callback was given, and not at all otherwise.  A callback that
    throws is handled like a failed submission: the error message is
    shown and the selection is back to null, although the store already
    holds the cart with the shipping method. *)
Theorem handleSelectOption_notifies_parent_once
    (api : Backend) (onComplete : option (Completion unit))
    (s : Component ShippingMethodSelector.Hooks) (optionId : string) :
  ((atom_cart (env s) = None
    \/ exists c, atom_cart (env s) = Some c /\ cart_id c = "") ->
   ShippingMethodSelector.handleSelectOption api onComplete optionId s
   = (Normal tt, s))
  /\ fst (ShippingMethodSelector.handleSelectOption api onComplete optionId s)
     = Normal tt
  /\ (forall c, atom_cart (env s) = Some c -> cart_id c <> "" ->
      exists new,
        trace (env (snd (ShippingMethodSelector.handleSelectOption
                           api onComplete optionId s)))
        = trace (env s) ++ new
        /\ List.filter is_notification new
           = match addShippingMethod api (cart_id c) optionId, onComplete with
             | Normal _, Some _ => [OnCompleteShipping]
             | _, _ => []
             end)
  /\ (forall c r y,
        atom_cart (env s) = Some c -> cart_id c <> "" ->
        addShippingMethod api (cart_id c) optionId = Normal r ->
        onComplete = Some (Thrown y) ->
        let s' := snd (ShippingMethodSelector.handleSelectOption
                         api onComplete optionId s) in
        atom_cart (env s') = Some (cart r)
        /\ ShippingMethodSelector.selectedOption (hooks s') = None
        /\ ShippingMethodSelector.error (hooks s')
           = Some "Failed to set shipping method. Please try again.")
  /\ (forall c r,
        atom_cart (env s) = Some c -> cart_id c <> "" ->
        addShippingMethod api (cart_id c) optionId = Normal r ->
        (onComplete = None \/ onComplete = Some (Normal tt)) ->
        let s' := snd (ShippingMethodSelector.handleSelectOption
                         api onComplete optionId s) in
        ShippingMethodSelector.selectedOption (hooks s') = Some optionId
        /\ ShippingMethodSelector.error (hooks s') = None).
Proof.
  destruct s as [[w ac an al tr] [so sel il isv er]].
  unfold ShippingMethodSelector.handleSelectOption,
    ShippingMethodSelector.setError, ShippingMethodSelector.setIsSaving,
    ShippingMethodSelector.setSelectedOption.
  js_unfold. simpl.
  destruct ac as [c|]; simpl.
  2:{ split; [reflexivity|]. split; [reflexivity|].
      split; [intros ? [=]|]. split; [intros ? ? ? [=]|intros ? ? [=]]. }
  destruct (truthy (cart_id c)) eqn:Hid; simpl.
  2:{ apply truthy_false in Hid.
      split; [reflexivity|]. split; [reflexivity|].
      split; [intros ? [= <-] H; congruence|].
      split; [intros ? ? ? [= <-] H; congruence|intros ? ? [= <-] H; congruence]. }
  split.
  { intros [[=]|(c' & [= <-] & He)]. apply truthy_true in Hid. congruence. }
  destruct (addShippingMethod api (cart_id c) optionId) as [r|x] eqn:Ha; simpl.
  - destruct (truthy (cart_id (cart r))) eqn:Hrid; simpl;
      [destruct w as [[|m]|]; simpl|];
      (destruct onComplete as [[[]|y]|]; simpl);
      rewrite <- ?app_assoc; simpl;
      (split; [reflexivity|]);
      (split; [intros c' [= <-] _; rewrite Ha; eexists; split; reflexivity|]);
      (split; [intros c' r' y' [= <-] _ Hr [=]; rewrite Ha in Hr;
                 injection Hr as <-; repeat split
              |intros c' r' [= <-] _ _ [[=]|[=]]; split; reflexivity]).
  - rewrite <- ?app_assoc; simpl.
    split; [reflexivity|].
    split; [intros c' [= <-] _; rewrite Ha; eexists; split; reflexivity|].
    split; [intros c' r' y' [= <-] _ Hr; rewrite Ha in Hr; discriminate
           |intros c' r' [= <-] _ Hr; rewrite Ha in Hr; discriminate].
Qed.

Lemma handleSelectOption_notifies_parent_once_witness :
  ShippingMethodSelector.handleSelectOption failing_api (Some (Normal tt)) "so_01"
    {| env := browser_env ∅ None; hooks := shipping_hooks0 |}
  = (Normal tt, {| env := browser_env ∅ None; hooks := shipping_hooks0 |})
  /\ ShippingMethodSelector.error
       (hooks (snd (ShippingMethodSelector.handleSelectOption
                      (answering_api completed_cart sample_order)
                      (Some (Thrown (JsError "callback"))) "so_01"
                      {| env := browser_env ∅ (Some sample_cart);
                         hooks := shipping_hooks0 |})))
     = Some "Failed to set shipping method. Please try again.".
Proof.
  split.
  - destruct (handleSelectOption_notifies_parent_once failing_api
                (Some (Normal tt))
                {| env := browser_env ∅ None; hooks := shipping_hooks0 |} "so_01")
      as (H & _).
    apply H. left. reflexivity.
  - destruct (handleSelectOption_notifies_parent_once
                (answering_api completed_cart sample_order)
                (Some (Thrown (JsError "callback")))
                {| env := browser_env ∅ (Some sample_cart);
                   hooks := shipping_hooks0 |} "so_01")
      as (_ & _ & _ & H & _).
    destruct (H sample_cart {| cart := completed_cart |} (JsError "callback")
                eq_refl ltac:(discriminate) eq_refl eq_refl) as (_ & _ & H3).
    exact H3.
Defined.

(** X13: [handlePlaceOrder] does nothing at all unless the store holds a
    cart with an identifier and a provider is selected, and it never
    throws.  It asks the backend to complete the cart at most once, and
    the parent's [onComplete] is called only with the order of an
    order-type response.  A callback that throws is reported as "Failed
    to place order" although the order exists and the store's cart has
    been cleared. *)
Theorem handlePlaceOrder_guarded_and_notifies_only_with_order
    (api : Backend) (onComplete : option (StoreOrder -> Completion unit))
    (s : Component PaymentForm.Hooks) :
  ((atom_cart (env s) = None
    \/ (exists c, atom_cart (env s) = Some c /\ cart_id c = "")
    \/ PaymentForm.selectedProvider (hooks s) = None
    \/ PaymentForm.selectedProvider (hooks s) = Some "") ->
   PaymentForm.handlePlaceOrder api onComplete s = (Normal tt, s))
  /\ fst (PaymentForm.handlePlaceOrder api onComplete s) = Normal tt
  /\ (exists new,
        trace (env (snd (PaymentForm.handlePlaceOrder api onComplete s)))
        = trace (env s) ++ new
        /\ (length (List.filter is_completion new) <= 1)%nat
        /\ forall o, In (OnCompleteOrder o) new ->
             exists c, atom_cart (env s) = Some c
                       /\ completeCart api (cart_id c) = Normal (CompletedOrder o))
  /\ (forall c p o k y,
        atom_cart (env s) = Some c -> cart_id c <> "" ->
        PaymentForm.selectedProvider (hooks s) = Some p -> p <> "" ->
        completeCart api (cart_id c) = Normal (CompletedOrder o) ->
        onComplete = Some k -> k o = Thrown y ->
        let s' := snd (PaymentForm.handlePlaceOrder api onComplete s) in
        atom_cart (env s') = None
        /\ PaymentForm.error (hooks s')
           = Some "Failed to place order. Please try again.").
Proof.
  destruct s as [[w ac an al tr] [il ip er pr sel]].
  unfold PaymentForm.handlePlaceOrder, PaymentForm.setError,
    PaymentForm.setIsProcessing.
  js_unfold. simpl.
  assert (Hnil : exists new : list Event,
             tr = tr ++ new
             /\ (length (List.filter is_completion new) <= 1)%nat
             /\ forall o, In (OnCompleteOrder o) new ->
                  exists c0, ac = Some c0
                             /\ completeCart api (cart_id c0)
                                = Normal (CompletedOrder o)).
  { exists []. rewrite app_nil_r. split; [reflexivity|].
    split; [simpl; lia|]. intros o []. }
  destruct ac as [c|]; simpl.
  2:{ split; [reflexivity|]. split; [reflexivity|]. split; [exact Hnil|].
      intros ? ? ? ? ? [=]. }
  destruct (truthy (cart_id c)) eqn:Hid; simpl.
  2:{ apply truthy_false in Hid.
      split; [reflexivity|]. split; [reflexivity|]. split; [exact Hnil|].
      intros ? ? ? ? ? [= <-] H; congruence. }
  destruct sel as [p|]; simpl.
  2:{ split; [reflexivity|]. split; [reflexivity|]. split; [exact Hnil|].
      intros ? ? ? ? ? _ _ [=]. }
  destruct (truthy p) eqn:Hp; simpl.
  2:{ apply truthy_false in Hp.
      split; [reflexivity|]. split; [reflexivity|]. split; [exact Hnil|].
      intros ? ? ? ? ? _ _ [= <-] H; congruence. }
  clear Hnil. apply truthy_true in Hid. apply truthy_true in Hp.
  split.
  { intros [[=]|[(c' & [= <-] & He)|[[=]|[= ->]]]]; congruence. }
  destruct (completeCart api (cart_id c)) as [[o|c']|x] eqn:Ho; simpl.
  - destruct w as [[|m]|]; simpl;
      (destruct onComplete as [k|]; simpl;
       [destruct (k o) as [[]|y] eqn:Hk; simpl|]);
      rewrite <- ?app_assoc; simpl;
      (split; [reflexivity|]);
      (split;
       [eexists; split; [reflexivity|]; split; [simpl; lia|];
        intros o' Hin; simpl in Hin; intuition try discriminate;
        match goal with
        | H : OnCompleteOrder _ = OnCompleteOrder _ |- _ => injection H as <-
        end;
        (exists c; split; [reflexivity|exact Ho])
       |]);
      intros c0 p0 o0 k0 y0 [= <-] _ _ _ Ho' Hk0 Hy;
      rewrite Ho in Ho'; injection Ho' as <-;
      try discriminate; injection Hk0 as <-;
      try (rewrite Hk in Hy; discriminate);
      split; reflexivity.
  - rewrite <- ?app_assoc; simpl.
    split; [reflexivity|].
    split.
    + eexists; split; [reflexivity|]; split; [simpl; lia|].
      intros o' [Hin|[]]; discriminate.
    + intros c0 p0 o0 k0 y0 [= <-] _ _ _ Ho'. rewrite Ho in Ho'. discriminate.
  - rewrite <- ?app_assoc; simpl.
    split; [reflexivity|].
    split.
    + eexists; split; [reflexivity|]; split; [simpl; lia|].
      intros o' [Hin|[Hin|[]]]; discriminate.
    + intros c0 p0 o0 k0 y0 [= <-] _ _ _ Ho'. rewrite Ho in Ho'. discriminate.
Qed.

Lemma handlePlaceOrder_guarded_witness :
  PaymentForm.handlePlaceOrder (answering_api sample_cart sample_order) None
    {| env := browser_env ∅ None; hooks := payment_hooks0 |}
  = (Normal tt, {| env := browser_env ∅ None; hooks := payment_hooks0 |})
  /\ PaymentForm.error
       (hooks (snd (PaymentForm.handlePlaceOrder
                      (answering_api sample_cart sample_order)
                      (Some (fun _ => Thrown (JsError "callback")))
                      paying_state)))
     = Some "Failed to place order. Please try again.".
Proof.
  split.
  - destruct (handlePlaceOrder_guarded_and_notifies_only_with_order
                (answering_api sample_cart sample_order) None
                {| env := browser_env ∅ None; hooks := payment_hooks0 |})
      as (H & _).
    apply H. left. reflexivity.
  - destruct (handlePlaceOrder_guarded_and_notifies_only_with_order
                (answering_api sample_cart sample_order)
                (Some (fun _ => Thrown (JsError "callback")))
                paying_state)
      as (_ & _ & _ & H).
    destruct (H sample_cart "pp_system_default" sample_order
                (fun _ => Thrown (JsError "callback")) (JsError "callback")
                eq_refl ltac:(discriminate) eq_refl ltac:(discriminate)
                eq_refl eq_refl eq_refl) as (_ & H2).
    exact H2.
Defined.

(** ** Add-to-cart button *)

Section AddToCartProperties.
Import AddToCart.

(** X14: the backend calls of one click.  [handleAddToCart] never throws
    and ends with the loading flag off.  A cart is created only when the
    store's snapshot has no usable identifier; the item is then added,
    with quantity 1, to the cart of the snapshot or to the cart just
    created; and nothing is added when the creation fails or gives a
    cart without identifier. *)
Theorem handleAddToCart_calls (api : Storefront) (props : Props) (s : Page Hooks) :
  fst (handleAddToCart api props s) = Normal tt
  /\ isLoading (hooks (island (snd (handleAddToCart api props s)))) = false
  /\ calls (snd (handleAddToCart api props s))
     = calls s
       ++ match atom_cart (env (island s)) with
          | Some c =>
              if truthy (cart_id c)
              then [AddLineItem (cart_id c) (variantId props) 1]
              else CreateCart ::
                   match createCart api with
                   | Normal r =>
                       if truthy (cart_id (cart r))
                       then [AddLineItem (cart_id (cart r)) (variantId props) 1]
                       else []
                   | Thrown _ => []
                   end
          | None =>
              CreateCart ::
              match createCart api with
              | Normal r =>
                  if truthy (cart_id (cart r))
                  then [AddLineItem (cart_id (cart r)) (variantId props) 1]
                  else []
              | Thrown _ => []
              end
          end.
Proof.
  destruct s as [[[w ac an al tr] [il er]] [o t f act] cl].
  unfold handleAddToCart, setIsLoading, setError. page_unfold. simpl.
  destruct ac as [c|]; [destruct (truthy (cart_id c)) eqn:Hid|];
    unfold truthy_opt; js_run.
  - destruct (addToCart api (cart_id c) (variantId props) 1) as [r|x] eqn:Hadd;
      js_run; [destruct (truthy (cart_id (cart r))) eqn:Hrid; js_run;
               [destruct w as [[|m]|]; js_run|]|];
      (split; [reflexivity|split; reflexivity]).
  - destruct (createCart api) as [r0|x0] eqn:Hr0; js_run;
      [destruct (truthy (cart_id (cart r0))) eqn:Hid0; js_run;
       [destruct w as [[|m]|]; js_run;
        (destruct (addToCart api (cart_id (cart r0)) (variantId props) 1)
           as [r|x] eqn:Hadd; js_run;
         [destruct (truthy (cart_id (cart r))) eqn:Hrid; js_run|])|]|];
      rewrite <- ?app_assoc; (split; [reflexivity|split; reflexivity]).
  - destruct (createCart api) as [r0|x0] eqn:Hr0; js_run;
      [destruct (truthy (cart_id (cart r0))) eqn:Hid0; js_run;
       [destruct w as [[|m]|]; js_run;
        (destruct (addToCart api (cart_id (cart r0)) (variantId props) 1)
           as [r|x] eqn:Hadd; js_run;
         [destruct (truthy (cart_id (cart r))) eqn:Hrid; js_run|])|]|];
      rewrite <- ?app_assoc; (split; [reflexivity|split; reflexivity]).
Qed.

(** The cart the click adds to: the snapshot's, or else the created one. *)
Lemma handleAddToCart_target_cases (api : Storefront) (s : Page Hooks) (cid : string) :
  ((exists c, atom_cart (env (island s)) = Some c /\ cart_id c = cid)
   \/ (usable_cart (atom_cart (env (island s))) = false
       /\ exists r0, createCart api = Normal r0 /\ cart_id (cart r0) = cid)) ->
  cid <> "" ->
  (exists c, atom_cart (env (island s)) = Some c /\ cart_id c = cid
             /\ truthy (cart_id c) = true)
  \/ (usable_cart (atom_cart (env (island s))) = false
      /\ exists r0, createCart api = Normal r0 /\ cart_id (cart r0) = cid
                    /\ truthy (cart_id (cart r0)) = true).
Proof.
  intros [(c & Hc & <-)|(Hu & r0 & Hr & <-)] Hne; apply truthy_true in Hne.
  - left. exists c. auto.
  - right. split; [exact Hu|]. exists r0. auto.
Qed.

(** X15: a successful add.  When the add call for the target cart (the
    snapshot's cart, or the one created because the snapshot had no
    usable identifier) succeeds, the store's snapshot is the cart of
    the response, its identifier is persisted when storage is usable,
    the announcement is "Added T to cart" for a non-empty product title
    T and "Added item to cart" otherwise, the cart panel is open with
    its remembered trigger untouched, and no error is shown. *)
Theorem handleAddToCart_success
    (api : Storefront) (props : Props) (s s' : Page Hooks)
    (cid : string) (r : CartResponse) :
  ((exists c, atom_cart (env (island s)) = Some c /\ cart_id c = cid)
   \/ (usable_cart (atom_cart (env (island s))) = false
       /\ exists r0, createCart api = Normal r0 /\ cart_id (cart r0) = cid)) ->
  cid <> "" ->
  addToCart api cid (variantId props) 1 = Normal r ->
  s' = snd (handleAddToCart api props s) ->
  atom_cart (env (island s')) = Some (cart r)
  /\ (forall m, window (env (island s)) = Some (StorageAvailable m) ->
        cart_id (cart r) <> "" ->
        persisted (env (island s')) = Some (cart_id (cart r)))
  /\ atom_cartAnnouncement (env (island s'))
     = Some match productTitle props with
            | Some t => if truthy t then "Added " +:+ t +:+ " to cart"
                        else "Added item to cart"
            | None => "Added item to cart"
            end
  /\ CartPanel.atom_cartOpen (panel s') = true
  /\ CartPanel.atom_cartTrigger (panel s') = CartPanel.atom_cartTrigger (panel s)
  /\ CartPanel.focus_timeouts (panel s') = CartPanel.focus_timeouts (panel s)
  /\ error (hooks (island s')) = None.
Proof.
  intros Htarget Hne Hadd ->.
  destruct (handleAddToCart_target_cases api s cid Htarget Hne)
    as [(c & Hc & <- & Hid)|(Hu & r0 & Hr0 & <- & Hid)]; clear Htarget.
  - destruct s as [[[w ac an al tr] [il er]] [o t f act] cl].
    simpl in Hc; subst ac.
    unfold handleAddToCart, setIsLoading, setError. page_unfold. simpl.
    unfold truthy_opt; simpl. rewrite Hid; simpl. rewrite Hid, Hadd; simpl.
    destruct (truthy (cart_id (cart r))) eqn:Hrid; simpl.
    + destruct w as [[|m]|]; simpl;
        (split; [reflexivity|]);
        (split; [intros m' [=]; subst; intros _; unfold persisted; simpl;
                 try apply lookup_insert_eq|]);
        repeat split.
    + split; [reflexivity|].
      split; [intros m' _ H; apply truthy_true in H; congruence|].
      repeat split.
  - destruct s as [[[w ac an al tr] [il er]] [o t f act] cl].
    simpl in Hu.
    unfold handleAddToCart, setIsLoading, setError. page_unfold. simpl.
    assert (Hnone : truthy_opt (option_map cart_id ac) = false).
    { destruct ac as [c0|]; simpl in *; [|reflexivity].
      unfold truthy_opt. simpl. rewrite Hu. reflexivity. }
    rewrite Hnone, Hr0; simpl. rewrite Hid; simpl.
    destruct w as [[|m]|]; simpl; rewrite Hid, Hadd; simpl;
      (destruct (truthy (cart_id (cart r))) eqn:Hrid; simpl);
      (split; [reflexivity|]);
      (split; [intros m' [=]; subst; intros H; unfold persisted; simpl;
               try apply lookup_insert_eq;
               apply truthy_true in H; congruence|]);
      repeat split.
Qed.

Lemma handleAddToCart_success_witness :
  atom_cart
    (env (island (snd (handleAddToCart
                         (answering_storefront sample_cart completed_cart
                            sample_order [])
                         {| variantId := "variant_01";
                            productTitle := Some "Mug" |}
                         (page0 (browser_env ∅ None)
                            {| isLoading := false; error := None |})))))
  = Some completed_cart
  /\ atom_cartAnnouncement
       (env (island (snd (handleAddToCart
                            (answering_storefront sample_cart completed_cart
                               sample_order [])
                            {| variantId := "variant_01";
                               productTitle := Some "Mug" |}
                            (page0 (browser_env ∅ None)
                               {| isLoading := false; error := None |})))))
     = Some "Added Mug to cart"
  /\ CartPanel.atom_cartOpen
       (panel (snd (handleAddToCart
                      (answering_storefront sample_cart completed_cart
                         sample_order [])
                      {| variantId := "variant_01";
                         productTitle := Some "Mug" |}
                      (page0 (browser_env ∅ None)
                         {| isLoading := false; error := None |}))))
     = true.
Proof.
  epose proof (handleAddToCart_success
                 (answering_storefront sample_cart completed_cart sample_order [])
                 {| variantId := "variant_01"; productTitle := Some "Mug" |}
                 (page0 (browser_env ∅ None)
                    {| isLoading := false; error := None |})
                 _ "cart_01" {| cart := completed_cart |}) as H.
  assert (Hne : "cart_01" <> "") by discriminate.
  specialize (H (or_intror (conj eq_refl
                   (ex_intro _ {| cart := sample_cart |} (conj eq_refl eq_refl))))
                Hne eq_refl eq_refl).
  destruct H as (H1 & _ & H3 & H4 & _).
  split; [exact H1|]. split; [exact H3|exact H4].
Defined.

(** With a usable cart in the store, a click only adds. *)
Lemma handleAddToCart_reuses_cart
    (api : Storefront) (props : Props) (s : Page Hooks) (c : StoreCart) :
  atom_cart (env (island s)) = Some c -> truthy (cart_id c) = true ->
  calls (snd (handleAddToCart api props s))
  = calls s ++ [AddLineItem (cart_id c) (variantId props) 1].
Proof.
  intros Hc Hid.
  destruct s as [[[w ac an al tr] [il er]] [o t f act] cl].
  simpl in Hc; subst ac.
  unfold handleAddToCart, setIsLoading, setError. page_unfold.
  unfold truthy_opt; js_run.
  destruct (addToCart api (cart_id c) (variantId props) 1) as [r|x] eqn:Hadd;
    js_run; [destruct (truthy (cart_id (cart r))) eqn:Hrid; js_run;
             [destruct w as [[|m]|]; js_run|]|];
    reflexivity.
Qed.

(** X16: a failed add after a cart was created, and the retry.  When the
    snapshot had no usable identifier, the creation gave a cart with an
    identifier and the add call then failed, the button shows its error,
    the created (empty) cart stays in the store, and neither the panel
    nor the announcement changes.  A second click, whatever the backend
    answers then, creates no second cart: its only call is the add to the
    cart created by the first. *)
Theorem handleAddToCart_failure_then_retry
    (api api2 : Storefront) (props : Props) (s s' : Page Hooks)
    (r0 : CartResponse) (x : Exn) :
  usable_cart (atom_cart (env (island s))) = false ->
  createCart api = Normal r0 -> cart_id (cart r0) <> "" ->
  addToCart api (cart_id (cart r0)) (variantId props) 1 = Thrown x ->
  s' = snd (handleAddToCart api props s) ->
  error (hooks (island s')) = Some "Failed to add item. Please try again."
  /\ atom_cart (env (island s')) = Some (cart r0)
  /\ panel s' = panel s
  /\ atom_cartAnnouncement (env (island s'))
     = atom_cartAnnouncement (env (island s))
  /\ calls s' = calls s ++ [CreateCart;
                            AddLineItem (cart_id (cart r0)) (variantId props) 1]
  /\ calls (snd (handleAddToCart api2 props s'))
     = calls s' ++ [AddLineItem (cart_id (cart r0)) (variantId props) 1].
Proof.
  intros Hu Hr0 Hid Hadd ->. apply truthy_true in Hid.
  assert (Hfacts :
    error (hooks (island (snd (handleAddToCart api props s))))
    = Some "Failed to add item. Please try again."
    /\ atom_cart (env (island (snd (handleAddToCart api props s))))
       = Some (cart r0)
    /\ panel (snd (handleAddToCart api props s)) = panel s
    /\ atom_cartAnnouncement (env (island (snd (handleAddToCart api props s))))
       = atom_cartAnnouncement (env (island s))
    /\ calls (snd (handleAddToCart api props s))
       = calls s ++ [CreateCart;
                     AddLineItem (cart_id (cart r0)) (variantId props) 1]).
  { destruct s as [[[w ac an al tr] [il er]] [o t f act] cl].
    simpl in Hu.
    assert (Hnone : truthy_opt (option_map cart_id ac) = false).
    { destruct ac as [c0|]; simpl in *; [|reflexivity].
      unfold truthy_opt. simpl. rewrite Hu. reflexivity. }
    unfold handleAddToCart, setIsLoading, setError. page_unfold. js_run.
    destruct w as [[|m]|]; js_run; rewrite <- ?app_assoc; repeat split. }
  destruct Hfacts as (H1 & H2 & H3 & H4 & H5).
  repeat (split; [assumption|]).
  apply handleAddToCart_reuses_cart; assumption.
Qed.

Lemma handleAddToCart_failure_then_retry_witness :
  error
    (hooks (island (snd (handleAddToCart
                           {| createCart := Normal {| cart := sample_cart |};
                              addToCart := fun _ _ _ => Thrown (JsError "network");
                              initiatePaymentSession :=
                                initiatePaymentSession failing_storefront;
                              retrieveOrder := retrieveOrder failing_storefront;
                              listRegions := listRegions failing_storefront |}
                           {| variantId := "variant_01"; productTitle := None |}
                           (page0 (browser_env ∅ None)
                              {| isLoading := false; error := None |})))))
  = Some "Failed to add item. Please try again."
  /\ atom_cart
       (env (island (snd (handleAddToCart
                            {| createCart := Normal {| cart := sample_cart |};
                               addToCart := fun _ _ _ => Thrown (JsError "network");
                               initiatePaymentSession :=
                                 initiatePaymentSession failing_storefront;
                               retrieveOrder := retrieveOrder failing_storefront;
                               listRegions := listRegions failing_storefront |}
                            {| variantId := "variant_01"; productTitle := None |}
                            (page0 (browser_env ∅ None)
                               {| isLoading := false; error := None |})))))
     = Some sample_cart.
Proof.
  epose proof (handleAddToCart_failure_then_retry
                 {| createCart := Normal {| cart := sample_cart |};
                    addToCart := fun _ _ _ => Thrown (JsError "network");
                    initiatePaymentSession :=
                      initiatePaymentSession failing_storefront;
                    retrieveOrder := retrieveOrder failing_storefront;
                    listRegions := listRegions failing_storefront |}
                 failing_storefront
                 {| variantId := "variant_01"; productTitle := None |}
                 (page0 (browser_env ∅ None)
                    {| isLoading := false; error := None |})
                 _ {| cart := sample_cart |} (JsError "network")
                 eq_refl eq_refl) as H.
  assert (Hne : cart_id (cart {| cart := sample_cart |}) <> "") by discriminate.
  specialize (H Hne eq_refl eq_refl).
  destruct H as (H1 & H2 & _).
  split; [exact H1|exact H2].
Defined.

(** X17: a creation that fails.  When the snapshot had no usable
    identifier and the creation call fails, the button shows its error
    and nothing else changes.  When the creation gives a cart without
    identifier, the error is shown too, but the store's snapshot is by
    then that cart; nothing is persisted for it and nothing is added. *)
Theorem handleAddToCart_creation_failure
    (api : Storefront) (props : Props) (s s' : Page Hooks) :
  usable_cart (atom_cart (env (island s))) = false ->
  s' = snd (handleAddToCart api props s) ->
  (forall x, createCart api = Thrown x ->
     error (hooks (island s')) = Some "Failed to add item. Please try again."
     /\ atom_cart (env (island s')) = atom_cart (env (island s))
     /\ window (env (island s')) = window (env (island s))
     /\ atom_cartAnnouncement (env (island s'))
        = atom_cartAnnouncement (env (island s))
     /\ panel s' = panel s)
  /\ (forall r0, createCart api = Normal r0 -> cart_id (cart r0) = "" ->
        error (hooks (island s')) = Some "Failed to add item. Please try again."
        /\ atom_cart (env (island s')) = Some (cart r0)
        /\ window (env (island s')) = window (env (island s))
        /\ panel s' = panel s
        /\ calls s' = calls s ++ [CreateCart]).
Proof.
  intros Hu ->.
  destruct s as [[[w ac an al tr] [il er]] [o t f act] cl].
  simpl in Hu.
  assert (Hnone : truthy_opt (option_map cart_id ac) = false).
  { destruct ac as [c0|]; simpl in *; [|reflexivity].
    unfold truthy_opt. simpl. rewrite Hu. reflexivity. }
  unfold handleAddToCart, setIsLoading, setError. page_unfold. simpl.
  rewrite Hnone. split.
  - intros x ->. simpl. repeat split.
  - intros r0 -> Hid. apply truthy_false in Hid. simpl. rewrite Hid. simpl.
    rewrite Hid. simpl. repeat split.
Qed.

Lemma handleAddToCart_creation_failure_witness :
  error
    (hooks (island (snd (handleAddToCart failing_storefront
                           {| variantId := "variant_01"; productTitle := None |}
                           (page0 (browser_env ∅ None)
                              {| isLoading := false; error := None |})))))
  = Some "Failed to add item. Please try again."
  /\ atom_cart
       (env (island (snd (handleAddToCart failing_storefront
                            {| variantId := "variant_01"; productTitle := None |}
                            (page0 (browser_env ∅ None)
                               {| isLoading := false; error := None |})))))
     = None.
Proof.
  epose proof (handleAddToCart_creation_failure failing_storefront
                 {| variantId := "variant_01"; productTitle := None |}
                 (page0 (browser_env ∅ None)
                    {| isLoading := false; error := None |})
                 _ eq_refl eq_refl) as (H & _).
  destruct (H (JsError "network") eq_refl) as (H1 & H2 & _).
  split; [exact H1|exact H2].
Defined.

End AddToCartProperties.

(** ** Payment step: choosing a provider *)

Section PaymentSelectionProperties.
Import PaymentForm PaymentSelection.

(** X18: [handleSelectPayment] does nothing without a cart in the store.
    With one, even one without identifier, it never throws, makes
    exactly one call, to initiate a payment session for that provider,
    and leaves the cart store and the storage as they were.  When the
    call succeeds the provider is the selected one and no error is
    shown; when it fails the selection is null, whatever was selected
    before, and the error message is shown.  Either way the processing
    flag is off at the end. *)
Theorem handleSelectPayment_outcomes
    (api : Storefront) (providerId : string) (s : Page Hooks) :
  (atom_cart (env (island s)) = None ->
   handleSelectPayment api providerId s = (Normal tt, s))
  /\ (forall c, atom_cart (env (island s)) = Some c ->
      let s' := snd (handleSelectPayment api providerId s) in
      fst (handleSelectPayment api providerId s) = Normal tt
      /\ calls s' = calls s ++ [InitiatePaymentSession (cart_id c) providerId]
      /\ atom_cart (env (island s')) = Some c
      /\ window (env (island s')) = window (env (island s))
      /\ panel s' = panel s
      /\ isProcessing (hooks (island s')) = false
      /\ (initiatePaymentSession api c providerId = Normal tt ->
          selectedProvider (hooks (island s')) = Some providerId
          /\ error (hooks (island s')) = None)
      /\ (forall x, initiatePaymentSession api c providerId = Thrown x ->
          selectedProvider (hooks (island s')) = None
          /\ error (hooks (island s'))
             = Some "Failed to initialize payment method. Please try again.")).
Proof.
  destruct s as [[[w ac an al tr] [il ip er pr sel]] [o t f act] cl].
  split.
  - simpl. intros ->. reflexivity.
  - simpl. intros c ->.
    destruct (handleSelectPayment api providerId _) as [res s'] eqn:Hrun.
    unfold handleSelectPayment, setSelectedProvider, setError, setIsProcessing
      in Hrun.
    page_unfold. simpl in Hrun.
    destruct (initiatePaymentSession api c providerId) as [[]|x];
      simpl in Hrun; injection Hrun as <- <-; simpl;
      repeat split; intros; discriminate.
Qed.

Lemma handleSelectPayment_outcomes_witness :
  handleSelectPayment failing_storefront "pp_stripe"
    (page0 (browser_env ∅ None) payment_hooks0)
  = (Normal tt, page0 (browser_env ∅ None) payment_hooks0)
  /\ selectedProvider
       (hooks (island (snd (handleSelectPayment failing_storefront "pp_stripe"
                              (page0 (browser_env ∅ (Some sample_cart))
                                 payment_hooks0)))))
     = None.
Proof.
  split.
  - destruct (handleSelectPayment_outcomes failing_storefront "pp_stripe"
                (page0 (browser_env ∅ None) payment_hooks0)) as (H & _).
    apply H. reflexivity.
  - destruct (handleSelectPayment_outcomes failing_storefront "pp_stripe"
                (page0 (browser_env ∅ (Some sample_cart)) payment_hooks0))
      as (_ & H).
    destruct (H sample_cart eq_refl) as (_ & _ & _ & _ & _ & _ & _ & H8).
    destruct (H8 (JsError "network") eq_refl) as (H9 & _).
    exact H9.
Defined.

(** X19: selecting a provider and then placing the order.  After a
    failed selection the place-order handler does nothing, whatever
    provider had been selected before the attempt: no completion call is
    made until a selection succeeds.  After a successful selection of a
    provider with a non-empty identifier, with a cart that has an
    identifier, placing the order calls the backend's cart completion
    first. *)
Theorem handlePlaceOrder_after_selection
    (api : Storefront) (backend : Backend)
    (onComplete : option (StoreOrder -> Completion unit))
    (providerId : string) (s s' : Page Hooks) (c : StoreCart) :
  atom_cart (env (island s)) = Some c ->
  s' = snd (handleSelectPayment api providerId s) ->
  (forall x, initiatePaymentSession api c providerId = Thrown x ->
     handlePlaceOrder backend onComplete (island s') = (Normal tt, island s'))
  /\ (initiatePaymentSession api c providerId = Normal tt ->
      cart_id c <> "" -> providerId <> "" ->
      exists rest,
        trace (env (snd (handlePlaceOrder backend onComplete (island s'))))
        = trace (env (island s)) ++ CompleteCart (cart_id c) :: rest).
Proof.
  intros Hc Hs'.
  destruct s as [[[w ac an al tr] [il ip er pr sel]] [o t f act] cl].
  simpl in Hc; subst ac.
  unfold handleSelectPayment, setSelectedProvider in Hs'.
  unfold PaymentForm.setError, PaymentForm.setIsProcessing in Hs'.
  page_unfold. simpl in Hs'. split.
  - intros x Hx. rewrite Hx in Hs'. simpl in Hs'. subst s'.
    unfold handlePlaceOrder. js_unfold. simpl.
    destruct (truthy (cart_id c)); reflexivity.
  - intros Hok Hid Hp. rewrite Hok in Hs'. simpl in Hs'. subst s'.
    apply truthy_true in Hid. apply truthy_true in Hp.
    unfold handlePlaceOrder, setError, setIsProcessing. js_unfold. js_run.
    destruct (completeCart backend (cart_id c)) as [[ord|c']|x] eqn:Ho; js_run.
    + destruct w as [[|m]|]; js_run;
        (destruct onComplete as [k|]; js_run;
         [destruct (k ord) as [[]|y] eqn:Hk; js_run|]);
        rewrite <- ?app_assoc; eexists; reflexivity.
    + eexists; reflexivity.
    + rewrite <- ?app_assoc; eexists; reflexivity.
Qed.

Lemma handlePlaceOrder_after_selection_witness :
  handlePlaceOrder (answering_api sample_cart sample_order) None
    (island (snd (handleSelectPayment failing_storefront "pp_stripe"
                    (page0 (browser_env ∅ (Some sample_cart)) payment_hooks0))))
  = (Normal tt,
     island (snd (handleSelectPayment failing_storefront "pp_stripe"
                    (page0 (browser_env ∅ (Some sample_cart)) payment_hooks0)))).
Proof.
  epose proof (handlePlaceOrder_after_selection failing_storefront
                 (answering_api sample_cart sample_order) None "pp_stripe"
                 (page0 (browser_env ∅ (Some sample_cart)) payment_hooks0)
                 _ sample_cart eq_refl eq_refl) as (H & _).
  apply (H (JsError "network")). reflexivity.
Defined.

End PaymentSelectionProperties.

(** ** Address step: validation, editing and saving *)

Section CheckoutFormProperties.
Import CheckoutForm CheckoutFields.

Lemma require_lookup_eq (field : jsstring) (key message : string)
    (m : gmap string string) :
  m !! key = None ->
  require field key message m !! key
  = if blank field then Some message else None.
Proof.
  intros Hm. unfold require.
  destruct (js_empty (trim field)) eqn:E.
  - apply trim_empty_iff in E. rewrite E. apply lookup_insert_eq.
  - destruct (blank field) eqn:Hb; [|exact Hm].
    apply trim_empty_iff in Hb. congruence.
Qed.

Lemma email_errors_lookup_ne (fd : FormData) (k : string) :
  k <> "email" ->
  (if js_empty (trim (fd_email fd))
   then <["email" := "Email is required"]> (∅ : gmap string string)
   else if negb (regex_test EMAIL_PATTERN (fd_email fd))
        then <["email" := "Please enter a valid email"]> ∅
        else ∅) !! k = None.
Proof.
  intros Hk.
  destruct (js_empty _); [|destruct (negb _)];
    rewrite ?lookup_insert_ne by congruence; apply lookup_empty.
Qed.

(** X20: the validation table.  Each of first name, last name, address,
    city, postal code and country gets its own message exactly when it
    is blank (empty after trimming), whatever the other fields hold; and
    no other key than these six and the email ever gets a message, so
    the optional apartment and phone never block a submission. *)
Theorem newErrors_one_message_per_required_field (fd : FormData) :
  newErrors fd !! "firstName"
  = (if blank (firstName fd) then Some "First name is required" else None)
  /\ newErrors fd !! "lastName"
     = (if blank (lastName fd) then Some "Last name is required" else None)
  /\ newErrors fd !! "address"
     = (if blank (address fd) then Some "Address is required" else None)
  /\ newErrors fd !! "city"
     = (if blank (fd_city fd) then Some "City is required" else None)
  /\ newErrors fd !! "postalCode"
     = (if blank (postalCode fd) then Some "Postal code is required" else None)
  /\ newErrors fd !! "country"
     = (if blank (country fd) then Some "Country is required" else None)
  /\ (forall k, ~ In k validated_keys -> newErrors fd !! k = None).
Proof.
  unfold newErrors.
  repeat split;
    try (rewrite ?require_lookup_ne by discriminate;
         apply require_lookup_eq;
         rewrite ?require_lookup_ne by discriminate;
         apply email_errors_lookup_ne; discriminate).
  intros k Hk. unfold validated_keys in Hk. simpl in Hk.
  rewrite !require_lookup_ne by (intros <-; tauto).
  apply email_errors_lookup_ne. intros ->. tauto.
Qed.

Lemma run_of_no_space_or_at (l : jsstring) :
  forallb notSpaceOrAt l = true ->
  existsb isWhiteSpace l = false /\ count_at l = 0%nat.
Proof.
  unfold count_at. induction l as [|c l IH]; [auto|].
  cbn [forallb existsb List.filter].
  intros H. apply andb_true_iff in H as [Hc Hl].
  destruct (IH Hl) as [IH1 IH2].
  unfold notSpaceOrAt in Hc. apply negb_true_iff, orb_false_iff in Hc as [Hw Ha].
  rewrite N.eqb_sym in Ha. rewrite Hw, IH1, Ha. auto.
Qed.

Lemma existsb_isWhiteSpace_rev (l : jsstring) :
  existsb isWhiteSpace (rev l) = existsb isWhiteSpace l.
Proof.
  induction l as [|c l IH]; simpl; [reflexivity|].
  rewrite existsb_app, IH. simpl. rewrite orb_false_r. apply orb_comm.
Qed.

Lemma trimStart_no_space (l : jsstring) :
  existsb isWhiteSpace l = false -> trimStart l = l.
Proof.
  destruct l as [|c l]; simpl; [reflexivity|].
  intros H. apply orb_false_iff in H as [-> _]. reflexivity.
Qed.

Lemma accepted_email_facts (s : jsstring) :
  regex_test EMAIL_PATTERN s = true ->
  existsb isWhiteSpace s = false /\ count_at s = 1%nat
  /\ trim s = s /\ (5 <= length s)%nat.
Proof.
  intros H.
  apply email_pattern_shape in H
    as (a & b & c & -> & [Ha Ha'] & [Hb Hb'] & [Hc Hc']).
  destruct (run_of_no_space_or_at a Ha') as [Wa Ca].
  destruct (run_of_no_space_or_at b Hb') as [Wb Cb].
  destruct (run_of_no_space_or_at c Hc') as [Wc Cc].
  assert (Hw : existsb isWhiteSpace (a ++ [64%N] ++ b ++ [46%N] ++ c) = false).
  { rewrite !existsb_app, Wa, Wb, Wc. reflexivity. }
  split; [exact Hw|]. split; [|split].
  - unfold count_at in *. rewrite !List.filter_app, !length_app, Ca, Cb, Cc.
    reflexivity.
  - unfold trim, trimEnd. rewrite (trimStart_no_space _ Hw).
    rewrite trimStart_no_space by (rewrite existsb_isWhiteSpace_rev; exact Hw).
    apply rev_involutive.
  - rewrite !length_app. simpl.
    destruct a; [congruence|]. destruct b; [congruence|].
    destruct c; [congruence|]. simpl. lia.
Qed.

(** X21: what the email check accepts.  An accepted email holds no
    whitespace character and exactly one [@], is at least five
    characters long and is what trimming it gives.  The blank check
    trims but the pattern check does not: an email that is not blank and
    holds a whitespace character anywhere, also only in front or at the
    end, or that does not hold exactly one [@], gets "Please enter a
    valid email", and the submission makes no backend call. *)
Theorem validateForm_rejects_padded_email
    (api : Backend) (s : Component Hooks) (mail : jsstring) :
  mail = fd_email (formData (hooks s)) ->
  (regex_test EMAIL_PATTERN mail = true ->
   existsb isWhiteSpace mail = false /\ count_at mail = 1%nat
   /\ trim mail = mail /\ (5 <= length mail)%nat)
  /\ (blank mail = false ->
      existsb isWhiteSpace mail = true \/ count_at mail <> 1%nat ->
      newErrors (formData (hooks s)) !! "email" = Some "Please enter a valid email"
      /\ trace (env (snd (handleSubmit api s))) = trace (env s)).
Proof.
  intros ->. split; [apply accepted_email_facts|].
  intros Hb Hbad.
  assert (He : newErrors (formData (hooks s)) !! "email"
               = Some "Please enter a valid email").
  { rewrite newErrors_email, Hb.
    destruct (regex_test EMAIL_PATTERN (fd_email (formData (hooks s)))) eqn:Hr;
      [|reflexivity].
    apply accepted_email_facts in Hr as (Hw & Hc & _).
    destruct Hbad as [Hbad|Hbad]; congruence. }
  split; [exact He|].
  apply (handleSubmit_blocked api s _ _ He).
Qed.

Lemma validateForm_rejects_padded_email_witness :
  newErrors (formData (hooks (checkout_state (form_with " ada@example.com" "Ada")
                                (Some sample_cart))))
  !! "email" = Some "Please enter a valid email"
  /\ trace (env (snd (handleSubmit (answering_api sample_cart sample_order)
                        (checkout_state (form_with " ada@example.com" "Ada")
                           (Some sample_cart)))))
     = trace (env (checkout_state (form_with " ada@example.com" "Ada")
                     (Some sample_cart))).
Proof.
  destruct (validateForm_rejects_padded_email
              (answering_api sample_cart sample_order)
              (checkout_state (form_with " ada@example.com" "Ada")
                 (Some sample_cart))
              _ eq_refl) as (_ & H).
  apply H; [reflexivity|left; reflexivity].
Defined.

(** X22: saving a valid form.  With no validation message and a cart
    with an identifier in the store, [handleSubmit] never throws, leaves
    the form data alone and ends with the loading flag off.  When the
    backend accepts the update, the store's snapshot is the cart of the
    response and the form counts as submitted, with no error; when it
    fails, "Failed to save shipping information" is shown, the form is
    not marked submitted and the snapshot and the storage are as
    before. *)
Theorem handleSubmit_saves_or_reports
    (api : Backend) (s s' : Component Hooks) (c : StoreCart) :
  newErrors (formData (hooks s)) = ∅ ->
  atom_cart (env s) = Some c -> cart_id c <> "" ->
  s' = snd (handleSubmit api s) ->
  fst (handleSubmit api s) = Normal tt
  /\ formData (hooks s') = formData (hooks s)
  /\ errors (hooks s') = ∅
  /\ isLoading (hooks s') = false
  /\ (forall r,
        updateCart api (cart_id c) (body_of (formData (hooks s))) = Normal r ->
        atom_cart (env s') = Some (cart r)
        /\ isSubmitted (hooks s') = true
        /\ apiError (hooks s') = None)
  /\ (forall x,
        updateCart api (cart_id c) (body_of (formData (hooks s))) = Thrown x ->
        atom_cart (env s') = Some c
        /\ window (env s') = window (env s)
        /\ isSubmitted (hooks s') = isSubmitted (hooks s)
        /\ apiError (hooks s')
           = Some "Failed to save shipping information. Please try again.").
Proof.
  intros Hv Hc Hid Hs'. apply truthy_true in Hid.
  destruct (handleSubmit api s) as [res s1] eqn:Hrun. simpl in Hs'. subst s1.
  destruct s as [[w ac an al tr] [fd er il ae isub iss]]; simpl in *; subst ac.
  unfold handleSubmit, validateForm, setApiError, setErrors, setIsLoading,
    setIsSubmitted in Hrun.
  js_unfold. simpl in Hrun. rewrite Hv, map_to_list_empty in Hrun.
  simpl in Hrun. rewrite Hid in Hrun. simpl in Hrun.
  destruct (updateCart api (cart_id c) (body_of fd)) as [r|x]; simpl in Hrun.
  - destruct (truthy (cart_id (cart r))); simpl in Hrun;
      [destruct w as [[|m]|]; simpl in Hrun|];
      injection Hrun as <- <-; simpl;
      do 4 (split; [reflexivity|]);
      (split; intros ? [=]; subst; repeat split).
  - injection Hrun as <- <-; simpl.
    do 4 (split; [reflexivity|]).
    split; intros ? [=]; subst; repeat split.
Qed.

Lemma handleSubmit_saves_or_reports_witness :
  isSubmitted
    (hooks (snd (handleSubmit (answering_api completed_cart sample_order)
                   (checkout_state (form_with "ada@example.com" "Ada")
                      (Some sample_cart)))))
  = true
  /\ atom_cart
       (env (snd (handleSubmit (answering_api completed_cart sample_order)
                    (checkout_state (form_with "ada@example.com" "Ada")
                       (Some sample_cart)))))
     = Some completed_cart.
Proof.
  epose proof (handleSubmit_saves_or_reports
                 (answering_api completed_cart sample_order)
                 (checkout_state (form_with "ada@example.com" "Ada")
                    (Some sample_cart))
                 _ sample_cart) as H.
  assert (Hv : newErrors (formData (hooks (checkout_state
                                             (form_with "ada@example.com" "Ada")
                                             (Some sample_cart)))) = ∅)
    by (vm_compute; reflexivity).
  assert (Hid : cart_id sample_cart <> "") by discriminate.
  specialize (H Hv eq_refl Hid eq_refl).
  destruct H as (_ & _ & _ & _ & H & _).
  destruct (H {| cart := completed_cart |} eq_refl) as (H1 & H2 & _).
  split; [exact H2|exact H1].
Defined.


End CheckoutFormProperties.

(** ** Search island: what it may do, and what an answer leaves *)

Section SearchSafety.
Import Search SearchRequests.

Lemma with_trace_nil (e : Env) : with_trace (trace e ++ []) e = e.
Proof. destruct e. unfold with_trace. simpl. rewrite app_nil_r. reflexivity. Qed.

Lemma with_trace_app (e : Env) (n1 n2 : list Event) :
  with_trace (trace (with_trace (trace e ++ n1) e) ++ n2)
    (with_trace (trace e ++ n1) e)
  = with_trace (trace e ++ (n1 ++ n2)) e.
Proof. unfold with_trace. simpl. rewrite app_assoc. reflexivity. Qed.

(** A step inside the island that changes neither the environment nor
    the loading flag. *)
Lemma requests_step_quiet (m : Js (Component Hooks) unit) :
  (forall c, fst (m c) = Normal tt /\ env (snd (m c)) = env c
             /\ isLoading (hooks (snd (m c))) = isLoading (hooks c)) ->
  requests_step (inComp m).
Proof.
  intros H [c p] [Hl Hp]. destruct (H c) as (H1 & H2 & H3).
  exists []. unfold inComp. simpl in *.
  destruct (m c) as [r c']; simpl in *. subst r.
  rewrite with_trace_nil.
  split; [reflexivity|]. split; [exact H2|]. split; [constructor|].
  split; [|auto].
  unfold requests_sound. simpl. rewrite H3. split; [exact Hl|exact Hp].
Qed.

Lemma requests_step_bind (m k : Js State unit) :
  requests_step m -> requests_step k -> requests_step (m ;; k).
Proof.
  intros Hm Hk s Hs. unfold bind.
  destruct (Hm s Hs) as (n1 & H1 & H2 & H3 & H4 & H5).
  destruct (m s) as [c s1]; simpl in *; subst c.
  destruct (Hk s1 H4) as (n2 & K1 & K2 & K3 & K4 & K5).
  exists (n1 ++ n2). split; [exact K1|].
  split; [rewrite K2, H2; apply with_trace_app|].
  split; [apply Forall_app; auto|].
  split; [exact K4|].
  intros q Hq. destruct (K5 q Hq) as [Hin|Hin].
  - destruct (H5 q Hin) as [Hin'|Hin']; [left; exact Hin'|].
    right. apply in_or_app. left. exact Hin'.
  - right. apply in_or_app. right. exact Hin.
Qed.

Lemma requests_step_ret : requests_step (ret tt).
Proof.
  intros s Hs. exists []. simpl. rewrite with_trace_nil. repeat split; auto.
  apply Hs. apply Hs.
Qed.

Lemma requests_step_search_begin (q : jsstring) : requests_step (search_begin q).
Proof.
  intros [[[w ac an al tr] [qu re il io cl ti nt cu]] p] [Hl Hp].
  unfold search_begin, send, inComp, setIsLoading, setResults, setIsOpen.
  js_unfold. rewrite trim_length_blank.
  destruct (blank q) eqn:Hb; simpl in *.
  - exists []. rewrite app_nil_r. repeat split; auto.
  - exists [ListProducts q 5]. split; [reflexivity|]. split; [reflexivity|].
    split; [repeat constructor; exact Hb|].
    split.
    + split; [intros _; destruct p; discriminate|].
      apply Forall_app. split; [exact Hp|repeat constructor; exact Hb].
    + intros q' Hq'. apply in_app_or in Hq' as [Hq'|[<-|[]]];
        [left; exact Hq'|right; left; reflexivity].
Qed.

Lemma drop_nth_In {A} (k : nat) (l : list A) (x : A) :
  In x (drop_nth k l) -> In x l.
Proof.
  revert k. induction l as [|a l IH]; intros [|k]; simpl; try tauto.
  intros [->|H]; [left; reflexivity|right; apply (IH k), H].
Qed.

Lemma requests_step_answer (k : nat) (a : Completion (list StoreProduct)) :
  requests_step (answer k a).
Proof.
  intros [[[w ac an al tr] [qu re il io cl ti nt cu]] p] [Hl Hp].
  unfold answer, search_resume, inComp, setIsLoading, setResults, setIsOpen.
  js_unfold. simpl in *.
  destruct (nth_error p k) as [q|]; simpl.
  - assert (Hsub : Forall (fun q0 => blank q0 = false) (drop_nth k p)).
    { rewrite Forall_forall in *. intros x Hx. apply Hp.
      apply list_elem_of_In. apply list_elem_of_In in Hx.
      apply (drop_nth_In k), Hx. }
    destruct a as [ps|x]; simpl.
    + exists []. rewrite app_nil_r. split; [reflexivity|]. split; [reflexivity|].
      split; [constructor|]. split; [split; [discriminate|exact Hsub]|].
      intros q' Hq'. left. apply (drop_nth_In k), Hq'.
    + exists [ConsoleError "Search error:"].
      split; [reflexivity|]. split; [reflexivity|].
      split; [repeat constructor|]. split; [split; [discriminate|exact Hsub]|].
      intros q' Hq'. left. apply (drop_nth_In k), Hq'.
  - exists []. rewrite app_nil_r. repeat split; auto.
Qed.

Lemma requests_step_clearTimeout (id : nat) :
  requests_step (inComp (clearTimeout id)).
Proof.
  apply requests_step_quiet. intros [e [qu re il io cl ti nt cu]].
  repeat split.
Qed.

Lemma requests_step_fire (due : list Timer) : requests_step (fire due).
Proof.
  induction due as [|t rest IH]; simpl; [apply requests_step_ret|].
  apply requests_step_bind; [apply requests_step_clearTimeout|].
  apply requests_step_bind; [apply requests_step_search_begin|exact IH].
Qed.

Lemma requests_step_elapse (d : N) : requests_step (elapse d).
Proof.
  intros [c p] Hs. unfold elapse, bind, inComp, gets, set_clock, setState, modify.
  simpl.
  apply (requests_step_fire _
           {| comp :=
                {| env := env c;
                   hooks := {| query := query (hooks c);
                               results := results (hooks c);
                               isLoading := isLoading (hooks c);
                               isOpen := isOpen (hooks c);
                               clock := (clock (hooks c) + d)%N;
                               timers := timers (hooks c);
                               next_timer := next_timer (hooks c);
                               cleanup := cleanup (hooks c) |} |};
              pending := p |}).
  exact Hs.
Qed.

Lemma requests_step_onInput (v : jsstring) : requests_step (inComp (onInput v)).
Proof.
  apply requests_step_quiet. intros [e [qu re il io cl ti nt cu]].
  unfold onInput, bind, gets. simpl.
  destruct (bool_decide (qu = v)); [auto|].
  unfold setQuery, run_cleanup, debounce_effect, clearTimeout, set_timers,
    set_cleanup, setTimeout.
  js_unfold. simpl. destruct cu; auto.
Qed.

Lemma requests_step_close : requests_step close.
Proof.
  apply requests_step_quiet. intros [e [qu re il io cl ti nt cu]].
  repeat split.
Qed.

Lemma requests_step_run (l : list Action) : requests_step (run l).
Proof.
  induction l as [|a l IH]; simpl; [apply requests_step_ret|].
  apply requests_step_bind; [|exact IH].
  destruct a as [v|d|k a|];
    [apply requests_step_onInput|apply requests_step_elapse
    |apply requests_step_answer|apply requests_step_close].
Qed.

Lemma requests_sound_mount (e : Env) : requests_sound (mount e).
Proof. split; [discriminate|constructor]. Qed.

(** X24: whatever is typed, however time passes, whenever and in
    whatever order the answers to its requests arrive, and whenever the
    panel is closed by a click, the search island never throws, leaves
    the cart store and the storage alone, and adds to the trace nothing
    but product queries and console errors; every query it issues is for
    a text that is not blank, with the limit 5.  The loading flag is on
    only while a request is unanswered, and every unanswered request is
    one it has issued. *)
Theorem search_never_queries_blank (e : Env) (l : list Action) :
  exists new,
    fst (run l (mount e)) = Normal tt
    /\ env (comp (snd (run l (mount e)))) = with_trace (trace e ++ new) e
    /\ Forall search_event new
    /\ (forall q n, In (ListProducts q n) new -> blank q = false /\ n = 5)
    /\ (isLoading (hooks (comp (snd (run l (mount e))))) = true ->
        pending (snd (run l (mount e))) <> [])
    /\ (forall q, In q (pending (snd (run l (mount e)))) ->
          In (ListProducts q 5) new).
Proof.
  destruct (requests_step_run l (mount e) (requests_sound_mount e))
    as (new & H1 & H2 & H3 & [H4 _] & H5).
  exists new. split; [exact H1|]. split; [exact H2|]. split; [exact H3|].
  split; [|split; [exact H4|]].
  - intros q n Hin. rewrite Forall_forall in H3.
    apply (H3 (ListProducts q n)). apply list_elem_of_In. exact Hin.
  - intros q Hq. destruct (H5 q Hq) as [[]|Hin]. exact Hin.
Qed.

End SearchSafety.

Section SearchAnswers.
Import Search SearchRequests.

Lemma search_begin_total (q : jsstring) (s : State) :
  search_begin q s = (Normal tt, snd (search_begin q s)).
Proof.
  destruct s as [[[w ac an al tr] [qu re il io cl ti nt cu]] p].
  unfold search_begin, send, inComp, setIsLoading, setResults, setIsOpen.
  js_unfold. destruct (0 <? length (trim q))%nat; reflexivity.
Qed.

(** What the first half of the timer callback keeps of the island. *)
Lemma search_begin_effect (q : jsstring) (s : State) :
  let s' := snd (search_begin q s) in
  query (hooks (comp s')) = query (hooks (comp s))
  /\ clock (hooks (comp s')) = clock (hooks (comp s))
  /\ timers (hooks (comp s')) = timers (hooks (comp s))
  /\ cleanup (hooks (comp s')) = cleanup (hooks (comp s))
  /\ next_timer (hooks (comp s')) = next_timer (hooks (comp s)).
Proof.
  destruct s as [[[w ac an al tr] [qu re il io cl ti nt cu]] p].
  unfold search_begin, send, inComp, setIsLoading, setResults, setIsOpen.
  js_unfold. destruct (0 <? length (trim q))%nat; simpl; repeat split.
Qed.

Lemma requests_elapse_idle (c : Component Hooks) (p : list jsstring) (d : N) :
  timers (hooks c) = [] ->
  elapse d {| comp := c; pending := p |}
  = (Normal tt, {| comp := at_time (clock (hooks c) + d) [] c; pending := p |}).
Proof.
  destruct c as [e [qu re il io cl ti nt cu]]; simpl. intros ->.
  reflexivity.
Qed.

Lemma requests_elapse_early (c : Component Hooks) (p : list jsstring) (d : N)
    (t : Timer) :
  timers (hooks c) = [t] -> (clock (hooks c) + d < deadline t)%N ->
  elapse d {| comp := c; pending := p |}
  = (Normal tt, {| comp := at_time (clock (hooks c) + d) [t] c; pending := p |}).
Proof.
  destruct c as [e [qu re il io cl ti nt cu]]; simpl. intros -> Hlt.
  unfold elapse, inComp, set_clock. js_unfold. simpl.
  rewrite filter_cons_False by lia. reflexivity.
Qed.

Lemma requests_elapse_due (c : Component Hooks) (p : list jsstring) (d : N)
    (t : Timer) :
  timers (hooks c) = [t] -> (deadline t <= clock (hooks c) + d)%N ->
  elapse d {| comp := c; pending := p |}
  = (Normal tt,
     snd (search_begin (timer_query t)
            {| comp := at_time (clock (hooks c) + d) [] c; pending := p |})).
Proof.
  destruct c as [e [qu re il io cl ti nt cu]]; simpl. intros -> Hle.
  unfold elapse, inComp, set_clock. js_unfold. simpl.
  rewrite filter_cons_True by exact Hle. rewrite filter_nil. simpl.
  unfold inComp, clearTimeout, set_timers. js_unfold. simpl.
  rewrite filter_cons_False by (intros H; apply H; reflexivity).
  rewrite filter_nil. unfold at_time. simpl.
  rewrite search_begin_total. reflexivity.
Qed.

(** An input that changes the text, then a pause of 300 ms or more: the
    timer callback of that input runs, with the clock moved on. *)
Lemma input_then_pause (c : Component Hooks) (p : list jsstring)
    (v : jsstring) (d : N) (rest : list Action) :
  debounced (hooks c) -> v <> query (hooks c) -> (DEBOUNCE_MS <= d)%N ->
  run (Input v :: Elapse d :: rest) {| comp := c; pending := p |}
  = run rest
      (snd (search_begin v
              {| comp := at_time (clock (hooks c) + d) [] (scheduled v c);
                 pending := p |})).
Proof.
  intros Hdeb Hv Hd.
  cbn [run step]. unfold bind at 1. unfold inComp at 1. cbn [comp pending].
  rewrite (onInput_changed c v Hdeb Hv).
  unfold bind at 1.
  rewrite (requests_elapse_due (scheduled v c) p d
             {| timer_id := next_timer (hooks c);
                deadline := (clock (hooks c) + DEBOUNCE_MS)%N;
                timer_query := v |} eq_refl)
    by (simpl; lia).
  reflexivity.
Qed.

Lemma requests_debounced_step (a : Action) (s : State) :
  debounced (hooks (comp s)) -> debounced (hooks (comp (snd (step a s)))).
Proof.
  intros Hd. destruct s as [c p]. destruct a as [v|d|k a|]; simpl in *.
  - unfold inComp. simpl.
    pose proof (debounced_onInput c v Hd) as H.
    destruct (onInput v c) as [r c']. exact H.
  - destruct Hd as [Ht|(t & Ht & Hc & Hq)].
    + rewrite requests_elapse_idle by exact Ht. left. reflexivity.
    + destruct (decide (deadline t <= clock (hooks c) + d)%N) as [Hle|Hgt].
      * rewrite (requests_elapse_due c p d t) by assumption. simpl.
        destruct (search_begin_effect (timer_query t)
                    {| comp := at_time (clock (hooks c) + d) [] c;
                       pending := p |}) as (_ & _ & H & _).
        left. rewrite H. reflexivity.
      * rewrite (requests_elapse_early c p d t) by (try assumption; lia).
        right. exists t. simpl. auto.
  - destruct c as [[w ac an al tr] [qu re il io cl ti nt cu]].
    unfold answer, search_resume, inComp, setIsLoading, setResults, setIsOpen.
    js_unfold. simpl in *.
    destruct (nth_error p k); simpl; [destruct a; simpl|]; exact Hd.
  - destruct c as [e [qu re il io cl ti nt cu]]. exact Hd.
Qed.

Lemma requests_debounced_run (l : list Action) :
  forall s, debounced (hooks (comp s)) ->
            debounced (hooks (comp (snd (run l s)))).
Proof.
  induction l as [|a l IH]; intros s Hd; simpl; [exact Hd|].
  unfold bind.
  pose proof (requests_debounced_step a s Hd) as Ha.
  destruct (step a s) as [[[]|x] s1]; simpl in *; [apply IH|]; exact Ha.
Qed.

(** X25: an input, a pause of 300 ms or more, and the answer.  In any
    state the island can reach with no request unanswered, after an
    input that changes the text to [v] and then at least 300 ms, no
    timer is pending and the text is [v].  When [v] is blank the results
    are empty, the panel is closed and nothing was asked.  Otherwise the
    query for [v] has been sent and is unanswered, the loading flag is
    on, and results and panel are still as before; an answer with
    products then makes them the results, opens the panel and turns the
    flag off; a failure empties the results, is logged, and leaves the
    panel open or closed as it was.  Answers are taken as they come: if
    the text is changed again to [v2] before the answer for [v] arrived,
    and that answer arrives after the one for [v2], the results shown
    for the text [v2] are those for [v]. *)
Theorem search_settles_after_answer
    (e : Env) (pre : list Action) (s s1 : State) (v : jsstring) (d : N) :
  s = snd (run pre (mount e)) -> pending s = [] ->
  v <> query (hooks (comp s)) -> (DEBOUNCE_MS <= d)%N ->
  s1 = snd (run [Input v; Elapse d] s) ->
  query (hooks (comp s1)) = v /\ timers (hooks (comp s1)) = []
  /\ (blank v = true ->
      results (hooks (comp s1)) = [] /\ isOpen (hooks (comp s1)) = false
      /\ isLoading (hooks (comp s1)) = false /\ pending s1 = []
      /\ trace (env (comp s1)) = trace (env (comp s)))
  /\ (blank v = false ->
      isLoading (hooks (comp s1)) = true /\ pending s1 = [v]
      /\ results (hooks (comp s1)) = results (hooks (comp s))
      /\ isOpen (hooks (comp s1)) = isOpen (hooks (comp s))
      /\ trace (env (comp s1)) = trace (env (comp s)) ++ [ListProducts v 5]
      /\ (forall ps s2,
            s2 = snd (answer 0 (Normal ps) s1) ->
            results (hooks (comp s2)) = ps /\ isOpen (hooks (comp s2)) = true
            /\ isLoading (hooks (comp s2)) = false /\ pending s2 = [])
      /\ (forall x s2,
            s2 = snd (answer 0 (Thrown x) s1) ->
            results (hooks (comp s2)) = []
            /\ isOpen (hooks (comp s2)) = isOpen (hooks (comp s))
            /\ isLoading (hooks (comp s2)) = false /\ pending s2 = []
            /\ trace (env (comp s2))
               = trace (env (comp s))
                 ++ [ListProducts v 5; ConsoleError "Search error:"])
      /\ (forall v2 d2 ps ps2 s3,
            blank v2 = false -> v2 <> v -> (DEBOUNCE_MS <= d2)%N ->
            s3 = snd (run [Input v2; Elapse d2;
                           Answer 1 (Normal ps2); Answer 0 (Normal ps)] s1) ->
            query (hooks (comp s3)) = v2 /\ results (hooks (comp s3)) = ps
            /\ isLoading (hooks (comp s3)) = false /\ pending s3 = [])).
Proof.
  intros Hs Hp Hv Hd Hs1.
  assert (Hdeb : debounced (hooks (comp s)))
    by (subst s; apply requests_debounced_run, debounced_mount).
  destruct (requests_step_run pre (mount e) (requests_sound_mount e))
    as (_ & _ & _ & _ & [Hload _] & _).
  rewrite <- Hs in Hload. clear Hs.
  destruct s as [c p]. simpl in Hp, Hdeb, Hload, Hv. subst p.
  assert (Hl : isLoading (hooks c) = false).
  { destruct (isLoading (hooks c)); [|reflexivity].
    exfalso. apply Hload; reflexivity. }
  clear Hload.
  rewrite (input_then_pause c [] v d [] Hdeb Hv Hd) in Hs1.
  cbn [run] in Hs1. unfold ret in Hs1. cbn [snd] in Hs1.
  destruct c as [[w ac an al tr] [qu re il io cl ti nt cu]].
  simpl in Hl. subst il. clear Hdeb.
  unfold search_begin, send, inComp, setIsLoading, setResults, setIsOpen,
    at_time, scheduled in Hs1.
  js_unfold. rewrite trim_length_blank in Hs1.
  destruct (blank v) eqn:Hb; simpl in Hs1; subst s1.
  - do 2 (split; [reflexivity|]).
    split; [intros _; simpl; repeat split|intros [=]].
  - do 2 (split; [reflexivity|]).
    split; [intros [=]|]. intros _.
    do 5 (split; [reflexivity|]).
    split; [|split].
    + intros ps s2 ->.
      unfold answer, search_resume, inComp, setIsLoading, setResults, setIsOpen.
      js_unfold. simpl. repeat split.
    + intros x s2 ->.
      unfold answer, search_resume, inComp, setIsLoading, setResults, setIsOpen.
      js_unfold. simpl. rewrite <- app_assoc. repeat split.
    + intros v2 d2 ps ps2 s3 Hb2 Hv2 Hd2 ->.
      rewrite input_then_pause;
        [|left; reflexivity|simpl; exact Hv2|exact Hd2].
      unfold search_begin, send, inComp, setIsLoading, setResults, setIsOpen,
        at_time, scheduled.
      js_unfold. rewrite trim_length_blank, Hb2. simpl.
      unfold answer, search_resume, inComp, setIsLoading, setResults, setIsOpen.
      js_unfold. simpl. repeat split.
Qed.

End SearchAnswers.

Lemma search_settles_after_answer_witness :
  Search.isLoading
    (hooks (SearchRequests.comp
              (snd (SearchRequests.run
                      [SearchRequests.Input (js "mug"); SearchRequests.Elapse 300]
                      (snd (SearchRequests.run [] (SearchRequests.mount
                                                     (browser_env ∅ None)))))))) = true
  /\ SearchRequests.pending
       (snd (SearchRequests.run
               [SearchRequests.Input (js "mug"); SearchRequests.Elapse 300]
               (snd (SearchRequests.run [] (SearchRequests.mount
                                              (browser_env ∅ None))))))
     = [js "mug"].
Proof.
  epose proof (search_settles_after_answer (browser_env ∅ None) []
                 _ _ (js "mug") 300%N eq_refl eq_refl) as H.
  assert (Hv : js "mug" <> []) by discriminate.
  assert (Hd : (Search.DEBOUNCE_MS <= 300)%N) by (vm_compute; discriminate).
  specialize (H Hv Hd eq_refl).
  destruct H as (_ & _ & _ & H).
  destruct (H eq_refl) as (H1 & H2 & _).
  split; [exact H1|exact H2].
Defined.

(** ** Shipping step: the price shown for an option *)

Section ShippingPriceProperties.
Variable Num : Type.
Variable of_Z : Z -> Num.
Variable div100 : Num -> Num.
Variable intl_format : string -> Num -> Completion string.

(** X26: the shipping selector's own price formatter shows "Free" for an
    amount of 0 without consulting the currency formatter, so also where
    that formatter would throw; for any other amount it gives what the
    shared [formatPrice] gives for that amount and the currency code of
    the store's cart ("USD" without a cart, or when the cart's code is
    missing or empty). *)
Theorem shipping_formatPrice_free_or_shared (c : option StoreCart) (amount : Z) :
  ShippingPrice.formatPrice Num of_Z div100 intl_format c 0 = Normal "Free"
  /\ (amount <> 0 ->
      match ShippingPrice.formatPrice Num of_Z div100 intl_format c amount with
      | Normal s => Normal (Some s)
      | Thrown x => Thrown x
      end
      = Format.formatPrice Num div100 intl_format (Format.Number (of_Z amount))
          match c with
          | Some c' => currency_code c'
          | None => None
          end).
Proof.
  split; [reflexivity|].
  intros Hne. apply Z.eqb_neq in Hne.
  unfold ShippingPrice.formatPrice, Format.formatPrice, Format.currency_of.
  rewrite Hne.
  destruct c as [c'|]; [destruct (currency_code c') as [code|]|]; reflexivity.
Qed.

End ShippingPriceProperties.

Lemma shipping_formatPrice_free_or_shared_witness :
  match
    ShippingPrice.formatPrice Z (fun z => z) (fun z => z / 100)
      (fun code n => Normal (code +:+ " " +:+ pretty n))
      (Some sample_cart) 500
  with
  | Normal s => Normal (Some s)
  | Thrown x => Thrown x
  end
  = Format.formatPrice Z (fun z => z / 100)
      (fun code n => Normal (code +:+ " " +:+ pretty n))
      (Format.Number 500) None.
Proof.
  destruct (shipping_formatPrice_free_or_shared Z (fun z => z) (fun z => z / 100)
              (fun code n => Normal (code +:+ " " +:+ pretty n))
              (Some sample_cart) 500) as (_ & H).
  apply H. discriminate.
Defined.

(** ** Product page: options and the variant they select *)

Section ProductActionsProperties.
Import ProductActions.

Lemma find_first {A} (f : A -> bool) (l : list A) (x : A) :
  find f l = Some x ->
  f x = true
  /\ exists before after,
       l = before ++ x :: after /\ forall y, In y before -> f y = false.
Proof.
  induction l as [|a l IH]; simpl; [discriminate|].
  destruct (f a) eqn:Ha.
  - intros [= <-]. split; [exact Ha|]. exists [], l. split; [reflexivity|].
    intros y [].
  - intros H. destruct (IH H) as (Hx & before & after & -> & Hb).
    split; [exact Hx|]. exists (a :: before), after. split; [reflexivity|].
    intros y [<-|Hy]; [exact Ha|apply Hb, Hy].
Qed.

Lemma option_selected_spec (sel : gmap string string) (o : VariantOption) :
  option_selected sel o = true <->
  exists id, option_id o = Some id /\ id <> "" /\ sel !! id = Some (value o).
Proof.
  unfold option_selected. split.
  - destruct (option_id o) as [id|]; [|discriminate].
    destruct (truthy id) eqn:Hid; [|discriminate].
    intros H. apply bool_decide_eq_true_1 in H.
    exists id. apply truthy_true in Hid. auto.
  - intros (id & -> & Hid & H). apply truthy_true in Hid. rewrite Hid.
    apply bool_decide_eq_true_2. exact H.
Qed.

Lemma selection_nonempty (sel : gmap string string) :
  Nat.eqb (length (map_to_list sel)) 0 = false <-> sel <> ∅.
Proof.
  rewrite Nat.eqb_neq. split.
  - intros H ->. apply H. rewrite map_to_list_empty. reflexivity.
  - intros H Hl. apply H. apply length_zero_iff_nil in Hl.
    apply map_to_list_empty_iff. exact Hl.
Qed.

(** X27: the variant the product page offers to add.  When a variant is
    selected, some option value is selected, the variant is the first of
    the product's variants all of whose options carry exactly the
    selected values, and each of its options has a non-empty identifier.
    Right after the customer chose the value [val] for the option [id],
    a selected variant that has that option carries [val] for it. *)
Theorem selectedVariant_sound
    (product : Product) (sel : gmap string string) (v : Variant) :
  selectedVariant product sel = Some v ->
  sel <> ∅
  /\ (exists before after,
        variants product = Some (before ++ v :: after)
        /\ forall v', In v' before -> variant_selected sel v' = false)
  /\ (exists os,
        options v = Some os
        /\ forall o, In o os ->
             exists id, option_id o = Some id /\ id <> ""
                        /\ sel !! id = Some (value o))
  /\ (forall prev id val o os,
        sel = handleOptionChange id val prev ->
        options v = Some os -> In o os -> option_id o = Some id ->
        value o = val).
Proof.
  unfold selectedVariant.
  destruct (variants product) as [vs|]; [|discriminate].
  destruct (Nat.eqb (length (map_to_list sel)) 0) eqn:Hn; [discriminate|].
  intros Hf. apply selection_nonempty in Hn.
  destruct (find_first _ _ _ Hf) as (Hv & before & after & -> & Hb).
  assert (Hos : exists os,
             options v = Some os
             /\ forall o, In o os ->
                  exists id, option_id o = Some id /\ id <> ""
                             /\ sel !! id = Some (value o)).
  { unfold variant_selected in Hv.
    destruct (options v) as [os|]; [|discriminate].
    exists os. split; [reflexivity|].
    intros o Ho. rewrite forallb_forall in Hv.
    apply option_selected_spec, Hv, Ho. }
  split; [exact Hn|]. split; [eauto|]. split; [exact Hos|].
  intros prev id val o os -> Hopt Ho Hid.
  destruct Hos as (os' & Hopt' & Hall).
  rewrite Hopt in Hopt'. injection Hopt' as <-.
  destruct (Hall o Ho) as (id' & Hid' & _ & Hl).
  rewrite Hid in Hid'. injection Hid' as <-.
  unfold handleOptionChange in Hl. rewrite lookup_insert_eq in Hl.
  congruence.
Qed.

Lemma selectedVariant_sound_witness :
  exists before after,
    variants
      {| variants :=
           Some [{| variant_id := "variant_s";
                    options := Some [{| option_id := Some "opt_size";
                                        value := "S" |}] |};
                 {| variant_id := "variant_l";
                    options := Some [{| option_id := Some "opt_size";
                                        value := "L" |}] |}] |}
    = Some (before
            ++ {| variant_id := "variant_l";
                  options := Some [{| option_id := Some "opt_size";
                                      value := "L" |}] |} :: after)
    /\ forall v', In v' before ->
         variant_selected
           (handleOptionChange "opt_size" "L" {["opt_size" := "S"]}) v' = false.
Proof.
  destruct (selectedVariant_sound
              {| variants :=
                   Some [{| variant_id := "variant_s";
                            options := Some [{| option_id := Some "opt_size";
                                                value := "S" |}] |};
                         {| variant_id := "variant_l";
                            options := Some [{| option_id := Some "opt_size";
                                                value := "L" |}] |}] |}
              (handleOptionChange "opt_size" "L" {["opt_size" := "S"]})
              {| variant_id := "variant_l";
                 options := Some [{| option_id := Some "opt_size";
                                     value := "L" |}] |})
    as (_ & H & _).
  - vm_compute. reflexivity.
  - exact H.
Defined.

Lemma initial_fold_other (os : list VariantOption) (acc : gmap string string)
    (k : string) :
  ~ In (Some k) (map option_id os) ->
  fold_left
    (fun (acc : gmap string string) o =>
       match option_id o with
       | Some id => if truthy id then assign_option acc id (value o) else acc
       | None => acc
       end) os acc !! k
  = acc !! k.
Proof.
  revert acc. induction os as [|o os IH]; intros acc Hk; simpl; [reflexivity|].
  simpl in Hk. rewrite IH by tauto.
  destruct (option_id o) as [id|]; [|reflexivity].
  destruct (truthy id); [|reflexivity].
  unfold assign_option. destruct (String.eqb id "__proto__"); [reflexivity|].
  apply lookup_insert_ne. intros ->. tauto.
Qed.

Lemma initial_fold_lookup (os : list VariantOption) :
  forall acc : gmap string string,
    Forall (fun o => exists id, option_id o = Some id /\ id <> ""
                                /\ id <> "__proto__") os ->
    List.NoDup (map option_id os) ->
    forall o, In o os ->
      option_selected
        (fold_left
           (fun (acc : gmap string string) o =>
              match option_id o with
              | Some id => if truthy id then assign_option acc id (value o)
                           else acc
              | None => acc
              end) os acc) o = true.
Proof.
  induction os as [|o0 os IH]; intros acc Hvalid Hnd o Ho; [destruct Ho|].
  inversion Hvalid as [|? ? (id0 & Hid0 & Hne0 & Hproto) Hvalid']; subst.
  inversion Hnd as [|? ? Hnotin Hnd']; subst.
  simpl. destruct Ho as [<-|Ho].
  - apply option_selected_spec. exists id0. split; [exact Hid0|].
    split; [exact Hne0|].
    rewrite initial_fold_other by (rewrite <- Hid0; exact Hnotin).
    rewrite Hid0. apply truthy_true in Hne0. rewrite Hne0.
    unfold assign_option. apply String.eqb_neq in Hproto. rewrite Hproto.
    apply lookup_insert_eq.
  - apply IH; assumption.
Qed.

(** X28: the selection the product page starts with.  When the options
    of the product's first variant have non-empty identifiers, no two
    the same and none of them [__proto__], and there is at least one,
    the page starts with the first variant selected.  When the first
    variant has no options at all, or its only option has the identifier
    [__proto__], the page starts with nothing selected and so with no
    variant to add. *)
Theorem initialOptions_select_first_variant
    (product : Product) (firstVariant : Variant) (rest : list Variant) :
  variants product = Some (firstVariant :: rest) ->
  (forall os,
     options firstVariant = Some os -> os <> [] ->
     Forall (fun o => exists id, option_id o = Some id /\ id <> ""
                                 /\ id <> "__proto__") os ->
     List.NoDup (map option_id os) ->
     selectedVariant product (initialOptions product) = Some firstVariant)
  /\ (options firstVariant = None \/ options firstVariant = Some []
      \/ (exists v, options firstVariant
                     = Some [{| option_id := Some "__proto__"; value := v |}]) ->
      initialOptions product = ∅
      /\ selectedVariant product (initialOptions product) = None).
Proof.
  intros Hvs. split.
  - intros os Hos Hne Hvalid Hnd.
    unfold selectedVariant, initialOptions. rewrite Hvs, Hos.
    assert (Hsel : variant_selected
                     (fold_left
                        (fun (acc : gmap string string) o =>
                           match option_id o with
                           | Some id =>
                               if truthy id then assign_option acc id (value o)
                               else acc
                           | None => acc
                           end) os ∅) firstVariant = true).
    { unfold variant_selected. rewrite Hos. apply forallb_forall.
      intros o Ho. apply initial_fold_lookup; assumption. }
    assert (Hn : Nat.eqb
                   (length (map_to_list
                      (fold_left
                         (fun (acc : gmap string string) o =>
                            match option_id o with
                            | Some id =>
                                if truthy id then assign_option acc id (value o)
                                else acc
                            | None => acc
                            end) os ∅))) 0 = false).
    { apply selection_nonempty. intros Hempty.
      destruct os as [|o os']; [congruence|].
      pose proof (initial_fold_lookup (o :: os') ∅ Hvalid Hnd o
                    (or_introl eq_refl)) as Ho.
      apply option_selected_spec in Ho as (id & _ & _ & Hl).
      rewrite Hempty, lookup_empty in Hl. discriminate. }
    rewrite Hn. simpl. rewrite Hsel. reflexivity.
  - intros Hnone. unfold selectedVariant, initialOptions. rewrite Hvs.
    destruct Hnone as [-> | [-> | (v & ->)]]; simpl;
      unfold assign_option; simpl; rewrite map_to_list_empty; auto.
Qed.

Lemma initialOptions_select_first_variant_witness :
  selectedVariant
    {| variants :=
         Some [{| variant_id := "variant_s";
                  options := Some [{| option_id := Some "opt_size"; value := "S" |};
                                   {| option_id := Some "opt_color";
                                      value := "Red" |}] |};
               {| variant_id := "variant_l";
                  options := Some [{| option_id := Some "opt_size"; value := "L" |};
                                   {| option_id := Some "opt_color";
                                      value := "Red" |}] |}] |}
    (initialOptions
       {| variants :=
            Some [{| variant_id := "variant_s";
                     options := Some [{| option_id := Some "opt_size"; value := "S" |};
                                      {| option_id := Some "opt_color";
                                         value := "Red" |}] |};
                  {| variant_id := "variant_l";
                     options := Some [{| option_id := Some "opt_size"; value := "L" |};
                                      {| option_id := Some "opt_color";
                                         value := "Red" |}] |}] |})
  = Some {| variant_id := "variant_s";
            options := Some [{| option_id := Some "opt_size"; value := "S" |};
                             {| option_id := Some "opt_color"; value := "Red" |}] |}.
Proof.
  epose proof (initialOptions_select_first_variant
                 {| variants :=
                      Some [{| variant_id := "variant_s";
                               options :=
                                 Some [{| option_id := Some "opt_size";
                                          value := "S" |};
                                       {| option_id := Some "opt_color";
                                          value := "Red" |}] |};
                            {| variant_id := "variant_l";
                               options :=
                                 Some [{| option_id := Some "opt_size";
                                          value := "L" |};
                                       {| option_id := Some "opt_color";
                                          value := "Red" |}] |}] |}
                 _ _ eq_refl) as (H & _).
  apply (H _ eq_refl).
  - discriminate.
  - repeat constructor; eexists;
      (split; [reflexivity|split; discriminate]).
  - repeat constructor; simpl; intros Hin;
      repeat (destruct Hin as [Hin|Hin]; [discriminate|]); destruct Hin.
Defined.

End ProductActionsProperties.

(** ** The default region and its cache *)

Section RegionsProperties.
Import Regions.

(** X29: the default region is requested until one is found, and never
    again afterwards.  With a region cached, [getDefaultRegion] returns
    it and makes no request.  With none cached it makes exactly one
    request, for a single region: when the answer holds a region, that
    region's identifier and currency are returned and cached, and a
    later call, whatever the backend would answer then, returns the same
    and requests nothing; when the answer is empty, null is returned and
    nothing is cached; when the request fails, the failure is the
    caller's to handle and nothing is cached. *)
Theorem getDefaultRegion_cached_after_first_success
    (api api2 : Storefront) (s : Cache) :
  (forall r, cachedDefaultRegion s = Some r ->
     getDefaultRegion api s = (Normal (Some r), s))
  /\ (cachedDefaultRegion s = None ->
      requests (snd (getDefaultRegion api s)) = requests s ++ [ListRegions 1]
      /\ (forall r rest, listRegions api 1 = Normal (r :: rest) ->
            fst (getDefaultRegion api s)
            = Normal (Some {| region_ident := region_ident r;
                              region_currency := region_currency r |})
            /\ getDefaultRegion api2 (snd (getDefaultRegion api s))
               = (Normal (Some {| region_ident := region_ident r;
                                  region_currency := region_currency r |}),
                  snd (getDefaultRegion api s)))
      /\ (listRegions api 1 = Normal [] ->
          fst (getDefaultRegion api s) = Normal None
          /\ cachedDefaultRegion (snd (getDefaultRegion api s)) = None)
      /\ (forall x, listRegions api 1 = Thrown x ->
            fst (getDefaultRegion api s) = Thrown x
            /\ cachedDefaultRegion (snd (getDefaultRegion api s)) = None)).
Proof.
  destruct s as [cached reqs]. unfold getDefaultRegion. js_unfold. simpl.
  split.
  - intros r ->. reflexivity.
  - intros ->. simpl.
    destruct (listRegions api 1) as [[|r rest]|x]; simpl;
      (split; [reflexivity|]);
      (split; [intros r' rest' [=]; subst; split; reflexivity|]);
      (split; [intros [=]; split; reflexivity
              |intros x' [=]; subst; split; reflexivity]).
Qed.

Lemma getDefaultRegion_cached_witness :
  requests
    (snd (getDefaultRegion
            (answering_storefront sample_cart sample_cart sample_order
               [{| region_ident := "reg_eu"; region_currency := "eur" |}])
            {| cachedDefaultRegion := None; requests := [] |}))
  = [ListRegions 1]
  /\ getDefaultRegion failing_storefront
       (snd (getDefaultRegion
               (answering_storefront sample_cart sample_cart sample_order
                  [{| region_ident := "reg_eu"; region_currency := "eur" |}])
               {| cachedDefaultRegion := None; requests := [] |}))
     = (Normal (Some {| region_ident := "reg_eu"; region_currency := "eur" |}),
        snd (getDefaultRegion
               (answering_storefront sample_cart sample_cart sample_order
                  [{| region_ident := "reg_eu"; region_currency := "eur" |}])
               {| cachedDefaultRegion := None; requests := [] |})).
Proof.
  destruct (getDefaultRegion_cached_after_first_success
              (answering_storefront sample_cart sample_cart sample_order
                 [{| region_ident := "reg_eu"; region_currency := "eur" |}])
              failing_storefront
              {| cachedDefaultRegion := None; requests := [] |}) as (_ & H).
  destruct (H eq_refl) as (H1 & H2 & _).
  split; [exact H1|].
  destruct (H2 {| region_ident := "reg_eu"; region_currency := "eur" |} []
              eq_refl) as (_ & H3).
  exact H3.
Defined.

End RegionsProperties.

(** ** Order confirmation page *)

Section OrderConfirmationProperties.
Import OrderConfirmation.

(** X30: the order page's load.  The effect never throws and always
    ends with the loading flag off.  Without an [id] parameter, or with
    an empty one, it asks the backend nothing and shows "No order ID
    provided."; otherwise it asks for that order exactly once, and shows
    the order when the request succeeds and "Failed to load order
    details." when it fails.  Started from the page's initial state, it
    ends with either an order and no error, or an error and no order. *)
Theorem order_effect_outcomes
    (api : Storefront) (orderId : option string) (s : Page Hooks) :
  let s' := snd (effect api orderId s) in
  fst (effect api orderId s) = Normal tt
  /\ isLoading (hooks (island s')) = false
  /\ (orderId = None \/ orderId = Some "" ->
      calls s' = calls s
      /\ error (hooks (island s')) = Some "No order ID provided."
      /\ shown_order (hooks (island s')) = shown_order (hooks (island s)))
  /\ (forall id, orderId = Some id -> id <> "" ->
      calls s' = calls s ++ [RetrieveOrder id]
      /\ (forall r, retrieveOrder api id = Normal r ->
            shown_order (hooks (island s')) = Some (order r)
            /\ error (hooks (island s')) = error (hooks (island s)))
      /\ (forall x, retrieveOrder api id = Thrown x ->
            error (hooks (island s')) = Some "Failed to load order details."
            /\ shown_order (hooks (island s')) = shown_order (hooks (island s))))
  /\ (hooks (island s) = initialHooks ->
      (exists o, shown_order (hooks (island s')) = Some o
                 /\ error (hooks (island s')) = None)
      \/ (exists m, error (hooks (island s')) = Some m
                    /\ shown_order (hooks (island s')) = None)).
Proof.
  destruct (effect api orderId s) as [res s'] eqn:Hrun. simpl.
  destruct s as [[e [so il er]] p cl].
  unfold effect, setOrder, setIsLoading, setError in Hrun.
  destruct orderId as [id|]; [destruct (truthy id) eqn:Hid|].
  - page_unfold. simpl in Hrun.
    destruct (retrieveOrder api id) as [r|x] eqn:Hr; simpl in Hrun;
      injection Hrun as <- <-; simpl;
      do 2 (split; [reflexivity|]);
      (split; [intros [[=]|[= ->]]; discriminate|]);
      (split;
       [intros id' [= <-] _; rewrite Hr; split; [reflexivity|];
        split; [intros ? [=]; subst; split; reflexivity
               |intros ? [=]; subst; split; reflexivity]
       |intros [= -> -> ->]; eauto]).
  - apply truthy_false in Hid. subst id.
    page_unfold. simpl in Hrun. injection Hrun as <- <-; simpl.
    do 2 (split; [reflexivity|]).
    split; [intros _; repeat split|].
    split; [intros id' [= <-] H; congruence|].
    intros [= -> -> ->]. right. eauto.
  - page_unfold. simpl in Hrun. injection Hrun as <- <-; simpl.
    do 2 (split; [reflexivity|]).
    split; [intros _; repeat split|].
    split; [intros id' [=]|].
    intros [= -> -> ->]. right. eauto.
Qed.

Lemma order_effect_outcomes_witness :
  error
    (hooks (island (snd (effect failing_storefront (Some "")
                           (page0 (browser_env ∅ None) initialHooks)))))
  = Some "No order ID provided."
  /\ shown_order
       (hooks (island (snd (effect
                              (answering_storefront sample_cart sample_cart
                                 sample_order [])
                              (Some "order_01")
                              (page0 (browser_env ∅ None) initialHooks)))))
     = Some sample_order.
Proof.
  split.
  - destruct (order_effect_outcomes failing_storefront (Some "")
                (page0 (browser_env ∅ None) initialHooks))
      as (_ & _ & H & _).
    destruct H as (_ & H2 & _); [right; reflexivity|exact H2].
  - destruct (order_effect_outcomes
                (answering_storefront sample_cart sample_cart sample_order [])
                (Some "order_01")
                (page0 (browser_env ∅ None) initialHooks))
      as (_ & _ & _ & H & _).
    destruct (H "order_01" eq_refl ltac:(discriminate)) as (_ & H2 & _).
    destruct (H2 {| order := sample_order |} eq_refl) as (H3 & _).
    exact H3.
Defined.

End OrderConfirmationProperties.
